(** * Cerber TEAM / SOLO: connection-contract validation, module scaffolding,
      module-system stubs and feature flags

    A shallow embedding of
    - [team/scripts/cerber-connections-check.sh] (connection contract validation),
    - [team/scripts/cerber-add-module.sh] (module scaffolding),
    - [team/lib/module-system.ts] (TypeScript API stubs),
    - [solo/lib/feature-flags.ts] (feature flag lookup),
    together with the pattern matcher and the severity aggregator of the
    architecture document, which the repository only describes. *)

From Stdlib Require Import Ascii String List Arith Lia Bool.
From stdpp Require Import base strings list gmap fin_maps.

Local Open Scope string_scope.

(** ** Text utilities: the coreutils the scripts pipe through *)

Module Text.

(** The double quote, line feed and the characters of [[:space:]]. *)
Definition dquote : ascii := "034"%char.
Definition LF : ascii := "010"%char.
Definition q : string := String dquote EmptyString.

Definition is_space (c : ascii) : bool :=
  match nat_of_ascii c with
  | 32 | 9 | 10 | 11 | 12 | 13 => true
  | _ => false
  end.

Definition nonempty (s : string) : bool :=
  match s with EmptyString => false | String _ _ => true end.

(** Splitting on a one-character delimiter; the result always has at least
    one field. *)
Fixpoint split_on (d : ascii) (s : string) : list string :=
  match s with
  | EmptyString => [EmptyString]
  | String c s' =>
      if Ascii.eqb c d then EmptyString :: split_on d s'
      else match split_on d s' with
           | f :: fs => String c f :: fs
           | [] => [String c EmptyString]
           end
  end.

(** [lines]: the records that line-oriented tools (grep, sed, cut) see.  A
    final line feed terminates the last line rather than opening a new one. *)
Definition lines (s : string) : list string :=
  match s with
  | EmptyString => []
  | _ =>
      let fs := split_on LF s in
      match List.last fs (String LF EmptyString) with
      | EmptyString => removelast fs
      | _ => fs
      end
  end.

Fixpoint occurs (d : ascii) (s : string) : bool :=
  match s with
  | EmptyString => false
  | String c s' => Ascii.eqb c d || occurs d s'
  end.

(** [cut -d D -f N] on one line: a line without the delimiter is printed
    whole; otherwise the N-th field (1-based), empty when there is none. *)
Definition cut (d : ascii) (n : nat) (line : string) : string :=
  match split_on d line with
  | [_] => line
  | fs => nth (n - 1) fs EmptyString
  end.

(** [strip_prefix p s]: [Some r] when [s = p ++ r]. *)
Fixpoint strip_prefix (p s : string) : option string :=
  match p with
  | EmptyString => Some s
  | String a p' =>
      match s with
      | String b s' => if Ascii.eqb a b then strip_prefix p' s' else None
      | EmptyString => None
      end
  end.

(** Longest prefix whose characters satisfy [f], and the rest. *)
Fixpoint span (f : ascii -> bool) (s : string) : string * string :=
  match s with
  | EmptyString => (EmptyString, EmptyString)
  | String c s' =>
      if f c then let '(a, b) := span f s' in (String c a, b)
      else (EmptyString, s)
  end.

Definition not_dquote (c : ascii) : bool := negb (Ascii.eqb c dquote).

(** A match, anchored at the start of [s], of the basic regular expression
    of lines 82-83: the quoted field name, [[:space:]]*, a colon,
    [[:space:]]*, a double quote, any run of characters other than the
    double quote, and a closing double quote.  The result is the matched
    text. *)
Definition match_field_here (name s : string) : option string :=
  match strip_prefix (q ++ name ++ q) s with
  | None => None
  | Some r1 =>
      let '(sp1, r2) := span is_space r1 in
      match r2 with
      | String ":" r3 =>
          let '(sp2, r4) := span is_space r3 in
          match r4 with
          | String c r5 =>
              if Ascii.eqb c dquote then
                let '(val, r6) := span not_dquote r5 in
                match r6 with
                | String _ _ =>
                    Some (q ++ name ++ q ++ sp1 ++ ":" ++ sp2 ++ q ++ val ++ q)
                | EmptyString => None
                end
              else None
          | EmptyString => None
          end
      | _ => None
      end
  end.

(** Leftmost match in one line. *)
Fixpoint grep_o_line (name line : string) : option string :=
  match match_field_here name line with
  | Some m => Some m
  | None =>
      match line with
      | EmptyString => None
      | String _ rest => grep_o_line name rest
      end
  end.

(** [grep -o PATTERN file | head -1]: the first match of the first matching
    line, or nothing. *)
Fixpoint first_match (name : string) (ls : list string) : option string :=
  match ls with
  | [] => None
  | l :: ls' =>
      match grep_o_line name l with
      | Some m => Some m
      | None => first_match name ls'
      end
  end.

Definition grep_o_head1 (name text : string) : option string :=
  first_match name (lines text).

(** The sed substitution of lines 82-83 replaces the line by its group: a
    greedy [.*], a double quote, the group (a run free of double quotes), a
    double quote and [.*] again.  The greedy prefix leaves exactly the last
    two double quotes of the line around the group. *)
Fixpoint count_dquote (s : string) : nat :=
  match s with
  | EmptyString => 0
  | String c s' => (if Ascii.eqb c dquote then 1 else 0) + count_dquote s'
  end.

(** Text between the last two double quotes of [s], when [s] has two. *)
Fixpoint between_last_two (s : string) : string :=
  match s with
  | EmptyString => EmptyString
  | String c s' =>
      if Ascii.eqb c dquote && Nat.eqb (count_dquote s') 1
      then fst (span not_dquote s')
      else between_last_two s'
  end.

Definition sed_last_quoted (line : string) : string :=
  if Nat.leb 2 (count_dquote line) then between_last_two line else line.

(** The whole pipeline of lines 82-83; a command substitution with no
    output is the empty string. *)
Definition extract_field (name text : string) : string :=
  match grep_o_head1 name text with
  | Some m => sed_last_quoted m
  | None => EmptyString
  end.

(** Fixed-string containment, as [grep -q] with a pattern free of
    metacharacters decides it line by line. *)
Fixpoint contains_here (pat s : string) : bool :=
  match strip_prefix pat s with
  | Some _ => true
  | None =>
      match s with
      | EmptyString => false
      | String _ rest => contains_here pat rest
      end
  end.

Definition grep_q (pat text : string) : bool :=
  existsb (contains_here pat) (lines text).

(** [sed 's/PAT/REPL/g'] for a fixed pattern and a replacement free of
    sed metacharacters: every occurrence, left to right, not rescanned.
    [skip] counts the characters of a match still to be dropped. *)
Fixpoint replace_from (pat repl : string) (skip : nat) (s : string) : string :=
  match s with
  | EmptyString => EmptyString
  | String c s' =>
      match skip with
      | S k => replace_from pat repl k s'
      | O =>
          match pat, strip_prefix pat s with
          | String _ _, Some _ =>
              repl ++ replace_from pat repl (String.length pat - 1) s'
          | _, _ => String c (replace_from pat repl 0 s')
          end
      end
  end.

Definition replace_all (pat repl s : string) : string :=
  replace_from pat repl 0 s.

(** [head -n N]: the first N lines, line feeds included. *)
Fixpoint head_n (s : string) (n : nat) : string :=
  match s with
  | EmptyString => EmptyString
  | String c s' =>
      match n with
      | O => EmptyString
      | S n' => String c (head_n s' (if Ascii.eqb c LF then n' else n))
      end
  end.

(** [tail -n +K] is [drop_lines s (K - 1)]. *)
Fixpoint drop_lines (s : string) (n : nat) : string :=
  match s with
  | EmptyString => EmptyString
  | String c s' =>
      match n with
      | O => s
      | S n' => drop_lines s' (if Ascii.eqb c LF then n' else n)
      end
  end.

Definition tail_from (s : string) (k : nat) : string := drop_lines s (k - 1).

(** [grep -n PAT | head -1 | cut -d: -f1]: the 1-based number of the first
    line containing the fixed string, 0 standing for no output. *)
Fixpoint first_line_with (pat : string) (ls : list string) (n : nat) : nat :=
  match ls with
  | [] => 0
  | l :: ls' => if contains_here pat l then n else first_line_with pat ls' (S n)
  end.

Definition grep_n_first (pat text : string) : nat :=
  first_line_with pat (lines text) 1.

Definition nl : string := String LF EmptyString.

(** [basename]: the component after the last slash. *)
Definition basename (p : string) : string :=
  List.last (split_on "/"%char p) p.

End Text.

(** ** Severities

    The scripts print errors (red) and warnings (yellow); the failOn block of
    CERBER.md adds critical. *)

Inductive severity : Type := Warning | Error | Critical.

#[export] Instance severity_eq_dec : EqDecision severity.
Proof. solve_decision. Defined.

(** Anything that carries a severity. *)
Class Severe (A : Type) : Type := severity_of : A -> severity.

#[export] Instance severity_severe : Severe severity := fun s => s.

(** ** The file system, as far as the scripts observe it *)

Module FS.

(** Directories are a set of paths and regular files a map from path to
    content.  Paths are compared as written: the scripts build them by
    concatenation and never normalise them. *)
Record filesystem : Type := mkFS {
  dirs : gset string;
  files : gmap string string
}.

Definition is_dir (fs : filesystem) (p : string) : bool :=
  bool_decide (p ∈ dirs fs).

Definition is_file (fs : filesystem) (p : string) : bool :=
  bool_decide (is_Some (files fs !! p)).

Definition modules_root : string := ".cerber/modules".

Definition module_dir (name : string) : string :=
  modules_root ++ "/" ++ name.

End FS.

(** ** cerber-connections-check.sh *)

Module ConnectionsCheck.
Import Text FS.

(** One expansion of the glob of line 63, with what the script's tools
    report about it: [-f], the file's text, and the exit status of the two
    JSON parsers of lines 74-75. *)
Record contract : Type := mkContract {
  contract_path : string;
  contract_is_file : bool;
  contract_text : string;
  python_json_ok : bool;
  node_json_ok : bool
}.

(** What the script reads from its working directory. *)
Record environment : Type := mkEnv {
  connections_dir_exists : bool;       (* line 30 *)
  find_json_count : nat;               (* line 43: find ... | wc -l *)
  glob_contracts : list contract;      (* line 63, in glob order *)
  env_fs : filesystem                  (* lines 98-104 *)
}.

(** The lines the script prints about contracts and cycles.  The glyph of
    each line gives its severity: a red cross is an error, a yellow sign a
    warning. *)
Inductive message : Type :=
| Checking (name : string)                    (* line 71 *)
| InvalidJson                                 (* line 76 *)
| MissingFromOrTo                             (* line 86 *)
| ValidConnection (from to : string)          (* line 107 *)
| ModuleNotFound (name : string)              (* lines 110, 114 *)
| MissingInterface                            (* line 124 *)
| MissingVersion                              (* line 129 *)
| MissingBreakingChanges                      (* line 135 *)
| PotentialCircular (from to : string)        (* line 152 *)
| NoCircular                                  (* line 159 *)
| AllPassed                                   (* line 167 *)
| PassedWithWarnings (warnings : nat)         (* lines 173-176 *)
| CheckFailed (errors warnings : nat)         (* lines 180-183 *)
| NoConnectionsDir                            (* line 31 *)
| NoContracts.                                (* line 46 *)

#[export] Instance message_eq_dec : EqDecision message.
Proof. solve_decision. Defined.

(** The severity of a finding is the sign its line starts with: the red
    cross for an error, the yellow sign for a warning.  The notice of line
    31 carries the yellow sign although nothing is counted for it.  The
    three lines of the summary (lines 167, 173 and 180) give the verdict on
    the findings and are none themselves; the other lines are
    informational. *)
Definition message_severity (m : message) : option severity :=
  match m with
  | InvalidJson | MissingFromOrTo | ModuleNotFound _ => Some Error
  | MissingInterface | MissingVersion | MissingBreakingChanges
  | PotentialCircular _ _ | NoConnectionsDir => Some Warning
  | _ => None
  end.

(** The shell variables of the script, and its standard output.  The
    counters grow by a few units per document, so the 64-bit arithmetic of
    the shell never wraps and natural numbers stand for them. *)
Record state : Type := mkState {
  ERRORS : nat;
  WARNINGS : nat;
  CHECKED : nat;
  connections : gmap string string;
  out : list message
}.

Definition initial : state :=
  {| ERRORS := 0; WARNINGS := 0; CHECKED := 0; connections := ∅; out := [] |}.

Definition echo (m : message) (st : state) : state :=
  {| ERRORS := ERRORS st; WARNINGS := WARNINGS st; CHECKED := CHECKED st;
     connections := connections st; out := out st ++ [m] |}.

Definition incr_ERRORS (st : state) : state :=
  {| ERRORS := ERRORS st + 1; WARNINGS := WARNINGS st; CHECKED := CHECKED st;
     connections := connections st; out := out st |}.

Definition incr_WARNINGS (st : state) : state :=
  {| ERRORS := ERRORS st; WARNINGS := WARNINGS st + 1; CHECKED := CHECKED st;
     connections := connections st; out := out st |}.

Definition incr_CHECKED (st : state) : state :=
  {| ERRORS := ERRORS st; WARNINGS := WARNINGS st; CHECKED := CHECKED st + 1;
     connections := connections st; out := out st |}.

Definition store_connection (key : string) (st : state) : state :=
  {| ERRORS := ERRORS st; WARNINGS := WARNINGS st; CHECKED := CHECKED st;
     connections := <[key := "1"]> (connections st); out := out st |}.

(** An echo and the counter statement that follows it in the script: lines
    76-77, 86-87, 110-111 and 114-115 for ERRORS, lines 124-125, 129-130,
    135-136 and 152-154 for WARNINGS.  The echo of line 31 has no counter
    statement after it. *)
Definition report_error (m : message) (st : state) : state :=
  incr_ERRORS (echo m st).

Definition report_warning (m : message) (st : state) : state :=
  incr_WARNINGS (echo m st).

Definition when (b : bool) (f : state -> state) (st : state) : state :=
  if b then f st else st.

Definition connection_key (from to : string) : string :=
  from ++ "->" ++ to.

Definition FROM_MODULE (c : contract) : string :=
  extract_field "from" (contract_text c).

Definition TO_MODULE (c : contract) : string :=
  extract_field "to" (contract_text c).

Definition HAS_INTERFACE (c : contract) : bool :=
  grep_q (q ++ "interface" ++ q) (contract_text c).

Definition HAS_VERSION (c : contract) : bool :=
  grep_q (q ++ "version" ++ q) (contract_text c).

Definition has_breaking_changes (c : contract) : bool :=
  grep_q (q ++ "breaking_changes" ++ q) (contract_text c).

Definition json_syntax_ok (c : contract) : bool :=
  python_json_ok c || node_json_ok c.

(** Lines 94-117. *)
Definition check_modules_exist (fs : filesystem) (from to : string)
    (st : state) : state :=
  let FROM_EXISTS := is_dir fs (module_dir from) in
  let TO_EXISTS := is_dir fs (module_dir to) in
  if FROM_EXISTS && TO_EXISTS then echo (ValidConnection from to) st
  else
    when (negb TO_EXISTS) (report_error (ModuleNotFound to))
      (when (negb FROM_EXISTS) (report_error (ModuleNotFound from)) st).

(** Lines 119-137. *)
Definition check_fields (c : contract) (st : state) : state :=
  when (negb (has_breaking_changes c)) (report_warning MissingBreakingChanges)
    (when (negb (HAS_VERSION c)) (report_warning MissingVersion)
      (when (negb (HAS_INTERFACE c)) (report_warning MissingInterface) st)).

(** The body of the loop of lines 63-140; each [continue] ends the
    iteration with the state reached so far. *)
Definition process_contract (fs : filesystem) (st : state) (c : contract)
    : state :=
  if negb (contract_is_file c) then st
  else
    let st := echo (Checking (basename (contract_path c))) (incr_CHECKED st) in
    if negb (json_syntax_ok c) then report_error InvalidJson st
    else
      let from := FROM_MODULE c in
      let to := TO_MODULE c in
      if negb (nonempty from) || negb (nonempty to)
      then report_error MissingFromOrTo st
      else
        check_fields c
          (check_modules_exist fs from to
            (store_connection (connection_key from to) st)).

Definition process_contracts (fs : filesystem) (cs : list contract)
    (st : state) : state :=
  fold_left (process_contract fs) cs st.

(** Lines 146-156.  The expansion of an unset array element is empty. *)
Definition lookup_connection (conns : gmap string string) (key : string)
    : string :=
  default EmptyString (conns !! key).

Definition key_FROM (key : string) : string := cut "-" 1 key.
Definition key_TO (key : string) : string := cut ">" 2 key.

Definition has_reverse (conns : gmap string string) (key : string) : bool :=
  nonempty (lookup_connection conns (connection_key (key_TO key) (key_FROM key))).

(** Line 152. *)
Definition circular_line (key : string) : message :=
  PotentialCircular (key_FROM key) (key_TO key).

(** One iteration of the loop over the keys; the flag is CIRCULAR_FOUND. *)
Definition check_key (conns : gmap string string) (acc : state * bool)
    (key : string) : state * bool :=
  if has_reverse conns key
  then (report_warning (circular_line key) (fst acc), true)
  else acc.

(** The keys of the associative array, in the order the shell enumerates
    them.  Bash leaves that order unspecified; the model fixes one, and the
    properties below do not depend on it. *)
Definition keys (conns : gmap string string) : list string :=
  (map_to_list conns).*1.

Definition check_circular (st : state) : state :=
  let '(st', CIRCULAR_FOUND) :=
    fold_left (check_key (connections st)) (keys (connections st)) (st, false) in
  when (negb CIRCULAR_FOUND) (echo NoCircular) st'.

(** Lines 165-186. *)
Definition summary (st : state) : nat * state :=
  if Nat.eqb (ERRORS st) 0 && Nat.eqb (WARNINGS st) 0
  then (0, echo AllPassed st)
  else if Nat.eqb (ERRORS st) 0
  then (0, echo (PassedWithWarnings (WARNINGS st)) st)
  else (1, echo (CheckFailed (ERRORS st) (WARNINGS st)) st).

(** The script: exit status and final state. *)
Definition run (env : environment) : nat * state :=
  if negb (connections_dir_exists env) then (0, echo NoConnectionsDir initial)
  else if Nat.eqb (find_json_count env) 0 then (0, echo NoContracts initial)
  else
    summary (check_circular (process_contracts (env_fs env) (glob_contracts env) initial)).

Definition exit_status (env : environment) : nat := fst (run env).
Definition final_state (env : environment) : state := snd (run env).

(** The findings of a run: the severities of the printed lines that carry
    one, in print order. *)
Definition finding_severities (st : state) : list severity :=
  omap message_severity (out st).

Definition has_severity (s : severity) (m : message) : bool :=
  bool_decide (message_severity m = Some s).

Definition count_severity (s : severity) (ms : list message) : nat :=
  length (List.filter (has_severity s) ms).

(** The counters count the red and the yellow lines printed so far. *)
Definition counters_match_log (st : state) : Prop :=
  ERRORS st = count_severity Error (out st)
  /\ WARNINGS st = count_severity Warning (out st).

(** A document that reaches line 92: a regular file that a JSON parser
    accepts and whose from and to are not empty. *)
Definition stored (c : contract) : bool :=
  contract_is_file c && json_syntax_ok c
  && nonempty (FROM_MODULE c) && nonempty (TO_MODULE c).

Definition contract_key (c : contract) : string :=
  connection_key (FROM_MODULE c) (TO_MODULE c).

(** The script gets past its two early exits. *)
Definition has_contracts (env : environment) : Prop :=
  connections_dir_exists env = true /\ find_json_count env <> 0.

(** Shell tests as numbers, for sums. *)
Definition b2n (b : bool) : nat := if b then 1 else 0.

(** The cycle reports of a run. *)
Definition is_cycle_report (m : message) : bool :=
  match m with PotentialCircular _ _ => true | _ => false end.

Definition cycle_reports (st : state) : list message :=
  List.filter is_cycle_report (out st).

(** JSON objects for sample documents: one field per line, separated by
    commas. *)
Definition quoted (value : string) : string := q ++ value ++ q.

Definition field (name value : string) : string :=
  "  " ++ quoted name ++ ": " ++ value.

Fixpoint join_fields (fields : list string) : string :=
  match fields with
  | [] => EmptyString
  | [f] => f ++ nl
  | f :: fs => f ++ "," ++ nl ++ join_fields fs
  end.

Definition object_json (fields : list string) : string :=
  "{" ++ nl ++ join_fields fields ++ "}" ++ nl.

(** A connection document with every field the script looks for. *)
Definition connection_json (from to : string) : string :=
  object_json
    [field "from" (quoted from); field "to" (quoted to);
     field "interface" "{}"; field "version" (quoted "1.0.0");
     field "breaking_changes" "[]"].

Definition contract_file (path text : string) : contract :=
  {| contract_path := path; contract_is_file := true; contract_text := text;
     python_json_ok := true; node_json_ok := true |}.

Definition fs_with_modules (names : list string) : filesystem :=
  {| dirs := list_to_set (map module_dir names); files := ∅ |}.

Definition env_of (names : list string) (cs : list contract) : environment :=
  {| connections_dir_exists := true; find_json_count := length cs;
     glob_contracts := cs; env_fs := fs_with_modules names |}.

End ConnectionsCheck.

(** ** cerber-add-module.sh *)

Module AddModule.
Import Text FS.

Inductive report : Type :=
| ModuleNameRequired                  (* line 22 *)
| ModuleAlreadyExists (name : string) (* line 47 *)
| MkdirFailed                         (* line 58 under set -e *)
| BibleUpdateFailed                   (* lines 144 and 147 under set -e *)
| ModuleCreated (name : string).      (* line 167 *)

Record outcome : Type := mkOutcome {
  exit_code : nat;
  printed : report;
  fs_after : filesystem
}.

Definition TEMPLATE_DIR : string := "team/templates".
Definition BIBLE_PATH : string := ".cerber/BIBLE.md".

(** The script splices the module name into sed and grep programs.  The
    model covers the names of its naming convention, for which the name
    stands for itself there: letters, digits, hyphen and underscore, not
    starting with a hyphen. *)
Definition name_char (c : ascii) : bool :=
  let n := nat_of_ascii c in
  (Nat.leb 97 n && Nat.leb n 122) || (Nat.leb 65 n && Nat.leb n 90)
  || (Nat.leb 48 n && Nat.leb n 57) || Nat.eqb n 45 || Nat.eqb n 95.

Fixpoint all_chars (f : ascii -> bool) (s : string) : bool :=
  match s with
  | EmptyString => true
  | String c s' => f c && all_chars f s'
  end.

Definition plain_name (name : string) : bool :=
  match name with
  | EmptyString => false
  | String c _ => negb (Ascii.eqb c "-") && all_chars name_char name
  end.

Definition write_file (path content : string) (fs : filesystem) : filesystem :=
  {| dirs := dirs fs; files := <[path := content]> (files fs) |}.

Definition remove_file (path : string) (fs : filesystem) : filesystem :=
  {| dirs := dirs fs; files := delete path (files fs) |}.

(** [mkdir -p .cerber/modules/NAME] for a name without slash: the
    directory and its two ancestors; it fails when one of them is a
    regular file. *)
Definition mkdir_p_module (name : string) (fs : filesystem) : option filesystem :=
  let ps := [".cerber"; modules_root; module_dir name] in
  if existsb (is_file fs) ps then None
  else Some {| dirs := list_to_set ps ∪ dirs fs; files := files fs |}.

(** Lines 80-103. *)
Definition basic_module_md (name today : string) : string :=
  "# Module: " ++ name ++ nl ++ nl
  ++ "**Owner:** [Your Name]" ++ nl
  ++ "**Status:** Active" ++ nl
  ++ "**Last Updated:** " ++ today ++ nl ++ nl
  ++ "## Purpose" ++ nl ++ nl
  ++ "What this module does." ++ nl ++ nl
  ++ "## Responsibilities" ++ nl ++ nl
  ++ "- Responsibility 1" ++ nl
  ++ "- Responsibility 2" ++ nl ++ nl
  ++ "## Public Interface" ++ nl ++ nl
  ++ "Functions/classes that other modules can use." ++ nl ++ nl
  ++ "## Dependencies" ++ nl ++ nl
  ++ "Modules this module uses." ++ nl.

(** Lines 64-75: the template with both placeholders replaced. *)
Definition module_md_from_template (template name today : string) : string :=
  replace_all "YYYY-MM-DD" today (replace_all "[MODULE_NAME]" name template).

(** Lines 111-115 and 122-124. *)
Definition contract_json : string :=
  "{" ++ nl
  ++ "  " ++ q ++ "version" ++ q ++ ": " ++ q ++ "1.0.0" ++ q ++ "," ++ nl
  ++ "  " ++ q ++ "publicInterface" ++ q ++ ": {}," ++ nl
  ++ "  " ++ q ++ "dependencies" ++ q ++ ": []" ++ nl
  ++ "}" ++ nl.

Definition dependencies_json : string :=
  "{" ++ nl ++ "  " ++ q ++ "dependencies" ++ q ++ ": []" ++ nl ++ "}" ++ nl.

(** Lines 145-152. *)
Definition bible_entry (name : string) : string :=
  nl
  ++ "**" ++ name ++ "** - [Add description]" ++ nl
  ++ "   - Owner: [Your Name]" ++ nl
  ++ "   - Status: Active" ++ nl
  ++ "   - Files: `src/modules/" ++ name ++ "/`" ++ nl
  ++ nl.

(** Lines 128-165: the file system after them.  When BIBLE.md.bak is a
    directory, the cp of line 144 copies BIBLE.md into it, unless a
    directory of that name is in the way and cp fails; line 147 then
    empties BIBLE.md by its redirection before head fails on the
    directory.  Under set -e the script ends at the first command that
    fails. *)
Definition update_bible (name : string) (fs : filesystem) : filesystem :=
  match files fs !! BIBLE_PATH with
  | None => fs
  | Some bible =>
      if grep_q name bible then fs
      else if grep_q "### Core Modules" bible then
        let LINE_NUM := grep_n_first "### Core Modules" bible + 2 in
        if is_dir fs (BIBLE_PATH ++ ".bak") then
          if is_dir fs (BIBLE_PATH ++ ".bak/BIBLE.md") then fs
          else
            write_file BIBLE_PATH EmptyString
              (write_file (BIBLE_PATH ++ ".bak/BIBLE.md") bible fs)
        else
          remove_file (BIBLE_PATH ++ ".bak")
            (write_file BIBLE_PATH
               (head_n bible LINE_NUM ++ bible_entry name
                ++ tail_from bible (LINE_NUM + 1)) fs)
      else fs
  end.

(** Whether lines 128-165 end the script: the update is due and
    BIBLE.md.bak is a directory. *)
Definition update_bible_fails (name : string) (fs : filesystem) : bool :=
  match files fs !! BIBLE_PATH with
  | None => false
  | Some bible =>
      negb (grep_q name bible) && grep_q "### Core Modules" bible
      && is_dir fs (BIBLE_PATH ++ ".bak")
  end.

(** Lines 61-126.  With a template, sed -i.bak leaves a backup that line 70
    and line 75 remove again; without one, the here-document is written. *)
Definition create_files (name today : string) (fs : filesystem) : filesystem :=
  let MODULE_DIR := module_dir name in
  let fs1 :=
    match files fs !! (TEMPLATE_DIR ++ "/MODULE_TEMPLATE.md") with
    | Some template =>
        remove_file (MODULE_DIR ++ "/MODULE.md.bak")
          (write_file (MODULE_DIR ++ "/MODULE.md")
             (module_md_from_template template name today) fs)
    | None =>
        write_file (MODULE_DIR ++ "/MODULE.md") (basic_module_md name today) fs
    end in
  write_file (MODULE_DIR ++ "/dependencies.json") dependencies_json
    (write_file (MODULE_DIR ++ "/contract.json") contract_json fs1).

(** The script, run with first argument [arg1] on the day [today].  [None]
    stands for a name outside [plain_name], which the model does not
    cover beyond the two guards. *)
Definition add_module (today arg1 : string) (fs : filesystem) : option outcome :=
  if negb (nonempty arg1)
  then Some {| exit_code := 1; printed := ModuleNameRequired; fs_after := fs |}
  else if is_dir fs (module_dir arg1)
  then Some {| exit_code := 1; printed := ModuleAlreadyExists arg1; fs_after := fs |}
  else if negb (plain_name arg1) then None
  else
    match mkdir_p_module arg1 fs with
    | None => Some {| exit_code := 1; printed := MkdirFailed; fs_after := fs |}
    | Some fs1 =>
        let fs2 := create_files arg1 today fs1 in
        if update_bible_fails arg1 fs2
        then Some {| exit_code := 1; printed := BibleUpdateFailed;
                     fs_after := update_bible arg1 fs2 |}
        else Some {| exit_code := 0; printed := ModuleCreated arg1;
                     fs_after := update_bible arg1 fs2 |}
    end.

(** The module registry the scripts share: a module is registered when its
    directory exists (cerber-focus.sh line 36, cerber-module-check.sh line
    40, cerber-connections-check.sh lines 98-104), and its record is the
    three files kept there. *)
Record module_record : Type := mkRecord {
  MODULE_md : option string;
  contract : option string;
  dependencies : option string
}.

Definition resolve (fs : filesystem) (name : string) : option module_record :=
  if is_dir fs (module_dir name)
  then Some {| MODULE_md := files fs !! (module_dir name ++ "/MODULE.md");
               contract := files fs !! (module_dir name ++ "/contract.json");
               dependencies := files fs !! (module_dir name ++ "/dependencies.json") |}
  else None.

(** The registered names: the directories directly under .cerber/modules. *)
Definition module_name_of (path : string) : option string :=
  match strip_prefix (modules_root ++ "/") path with
  | Some name =>
      if nonempty name && Nat.eqb (length (split_on "/" name)) 1
      then Some name else None
  | None => None
  end.

Definition registered (fs : filesystem) : list string :=
  omap module_name_of (elements (dirs fs)).

Definition registry_size (fs : filesystem) : nat := length (registered fs).

End AddModule.

(** ** team/lib/module-system.ts *)

Module ModuleSystem.

Inductive status : Type := active | deprecated | planned.

Record Module_ : Type := {
  name : string; owner : string; module_status : status; path : string
}.

Record FunctionSignature : Type := {
  fn_name : string; params : gmap string string; returns : string;
  description : string
}.

Record ModuleContract : Type := {
  mc_version : string;
  publicInterface : gmap string FunctionSignature;
  mc_dependencies : list string
}.

Inductive connection_type : Type := function_call | event | data_flow.

Record Connection : Type := {
  id : string; from : string; to : string; type : connection_type;
  interface : string; version : option string;
  breaking_changes : option (list string); notes : option string
}.

Record ValidationResult : Type := {
  valid : bool; errors : list string; warnings : list string
}.

(** How a call ends: with a value, or with a thrown [Error] and its
    message. *)
Inductive completion (A : Type) : Type :=
| Return (value : A)
| Throw (message : string).
Arguments Return {A} value.
Arguments Throw {A} message.

Definition loadModule (moduleName : string) : completion Module_ :=
  Throw "Not implemented - use bash scripts for now".

Definition loadContract (moduleName : string) : completion ModuleContract :=
  Throw "Not implemented - use bash scripts for now".

Definition validateModule (moduleName : string) : completion ValidationResult :=
  Throw "Not implemented - use cerber-module-check.sh".

Definition validateConnections (_ : unit) : completion (list ValidationResult) :=
  Throw "Not implemented - use cerber-connections-check.sh".

Definition createFocusContext (moduleName : string) : completion string :=
  Throw "Not implemented - use cerber-focus.sh".

Definition listModules (_ : unit) : completion (list Module_) :=
  Throw "Not implemented - use bash to list .cerber/modules".

Definition getModuleDependencies (moduleName : string) : completion (list string) :=
  Throw "Not implemented - parse dependencies.json directly".

Definition detectCircularDependencies (_ : unit) : completion (list (list string)) :=
  Throw "Not implemented - use cerber-connections-check.sh".

Definition getModuleConnections (moduleName : string) : completion (list Connection) :=
  Throw "Not implemented - grep .cerber/connections/contracts".

Definition throws_not_implemented {A} (c : completion A) : Prop :=
  match c with
  | Throw msg => Text.strip_prefix "Not implemented" msg <> None
  | Return _ => False
  end.

End ModuleSystem.

(** ** solo/lib/feature-flags.ts *)

Module FeatureFlags.

Record FlagConfig : Type := mkFlag {
  enabled : bool;
  description : string;
  owner : string;
  expiresAt : option string;
  environments : option (list string)
}.

(** The own properties of a FeatureFlagsConfig object. *)
Abbreviation FeatureFlagsConfig := (gmap string FlagConfig).

Definition defaultFlags : FeatureFlagsConfig :=
  {[ "example-feature" :=
       {| enabled := false; description := "Example feature flag";
          owner := "team"; expiresAt := None;
          environments := Some ["development"] |} ]}.

(** Spreading [config] after [defaultFlags]: the later source wins. *)
Definition initializeFeatureFlags (config : FeatureFlagsConfig)
    : FeatureFlagsConfig :=
  config ∪ defaultFlags.

(** What the function reads besides the flags: the NODE_ENV variable of
    the process, the clock (milliseconds since the epoch), and the engine's
    date parser, which gives no time value for an invalid date. *)
Record runtime : Type := mkRuntime {
  NODE_ENV : option string;
  now : Z;
  Date_parse : string -> option Z
}.

(** Property read [featureFlags[flag]]: an own property, else a member
    inherited from Object.prototype, else undefined. *)
Inductive property : Type :=
| Own (config : FlagConfig)
| Inherited
| Undefined.

Definition Object_prototype_keys : list string :=
  ["constructor"; "toString"; "toLocaleString"; "valueOf"; "hasOwnProperty";
   "isPrototypeOf"; "propertyIsEnumerable"; "__proto__";
   "__defineGetter__"; "__defineSetter__"; "__lookupGetter__";
   "__lookupSetter__"].

Definition get (featureFlags : FeatureFlagsConfig) (flag : string) : property :=
  match featureFlags !! flag with
  | Some c => Own c
  | None =>
      if bool_decide (flag ∈ Object_prototype_keys) then Inherited
      else Undefined
  end.

Inductive warning : Type :=
| FlagNotFound (flag : string)
| FlagExpired (flag expiresAt : string).

(** [process.env.NODE_ENV || "development"]: the empty string is falsy. *)
Definition currentEnv (rt : runtime) : string :=
  match NODE_ENV rt with
  | Some (String c s) => String c s
  | _ => "development"
  end.

(** [new Date(s)] has a time value when the engine parses [s]; the empty
    string never parses. *)
Definition new_Date (rt : runtime) (s : string) : option Z :=
  match s with
  | EmptyString => None
  | _ => Date_parse rt s
  end.

(** [now > expiryDate]: false when the expiry is an invalid date. *)
Definition later_than (now : Z) (expiryDate : option Z) : bool :=
  match expiryDate with
  | Some t => Z.ltb t now
  | None => false
  end.

(** The result and what was passed to console.warn. *)
Definition isFeatureEnabled (rt : runtime) (featureFlags : FeatureFlagsConfig)
    (flag : string) : bool * list warning :=
  match get featureFlags flag with
  | Undefined => (false, [FlagNotFound flag])
  | Inherited => (false, [])
  | Own config =>
      if negb (enabled config) then (false, [])
      else
        let env_ok :=
          match environments config with
          | Some (e :: es) => bool_decide (currentEnv rt ∈ e :: es)
          | _ => true
          end in
        if negb env_ok then (false, [])
        else
          match expiresAt config with
          | Some (String c s) =>
              let expiresAt := String c s in
              if later_than (now rt) (new_Date rt expiresAt)
              then (false, [FlagExpired flag expiresAt])
              else (true, [])
          | _ => (true, [])
          end
  end.

(** When the flag is on: present, enabled, allowed in the current
    environment, and not past its expiry. *)
Definition enabled_when (rt : runtime) (featureFlags : FeatureFlagsConfig)
    (flag : string) : Prop :=
  exists config,
    featureFlags !! flag = Some config
    /\ enabled config = true
    /\ (forall es, environments config = Some es -> es <> [] ->
          currentEnv rt ∈ es)
    /\ (forall d, expiresAt config = Some d ->
          later_than (now rt) (new_Date rt d) = false).

(** The same property as the sentence about isFeatureEnabled words it:
    NODE_ENV counts as given whenever it is set. *)
Definition stated_env (rt : runtime) : string :=
  match NODE_ENV rt with
  | Some e => e
  | None => "development"
  end.

Definition stated_enabled (rt : runtime) (featureFlags : FeatureFlagsConfig)
    (flag : string) : Prop :=
  exists config,
    featureFlags !! flag = Some config
    /\ enabled config = true
    /\ (forall es, environments config = Some es -> es <> [] ->
          stated_env rt ∈ es)
    /\ (forall d, expiresAt config = Some d ->
          later_than (now rt) (new_Date rt d) = false).

End FeatureFlags.

(** ** The pattern matcher and the severity aggregator

    The repository ships the schema these work on (BACKEND_SCHEMA in
    CERBER.md) but not the code, which lives in the cerber-core sources; both
    are modelled from the architecture document. *)

Module Guardian.

(** Regular expressions over bytes, matched with derivatives. *)
Inductive regex : Type :=
| Void
| Eps
| Class (f : ascii -> bool)
| Cat (r1 r2 : regex)
| Alt (r1 r2 : regex)
| Star (r : regex).

Fixpoint nullable (r : regex) : bool :=
  match r with
  | Void => false
  | Eps => true
  | Class _ => false
  | Cat r1 r2 => nullable r1 && nullable r2
  | Alt r1 r2 => nullable r1 || nullable r2
  | Star _ => true
  end.

Fixpoint deriv (c : ascii) (r : regex) : regex :=
  match r with
  | Void | Eps => Void
  | Class f => if f c then Eps else Void
  | Cat r1 r2 =>
      if nullable r1 then Alt (Cat (deriv c r1) r2) (deriv c r2)
      else Cat (deriv c r1) r2
  | Alt r1 r2 => Alt (deriv c r1) (deriv c r2)
  | Star r' => Cat (deriv c r') (Star r')
  end.

(** Length of the longest match that starts at the head of [s]. *)
Fixpoint longest_match (r : regex) (s : string) : option nat :=
  match s with
  | EmptyString => if nullable r then Some 0 else None
  | String c s' =>
      match longest_match (deriv c r) s' with
      | Some n => Some (S n)
      | None => if nullable r then Some 0 else None
      end
  end.

(** Matches found left to right without overlap; [skip] counts the
    characters of the last match still to pass. *)
Fixpoint count_matches_from (r : regex) (skip : nat) (s : string) : nat :=
  match s with
  | EmptyString => 0
  | String _ s' =>
      match skip with
      | S k => count_matches_from r k s'
      | O =>
          match longest_match r s with
          | Some n => 1 + count_matches_from r (n - 1) s'
          | None => count_matches_from r 0 s'
          end
      end
  end.

Definition count_matches (r : regex) (s : string) : nat :=
  count_matches_from r 0 s.

(** Regex builders. *)
Definition lower (c : ascii) : ascii :=
  let n := nat_of_ascii c in
  if Nat.leb 65 n && Nat.leb n 90 then ascii_of_nat (n + 32) else c.

Definition chr_i (c : ascii) : regex :=
  Class (fun d => Ascii.eqb (lower d) (lower c)).

Fixpoint lit_i (s : string) : regex :=
  match s with
  | EmptyString => Eps
  | String c s' => Cat (chr_i c) (lit_i s')
  end.

Definition one_of (cs : list ascii) : regex :=
  Class (fun d => existsb (Ascii.eqb d) cs).

Definition none_of (cs : list ascii) : regex :=
  Class (fun d => negb (existsb (Ascii.eqb d) cs)).

Definition plus (r : regex) : regex := Cat r (Star r).

(** A fixed run of bytes, and one byte of a range. *)
Fixpoint bytes (ns : list nat) : regex :=
  match ns with
  | [] => Eps
  | n :: ns' => Cat (Class (fun d => Nat.eqb (nat_of_ascii d) n)) (bytes ns')
  end.

Definition byte_range (lo hi : nat) : regex :=
  Class (fun d => Nat.leb lo (nat_of_ascii d) && Nat.leb (nat_of_ascii d) hi).

(** The white space of a JavaScript regular expression, on the UTF-8 bytes
    of a text: the six ASCII characters, and the encodings of U+00A0,
    U+1680, U+2000 to U+200A, U+2028, U+2029, U+202F, U+205F, U+3000 and
    U+FEFF. *)
Definition whitespace : regex :=
  Alt (Class Text.is_space)
    (Alt (bytes [194; 160])
      (Alt (bytes [225; 154; 128])
        (Alt (Cat (bytes [226; 128])
                (Alt (byte_range 128 138)
                   (Alt (byte_range 168 169) (byte_range 175 175))))
          (Alt (bytes [226; 129; 159])
            (Alt (bytes [227; 128; 128]) (bytes [239; 187; 191])))))).

(** CERBER.md line 109: password, white space, an equals sign, white
    space, a quoted non-empty run without quotes; case-insensitive. *)
Definition hardcoded_password : regex :=
  let quote := ["'"%char; Text.dquote] in
  Cat (lit_i "password")
    (Cat (Star whitespace)
      (Cat (lit_i "=")
        (Cat (Star whitespace)
          (Cat (one_of quote) (Cat (plus (none_of quote)) (one_of quote)))))).

(** Globs: a question mark and a star stay within a path component, a
    double star crosses components. *)
Inductive glob_token : Type :=
| GChar (c : ascii)
| GAny
| GStar
| GStarStar.

Fixpoint parse_glob (s : string) : list glob_token :=
  match s with
  | EmptyString => []
  | String "*" (String "*" r) => GStarStar :: parse_glob r
  | String "*" r => GStar :: parse_glob r
  | String "?" r => GAny :: parse_glob r
  | String c r => GChar c :: parse_glob r
  end.

Definition not_slash (c : ascii) : bool := negb (Ascii.eqb c "/").

Fixpoint glob_tokens_match (p : list glob_token) (s : string) {struct p} : bool :=
  match p with
  | [] => negb (Text.nonempty s)
  | GChar c :: p' =>
      match s with
      | String d s' => Ascii.eqb c d && glob_tokens_match p' s'
      | EmptyString => false
      end
  | GAny :: p' =>
      match s with
      | String d s' => not_slash d && glob_tokens_match p' s'
      | EmptyString => false
      end
  | GStar :: p' =>
      (fix star (s : string) : bool :=
         glob_tokens_match p' s
         || match s with
            | String d s' => not_slash d && star s'
            | EmptyString => false
            end) s
  | GStarStar :: p' =>
      (fix star (s : string) : bool :=
         glob_tokens_match p' s
         || match s with
            | String _ s' => star s'
            | EmptyString => false
            end) s
  end.

Definition glob_match (glob path : string) : bool :=
  glob_tokens_match (parse_glob glob) path.

(** Modelled from the spec: the Rule of the data model (section 3). *)
Record Rule : Type := mkRule {
  pattern : regex;
  rule_name : string;
  rule_severity : severity;
  exceptions : list string;
  appliesTo : option string
}.

Inductive finding_kind : Type := pattern_match | scan_error.

(** Modelled from the spec: the Finding of the data model (section 3). *)
Record Finding : Type := mkFinding {
  rule : Rule;
  file : string;
  finding_severity : severity;
  kind : finding_kind
}.

#[export] Instance finding_severe : Severe Finding := finding_severity.

(** A scanned file: its path relative to the root and its content, [None]
    when it cannot be read. *)
Definition tree : Type := list (string * option string).

Definition excepted (r : Rule) (path : string) : bool :=
  existsb (fun g => glob_match g path) (exceptions r).

Definition in_scope (r : Rule) (path : string) : bool :=
  match appliesTo r with
  | Some g => glob_match g path
  | None => true
  end.

(** Modelled from the spec: what section 4.1 has one rule contribute for
    one file: nothing for an ignored, out-of-scope or excepted file, a
    scan-error warning for an unreadable one, else one Finding per match. *)
Definition scan_file (ignored : string -> bool) (r : Rule)
    (f : string * option string) : list Finding :=
  let '(path, content) := f in
  if ignored path || negb (in_scope r path) || excepted r path then []
  else
    match content with
    | None =>
        [{| rule := r; file := path; finding_severity := Warning;
            kind := scan_error |}]
    | Some text =>
        repeat {| rule := r; file := path;
                  finding_severity := rule_severity r;
                  kind := pattern_match |}
               (count_matches (pattern r) text)
    end.

(** Modelled from the spec: the scan contract of section 4.1, the pattern
    matcher missing from the sources: for each rule, for each file. *)
Definition scan (ignored : string -> bool) (t : tree) (ruleset : list Rule)
    : list Finding :=
  flat_map (fun r => flat_map (scan_file ignored r) t) ruleset.

(** The failOn block (CERBER.md lines 19-22). *)
Record FailOn : Type := mkFailOn {
  critical : bool;
  error : bool;
  warning : bool
}.

Definition health_failOn : FailOn :=
  {| critical := true; error := true; warning := false |}.

Definition fails_on (failOn : FailOn) (s : severity) : bool :=
  match s with
  | Critical => critical failOn
  | Error => error failOn
  | Warning => warning failOn
  end.

Record verdict : Type := mkVerdict {
  ok : bool;
  counts : severity -> nat
}.

Definition count_of {A} `{Severe A} (findings : list A) (s : severity) : nat :=
  length (List.filter (fun f => bool_decide (severity_of f = s)) findings).

(** Modelled from the spec: the evaluate contract of section 4.2, the
    severity aggregator missing from the sources: the run fails when a
    severity enabled in failOn has a nonzero count. *)
Definition evaluate {A} `{Severe A} (findings : list A) (failOn : FailOn)
    : verdict :=
  let n := count_of findings in
  {| ok := negb (existsb (fun s => fails_on failOn s && negb (Nat.eqb (n s) 0))
                   [Critical; Error; Warning]);
     counts := n |}.

End Guardian.


(** ** Sample inputs *)

Module Samples.
Import Text FS ConnectionsCheck.

Definition contracts_dir : string := ".cerber/connections/contracts/".

(** The two documents of the mutual-dependency scenario. *)
Definition mutual (a b : string) : list contract :=
  [contract_file (contracts_dir ++ "a-to-b.json") (connection_json a b);
   contract_file (contracts_dir ++ "b-to-a.json") (connection_json b a)].

Definition env_mutual_ab : environment :=
  env_of ["a"; "b"] (mutual "a" "b").

Definition env_mutual_kebab : environment :=
  env_of ["pricing-engine"; "booking-calendar"]
         (mutual "pricing-engine" "booking-calendar").

(** A connection from an unregistered module. *)
Definition ghost_file : contract :=
  contract_file (contracts_dir ++ "ghost-to-a.json") (connection_json "ghost" "a").

Definition env_ghost : environment := env_of ["a"] [ghost_file].

(** A self-loop. *)
Definition self_loop_file : contract :=
  contract_file (contracts_dir ++ "a-to-a.json") (connection_json "a" "a").

Definition env_self : environment := env_of ["a"] [self_loop_file].

(** A document with neither from nor to, one without version and
    breaking_changes, and one that is not JSON, followed by a sound one. *)
Definition no_endpoints_json : string :=
  object_json [field "interface" "{}"].

Definition bare_json (from to : string) : string :=
  object_json
    [field "from" (quoted from); field "to" (quoted to); field "interface" "{}"].

Definition broken_file : contract :=
  {| contract_path := contracts_dir ++ "0-broken.json"; contract_is_file := true;
     contract_text := "{"; python_json_ok := false; node_json_ok := false |}.

Definition bare_file : contract :=
  contract_file (contracts_dir ++ "3-bare.json") (bare_json "a" "b").

(** A document without from, version and breaking_changes, and one whose
    only from stands inside its interface. *)
Definition no_from_json : string :=
  object_json [field "to" (quoted "b"); field "interface" "{}"].

Definition no_from_file : contract :=
  contract_file (contracts_dir ++ "no-from.json") no_from_json.

Definition nested_from_json : string :=
  object_json
    [field "to" (quoted "b");
     field "interface" ("{ " ++ quoted "from" ++ ": " ++ quoted "a" ++ " }");
     field "version" (quoted "1.0.0"); field "breaking_changes" "[]"].

Definition nested_from_file : contract :=
  contract_file (contracts_dir ++ "nested-from.json") nested_from_json.

Definition env_mixed : environment :=
  env_of ["a"; "b"]
    [broken_file;
     contract_file (contracts_dir ++ "1-none.json") no_endpoints_json;
     contract_file (contracts_dir ++ "2-ghost.json") (connection_json "ghost" "b");
     bare_file].

(** A project with the module billing, created on the first of January;
    the template and the date are different a month later. *)
Definition empty_fs : filesystem := {| dirs := ∅; files := ∅ |}.

Definition fs_billing : filesystem :=
  match AddModule.add_module "2026-01-01" "billing" empty_fs with
  | Some o => AddModule.fs_after o
  | None => empty_fs
  end.

Definition fs_billing_new_template : filesystem :=
  AddModule.write_file (AddModule.TEMPLATE_DIR ++ "/MODULE_TEMPLATE.md")
    ("# Module: [MODULE_NAME]" ++ nl ++ "**Owner:** payments" ++ nl
     ++ "**Last Updated:** YYYY-MM-DD" ++ nl)
    fs_billing.

(** The hard-coded password rule of CERBER.md line 109, with the exception
    of the scenario, and the two files of the scenario. *)
Definition password_rule : Guardian.Rule :=
  {| Guardian.pattern := Guardian.hardcoded_password;
     Guardian.rule_name := "Hardcoded passwords";
     Guardian.rule_severity := Error;
     Guardian.exceptions := [".env.example"];
     Guardian.appliesTo := None |}.

Definition password_text : string := "password = " ++ q ++ "x" ++ q.

Definition password_tree : Guardian.tree :=
  [("config.ts", Some password_text); (".env.example", Some password_text)].

Definition nothing_ignored (path : string) : bool := false.

(** A flag restricted to development, in a process whose NODE_ENV is set
    to the empty string. *)
Definition beta_flag : FeatureFlags.FlagConfig :=
  {| FeatureFlags.enabled := true; FeatureFlags.description := "Beta";
     FeatureFlags.owner := "team"; FeatureFlags.expiresAt := None;
     FeatureFlags.environments := Some ["development"] |}.

Definition beta_flags : gmap string FeatureFlags.FlagConfig :=
  FeatureFlags.initializeFeatureFlags {[ "beta" := beta_flag ]}.

Definition no_dates (s : string) : option Z := None.

Definition rt_empty_env : FeatureFlags.runtime :=
  {| FeatureFlags.NODE_ENV := Some EmptyString; FeatureFlags.now := 0%Z;
     FeatureFlags.Date_parse := no_dates |}.

Definition rt_unset_env : FeatureFlags.runtime :=
  {| FeatureFlags.NODE_ENV := None; FeatureFlags.now := 0%Z;
     FeatureFlags.Date_parse := no_dates |}.

End Samples.

(** ** The connection check: derived notions *)

Module ConnectionsExtra.
Import Text FS ConnectionsCheck.

(** The summary line for given numbers of errors and warnings (lines
    165-186). *)
Definition summary_line (errors warnings : nat) : message :=
  if Nat.eqb errors 0
  then if Nat.eqb warnings 0 then AllPassed else PassedWithWarnings warnings
  else CheckFailed errors warnings.

(** What [cut -f1] keeps of a name: the part before its first delimiter. *)
Definition first_field (d : ascii) (name : string) : string :=
  hd EmptyString (split_on d name).

(** A one-line JSON field as the script's grep expects it: the quoted
    name, white space, a colon, white space, the quoted value. *)
Definition field_text (name sp1 sp2 value : string) : string :=
  q ++ name ++ q ++ sp1 ++ ":" ++ sp2 ++ q ++ value ++ q.

(** The same contracts seen against another state of the file system. *)
Definition with_fs (env : environment) (fs : filesystem) : environment :=
  {| connections_dir_exists := connections_dir_exists env;
     find_json_count := find_json_count env;
     glob_contracts := glob_contracts env;
     env_fs := fs |}.

Fixpoint all_space (s : string) : bool :=
  match s with
  | EmptyString => true
  | String c s' => is_space c && all_space s'
  end.

End ConnectionsExtra.

(** ** Adding a module: derived notions *)

Module AddModuleExtra.
Import Text FS AddModule.

(** The MODULE.md a run writes: the template with its placeholders
    replaced when there is one, else the here-document. *)
Definition module_md (name today : string) (fs : filesystem) : string :=
  match files fs !! (TEMPLATE_DIR ++ "/MODULE_TEMPLATE.md") with
  | Some template => module_md_from_template template name today
  | None => basic_module_md name today
  end.

(** The paths a run may write or remove; the last one is where cp puts
    its copy when BIBLE.md.bak is a directory. *)
Definition touched_paths (name : string) : list string :=
  [module_dir name ++ "/MODULE.md"; module_dir name ++ "/MODULE.md.bak";
   module_dir name ++ "/contract.json"; module_dir name ++ "/dependencies.json";
   BIBLE_PATH; BIBLE_PATH ++ ".bak"; BIBLE_PATH ++ ".bak/BIBLE.md"].

(** The places where [mkdir -p] of line 58 must not find a regular file. *)
Definition blocked (name : string) (fs : filesystem) : bool :=
  existsb (is_file fs) [".cerber"; modules_root; module_dir name].

End AddModuleExtra.

(** ** cerber-module-check.sh *)

Module ModuleCheck.
Import Text FS.

(** The two JSON parsers of lines 75-76 and 101-102, as the exit status
    they give on a file's text. *)
Record json_tools : Type := mkTools {
  python_json_tool : string -> bool;
  node_JSON_parse : string -> bool
}.

Definition valid_json (tools : json_tools) (text : string) : bool :=
  python_json_tool tools text || node_JSON_parse tools text.

Inductive line : Type :=
| ModuleNameRequired                   (* line 21 *)
| ModuleDirNotFound                    (* line 42 *)
| ModuleMdExists                       (* line 48 *)
| ModuleMdSectionsOk                   (* line 54 *)
| ModuleMdSectionsMissing              (* line 56 *)
| ModuleMdUnmodifiedTemplate           (* line 62 *)
| ModuleMdMissing                      (* line 66 *)
| ContractExists                       (* line 72 *)
| ContractValidJson                    (* line 77 *)
| ContractFieldsOk                     (* line 82 *)
| ContractFieldsMissing                (* line 84 *)
| ContractInvalidJson                  (* line 88 *)
| ContractMissing                      (* line 92 *)
| DependenciesExists                   (* line 98 *)
| DependenciesValidJson                (* line 103 *)
| DependencyNotFound (dep : string)    (* line 115 *)
| AllDependenciesValid                 (* line 121 *)
| DependenciesInvalidJson              (* line 126 *)
| DependenciesMissing                  (* line 130 *)
| SourceDirectoryFound                 (* line 137 *)
| CheckPassed                          (* line 146 *)
| CheckPassedWithWarnings (warnings : nat)   (* lines 152-154 *)
| CheckFailed (errors warnings : nat).       (* lines 159-161 *)

(** The severity of a finding is the sign its line starts with: the red
    cross for an error, the yellow sign for a warning.  The lines of the two
    guards (lines 21 and 42) are red, although they are printed before the
    counters are in use.  The three lines of the summary (lines 146, 152
    and 159) give the verdict on the findings and are none themselves. *)
Definition line_severity (l : line) : option severity :=
  match l with
  | ModuleNameRequired | ModuleDirNotFound
  | ModuleMdMissing | ContractInvalidJson | ContractMissing
  | DependenciesInvalidJson => Some Error
  | ModuleMdSectionsMissing | ModuleMdUnmodifiedTemplate
  | ContractFieldsMissing | DependencyNotFound _ | DependenciesMissing =>
      Some Warning
  | _ => None
  end.

Record state : Type := mkState {
  ERRORS : nat;
  WARNINGS : nat;
  out : list line
}.

Definition initial : state := {| ERRORS := 0; WARNINGS := 0; out := [] |}.

(** [say]: an echo.  [error] and [warn]: an echo and the counter statement
    that follows it in the script (lines 66-67, 88-89, 92-93 and 126-127
    for ERRORS; lines 56-57, 62-63, 84-85, 115-116 and 130-131 for
    WARNINGS). *)
Definition say (l : line) (st : state) : state :=
  {| ERRORS := ERRORS st; WARNINGS := WARNINGS st; out := out st ++ [l] |}.

Definition error (l : line) (st : state) : state :=
  {| ERRORS := ERRORS st + 1; WARNINGS := WARNINGS st; out := out st ++ [l] |}.

Definition warn (l : line) (st : state) : state :=
  {| ERRORS := ERRORS st; WARNINGS := WARNINGS st + 1; out := out st ++ [l] |}.

(** The text of a regular file ([-f] and the reads that follow it). *)
Definition read (fs : filesystem) (path : string) : option string :=
  files fs !! path.

(** Lines 46-68. *)
Definition check_module_md (fs : filesystem) (MODULE_DIR : string)
    (st : state) : state :=
  match read fs (MODULE_DIR ++ "/MODULE.md") with
  | Some md =>
      let st1 := say ModuleMdExists st in
      let st2 :=
        if grep_q "## Purpose" md && grep_q "## Responsibilities" md
           && grep_q "## Public Interface" md
        then say ModuleMdSectionsOk st1
        else warn ModuleMdSectionsMissing st1 in
      if grep_q "[MODULE_NAME]" md
      then warn ModuleMdUnmodifiedTemplate st2
      else st2
  | None => error ModuleMdMissing st
  end.

(** Lines 70-94. *)
Definition check_contract (tools : json_tools) (fs : filesystem)
    (MODULE_DIR : string) (st : state) : state :=
  match read fs (MODULE_DIR ++ "/contract.json") with
  | Some text =>
      let st1 := say ContractExists st in
      if valid_json tools text then
        let st2 := say ContractValidJson st1 in
        if grep_q (q ++ "version" ++ q) text
           && grep_q (q ++ "publicInterface" ++ q) text
        then say ContractFieldsOk st2
        else warn ContractFieldsMissing st2
      else error ContractInvalidJson st1
  | None => error ContractMissing st
  end.

(** Line 108, first stage: every double-quoted run of a line, left to right
    and without overlap, its quotes deleted by tr.  [skip] counts the
    characters of the last match still to pass. *)
Fixpoint quoted_from (skip : nat) (s : string) : list string :=
  match s with
  | EmptyString => []
  | String c s' =>
      match skip with
      | S k => quoted_from k s'
      | O =>
          if Ascii.eqb c dquote then
            let '(val, r) := span not_dquote s' in
            match r with
            | String _ _ => val :: quoted_from (S (String.length val)) s'
            | EmptyString => quoted_from 0 s'
            end
          else quoted_from 0 s'
      end
  end.

Definition quoted_strings (text : string) : list string :=
  flat_map (quoted_from 0) (lines text).

(** Line 108, last stage: the lines without the word dependencies. *)
Definition dependency_lines (text : string) : list string :=
  List.filter (fun v => negb (contains_here "dependencies" v))
    (quoted_strings text).

(** What a command substitution keeps of an output: all but the line feeds
    at its end. *)
Fixpoint all_LF (s : string) : bool :=
  match s with
  | EmptyString => true
  | String c s' => Ascii.eqb c LF && all_LF s'
  end.

Fixpoint strip_trailing_LF (s : string) : string :=
  match s with
  | EmptyString => EmptyString
  | String c s' => if all_LF s then EmptyString else String c (strip_trailing_LF s')
  end.

Fixpoint unlines (ls : list string) : string :=
  match ls with
  | [] => EmptyString
  | l :: ls' => l ++ nl ++ unlines ls'
  end.

(** The variable deps of line 108. *)
Definition deps (text : string) : string :=
  strip_trailing_LF (unlines (dependency_lines text)).

(** Word splitting of an unquoted expansion: fields between runs of space,
    tab and line feed. *)
Definition is_IFS (c : ascii) : bool :=
  match nat_of_ascii c with
  | 32 | 9 | 10 => true
  | _ => false
  end.

Fixpoint fields (f : ascii -> bool) (s : string) : list string :=
  match s with
  | EmptyString => [EmptyString]
  | String c s' =>
      if f c then EmptyString :: fields f s'
      else match fields f s' with
           | w :: ws => String c w :: ws
           | [] => [String c EmptyString]
           end
  end.

Definition words (s : string) : list string :=
  List.filter nonempty (fields is_IFS s).

(** A word with a star, a question mark or a bracket is a pattern for
    pathname expansion; the model stops there. *)
Definition glob_free (w : string) : bool :=
  negb (occurs "*" w || occurs "?" w || occurs "[" w).

(** Lines 111-119; the flag is ALL_DEPS_VALID. *)
Definition check_dep (fs : filesystem) (acc : state * bool) (dep : string)
    : state * bool :=
  if is_dir fs (module_dir dep) then acc
  else (warn (DependencyNotFound dep) (fst acc), false).

(** Lines 96-132.  [None]: a dependency word is a pattern, which the shell
    would expand against the working directory (line 111 leaves the
    expansion unquoted); the model stops there. *)
Definition check_dependencies (tools : json_tools) (fs : filesystem)
    (MODULE_DIR : string) (st : state) : option state :=
  match read fs (MODULE_DIR ++ "/dependencies.json") with
  | Some text =>
      let st1 := say DependenciesExists st in
      if valid_json tools text then
        let st2 := say DependenciesValidJson st1 in
        if nonempty (deps text) then
          if forallb glob_free (words (deps text)) then
            let '(st3, ALL_DEPS_VALID) :=
              fold_left (check_dep fs) (words (deps text)) (st2, true) in
            Some (if ALL_DEPS_VALID then say AllDependenciesValid st3 else st3)
          else None
        else Some st2
      else Some (error DependenciesInvalidJson st1)
  | None => Some (warn DependenciesMissing st)
  end.

(** Lines 134-139. *)
Definition check_source_dir (fs : filesystem) (MODULE_NAME : string)
    (st : state) : state :=
  if is_dir fs ("src/modules/" ++ MODULE_NAME) then say SourceDirectoryFound st
  else st.

(** Lines 144-165. *)
Definition summary (st : state) : nat * state :=
  if Nat.eqb (ERRORS st) 0 && Nat.eqb (WARNINGS st) 0
  then (0, say CheckPassed st)
  else if Nat.eqb (ERRORS st) 0
  then (0, say (CheckPassedWithWarnings (WARNINGS st)) st)
  else (1, say (CheckFailed (ERRORS st) (WARNINGS st)) st).

(** The script run with first argument [arg1]: exit status and final
    state. *)
Definition module_check (tools : json_tools) (arg1 : string) (fs : filesystem)
    : option (nat * state) :=
  if negb (nonempty arg1) then Some (1, say ModuleNameRequired initial)
  else
    let MODULE_DIR := module_dir arg1 in
    if negb (is_dir fs MODULE_DIR) then Some (1, say ModuleDirNotFound initial)
    else
      match check_dependencies tools fs MODULE_DIR
              (check_contract tools fs MODULE_DIR
                 (check_module_md fs MODULE_DIR initial)) with
      | Some st => Some (summary (check_source_dir fs arg1 st))
      | None => None
      end.

Definition count_lines (s : severity) (ls : list line) : nat :=
  length (List.filter (fun l => bool_decide (line_severity l = Some s)) ls).

(** The runs the model follows to their end: those in which no word of
    the dependencies looked up at line 111 is a pattern. *)
Definition pattern_free (tools : json_tools) (arg1 : string) (fs : filesystem)
    : bool :=
  match read fs (module_dir arg1 ++ "/dependencies.json") with
  | Some text =>
      negb (valid_json tools text) || forallb glob_free (words (deps text))
  | None => true
  end.

(** The counters agree with the lines printed. *)
Definition counted (st : state) : Prop :=
  ERRORS st = count_lines Error (out st)
  /\ WARNINGS st = count_lines Warning (out st).

(** The lines of the dependency loop and its closing line (lines 115 and
    121). *)
Definition dependency_report (l : line) : bool :=
  match l with
  | DependencyNotFound _ | AllDependenciesValid => true
  | _ => false
  end.

(** The summary line for given counters (lines 145-165). *)
Definition verdict (errors warnings : nat) : line :=
  match errors, warnings with
  | 0, 0 => CheckPassed
  | 0, _ => CheckPassedWithWarnings warnings
  | _, _ => CheckFailed errors warnings
  end.

(** Tools that accept every text, for sample runs on well-formed files. *)
Definition accepting_tools : json_tools :=
  {| python_json_tool := fun _ => true; node_JSON_parse := fun _ => true |}.

End ModuleCheck.

(** ** cerber-focus.sh *)

Module Focus.
Import Text FS.

Definition OUTPUT_FILE : string := ".cerber/FOCUS_CONTEXT.md".
Definition CONNECTIONS_DIR : string := ".cerber/connections/contracts".

Inductive report : Type :=
| ModuleNameRequired                     (* line 23 *)
| ModuleNotFound (name : string)         (* line 38 *)
| OutputNotWritable                      (* line 58 under set -e *)
| ModuleMdNotFound                       (* line 75 *)
| ContextCreated (LINE_COUNT CHAR_COUNT : nat).  (* lines 151-159 *)

Inductive notice : Type :=
| ContractNotFound       (* line 94 *)
| DependenciesNotFound.  (* line 109 *)

Record outcome : Type := mkOutcome {
  exit_code : nat;
  printed : report;
  notices : list notice;
  fs_after : filesystem
}.

(** [echo TEXT > FILE] and [echo TEXT >> FILE], [cat FILE >> FILE]. *)
Definition write (path text : string) (fs : filesystem) : filesystem :=
  {| dirs := dirs fs; files := <[path := text]> (files fs) |}.

Definition append_to (path text : string) (fs : filesystem) : filesystem :=
  write path (default EmptyString (files fs !! path) ++ text) fs.

(** Lines 58-64. *)
Definition header (name now : string) : string :=
  "# FOCUS CONTEXT - " ++ name ++ nl
  ++ nl
  ++ "**Generated:** " ++ now ++ nl
  ++ "**Module:** " ++ name ++ nl
  ++ nl
  ++ "---" ++ nl
  ++ nl.

(** Lines 68-73. *)
Definition documentation (md : string) : string :=
  "## Module Documentation" ++ nl
  ++ nl
  ++ md
  ++ nl
  ++ "---" ++ nl
  ++ nl.

(** Lines 84-92 and 99-107. *)
Definition json_section (title text : string) : string :=
  "## " ++ title ++ nl
  ++ nl
  ++ "```json" ++ nl
  ++ text
  ++ nl
  ++ "```" ++ nl
  ++ nl
  ++ "---" ++ nl
  ++ nl.

(** Lines 129-136. *)
Definition contract_section (c : ConnectionsCheck.contract) : string :=
  "### " ++ basename (ConnectionsCheck.contract_path c) ++ nl
  ++ nl
  ++ "```json" ++ nl
  ++ ConnectionsCheck.contract_text c
  ++ nl
  ++ "```" ++ nl
  ++ nl.

(** Lines 122-124: a regular file with the quoted module name in it. *)
Definition mentions (name : string) (c : ConnectionsCheck.contract) : bool :=
  ConnectionsCheck.contract_is_file c
  && grep_q (q ++ name ++ q) (ConnectionsCheck.contract_text c).

(** One iteration of the loop of lines 121-139; the flag is
    FOUND_CONNECTIONS. *)
Definition add_contract (name : string) (acc : filesystem * bool)
    (c : ConnectionsCheck.contract) : filesystem * bool :=
  if mentions name c
  then (append_to OUTPUT_FILE (contract_section c) (fst acc), true)
  else acc.

(** Lines 112-148. *)
Definition add_connections (name : string)
    (contracts : list ConnectionsCheck.contract) (fs : filesystem)
    : filesystem :=
  if is_dir fs CONNECTIONS_DIR then
    let fs1 :=
      append_to OUTPUT_FILE ("## Connection Contracts" ++ nl ++ nl) fs in
    let '(fs2, FOUND_CONNECTIONS) :=
      fold_left (add_contract name) contracts (fs1, false) in
    let fs3 :=
      if FOUND_CONNECTIONS then fs2
      else append_to OUTPUT_FILE
             ("*No connection contracts found for this module.*" ++ nl ++ nl)
             fs2 in
    append_to OUTPUT_FILE ("---" ++ nl ++ nl) fs3
  else fs.

(** Lines 82-110. *)
Definition add_json (path title : string) (missing : notice)
    (acc : filesystem * list notice) : filesystem * list notice :=
  match files (fst acc) !! path with
  | Some text => (append_to OUTPUT_FILE (json_section title text) (fst acc),
                  snd acc)
  | None => (fst acc, (snd acc ++ [missing])%list)
  end.

(** [wc -l] and [wc -c]. *)
Fixpoint count_LF (s : string) : nat :=
  match s with
  | EmptyString => 0
  | String c s' => (if Ascii.eqb c LF then 1 else 0) + count_LF s'
  end.

(** The script run with first argument [arg1] at the time [now], the glob
    of line 121 expanding to [contracts].  When the output path is a
    directory the redirection of line 58 fails, and under set -e the script
    ends there.  [None]: the name is outside [AddModule.plain_name], for
    which the grep of line 124 is not covered. *)
Definition focus (now arg1 : string)
    (contracts : list ConnectionsCheck.contract) (fs : filesystem)
    : option outcome :=
  if negb (nonempty arg1)
  then Some {| exit_code := 1; printed := ModuleNameRequired; notices := [];
               fs_after := fs |}
  else
    let MODULE_DIR := module_dir arg1 in
    if negb (is_dir fs MODULE_DIR)
    then Some {| exit_code := 1; printed := ModuleNotFound arg1; notices := [];
                 fs_after := fs |}
    else if negb (AddModule.plain_name arg1) then None
    else
      let fs1 := {| dirs := {[ ".cerber" ]} ∪ dirs fs; files := files fs |} in
      if is_dir fs OUTPUT_FILE
      then Some {| exit_code := 1; printed := OutputNotWritable; notices := [];
                   fs_after := fs1 |}
      else
      let fs2 := write OUTPUT_FILE (header arg1 now) fs1 in
      match files fs2 !! (MODULE_DIR ++ "/MODULE.md") with
      | None => Some {| exit_code := 1; printed := ModuleMdNotFound;
                        notices := []; fs_after := fs2 |}
      | Some md =>
          let fs3 := append_to OUTPUT_FILE (documentation md) fs2 in
          let '(fs5, ns) :=
            add_json (MODULE_DIR ++ "/dependencies.json") "Module Dependencies"
              DependenciesNotFound
              (add_json (MODULE_DIR ++ "/contract.json")
                 "Module Contract (Public Interface)" ContractNotFound
                 (fs3, [])) in
          let fs6 := add_connections arg1 contracts fs5 in
          let context := default EmptyString (files fs6 !! OUTPUT_FILE) in
          Some {| exit_code := 0;
                  printed := ContextCreated (count_LF context)
                                            (String.length context);
                  notices := ns; fs_after := fs6 |}
      end.

(** The context file of a successful run, section by section. *)
Definition optional_section (title : string) (text : option string) : string :=
  match text with
  | Some t => json_section title t
  | None => EmptyString
  end.

Definition connections_part (name : string)
    (contracts : list ConnectionsCheck.contract) : string :=
  "## Connection Contracts" ++ nl ++ nl
  ++ fold_right append EmptyString
       (map contract_section (List.filter (mentions name) contracts))
  ++ (if existsb (mentions name) contracts then EmptyString
      else "*No connection contracts found for this module.*" ++ nl ++ nl)
  ++ "---" ++ nl ++ nl.

Definition context (now name : string)
    (contracts : list ConnectionsCheck.contract) (fs : filesystem)
    (md : string) : string :=
  header name now
  ++ documentation md
  ++ optional_section "Module Contract (Public Interface)"
       (files fs !! (module_dir name ++ "/contract.json"))
  ++ optional_section "Module Dependencies"
       (files fs !! (module_dir name ++ "/dependencies.json"))
  ++ (if is_dir fs CONNECTIONS_DIR then connections_part name contracts
      else EmptyString).

End Focus.

(** ** solo/lib/feature-flags.ts: the queries *)

Module FlagQueries.
Import FeatureFlags.

(** [Object.keys]: the own keys.  JavaScript lists them in insertion order,
    which a finite map does not record: the lists below stand for their
    members. *)
Definition Object_keys (o : FeatureFlagsConfig) : list string :=
  (map_to_list o).*1.

Definition useFeatureFlag := isFeatureEnabled.

Definition getAllFlags (featureFlags : FeatureFlagsConfig) : FeatureFlagsConfig :=
  featureFlags.

(** The runtime with the clock showing [t]. *)
Definition at_time (rt : runtime) (t : Z) : runtime :=
  {| NODE_ENV := NODE_ENV rt; now := t; Date_parse := Date_parse rt |}.

(** The result and what the calls of isFeatureEnabled passed to
    console.warn.  Each call reads the clock anew: [clock flag] is the
    reading of the call for [flag]. *)
Definition getEnabledFlags (rt : runtime) (clock : string -> Z)
    (featureFlags : FeatureFlagsConfig) : list string * list warning :=
  let calls :=
    map (fun flag =>
           (flag, isFeatureEnabled (at_time rt (clock flag)) featureFlags flag))
      (Object_keys featureFlags) in
  (map fst (List.filter (fun call => fst (snd call)) calls),
   concat (map (fun call => snd (snd call)) calls)).

Definition getFlagConfig (featureFlags : FeatureFlagsConfig) (flag : string)
    : property :=
  get featureFlags flag.

(** [flag in featureFlags]: own or inherited. *)
Definition flagExists (featureFlags : FeatureFlagsConfig) (flag : string) : bool :=
  match get featureFlags flag with
  | Undefined => false
  | _ => true
  end.

(** The callback of lines 167-173, on an own key. *)
Definition expired (rt : runtime) (featureFlags : FeatureFlagsConfig)
    (flag : string) : bool :=
  match featureFlags !! flag with
  | Some config =>
      match expiresAt config with
      | Some (String c s) => later_than (now rt) (new_Date rt (String c s))
      | _ => false
      end
  | None => false
  end.

Definition getExpiredFlags (rt : runtime) (featureFlags : FeatureFlagsConfig)
    : list string :=
  List.filter (expired rt featureFlags) (Object_keys featureFlags).

End FlagQueries.
(** ** More sample inputs *)

Module Samples2.
Import Text FS ConnectionsCheck.

(** A contracts directory whose only contract lies in a subdirectory: find
    counts it, the glob of line 63 stays unexpanded and names no file. *)
Definition env_nested_only : environment :=
  {| connections_dir_exists := true; find_json_count := 1;
     glob_contracts :=
       [{| contract_path := Samples.contracts_dir ++ "*.json";
           contract_is_file := false; contract_text := EmptyString;
           python_json_ok := false; node_json_ok := false |}];
     env_fs := fs_with_modules [] |}.

(** A mutual pair with one kebab-case name. *)
Definition env_mutual_auth : environment :=
  env_of ["auth"; "user-auth"] (Samples.mutual "auth" "user-auth").

(** A project BIBLE.md with the heading the script looks for. *)
Definition bible : string :=
  "# Project" ++ nl ++ "### Core Modules" ++ nl ++ nl
  ++ "**billing** - invoices" ++ nl ++ nl ++ "## Notes" ++ nl.

Definition fs_with_bible : filesystem :=
  AddModule.write_file AddModule.BIBLE_PATH bible Samples.fs_billing.

(** The same project with a directory where the update keeps its backup. *)
Definition fs_bible_backup_dir : filesystem :=
  {| dirs := {[ AddModule.BIBLE_PATH ++ ".bak" ]} ∪ dirs fs_with_bible;
     files := files fs_with_bible |}.

(** The billing module with a dependencies.json that names a registered
    module, an unregistered one twice, and has a second key. *)
Definition billing_deps : string :=
  "{" ++ nl
  ++ "  " ++ q ++ "dependencies" ++ q ++ ": ["
  ++ q ++ "billing" ++ q ++ ", " ++ q ++ "auth" ++ q ++ "]," ++ nl
  ++ "  " ++ q ++ "forbidden" ++ q ++ ": [" ++ q ++ "auth" ++ q ++ "]" ++ nl
  ++ "}" ++ nl.

(** A flag past its date, on every environment, and a runtime whose clock
    stands after that date. *)
Definition dated_flags : FeatureFlags.FeatureFlagsConfig :=
  {[ "old-checkout" :=
       {| FeatureFlags.enabled := true;
          FeatureFlags.description := "Old checkout flow";
          FeatureFlags.owner := "shop";
          FeatureFlags.expiresAt := Some "2026-01-01";
          FeatureFlags.environments := None |} ]}.

Definition rt_2027 : FeatureFlags.runtime :=
  {| FeatureFlags.NODE_ENV := Some "production";
     FeatureFlags.now := 1800000000000;
     FeatureFlags.Date_parse := fun s =>
       if String.eqb s "2026-01-01" then Some 1767225600000%Z else None |}.

Definition fs_billing_deps : filesystem :=
  AddModule.write_file (module_dir "billing" ++ "/dependencies.json")
    billing_deps Samples.fs_billing.

End Samples2.

(** * Properties *)

(** ** Fields and keys *)

Section TextFacts.
Import Text.

Lemma append_nil (s : string) : EmptyString ++ s = s.
Proof. reflexivity. Qed.

Lemma append_cons c (a b : string) : String c a ++ b = String c (a ++ b).
Proof. reflexivity. Qed.

Lemma split_on_nonnil d s : split_on d s <> [].
Proof.
  destruct s as [|c s]; simpl; [discriminate|].
  destruct (Ascii.eqb c d); [discriminate|].
  destruct (split_on d s); discriminate.
Qed.

Lemma split_on_absent d s : occurs d s = false -> split_on d s = [s].
Proof.
  induction s as [|c s IH]; simpl; [reflexivity|].
  destruct (Ascii.eqb c d); simpl; [discriminate|].
  intros H. rewrite (IH H). reflexivity.
Qed.

Lemma split_on_first d a r :
  occurs d a = false ->
  split_on d (a ++ String d r) = a :: split_on d r.
Proof.
  induction a as [|c a IH]; rewrite ?append_nil, ?append_cons; simpl.
  - intros _. rewrite Ascii.eqb_refl. reflexivity.
  - destruct (Ascii.eqb c d); simpl; [discriminate|].
    intros H. rewrite (IH H). reflexivity.
Qed.

Lemma occurs_app d (a b : string) : occurs d (a ++ b) = occurs d a || occurs d b.
Proof.
  induction a as [|c a IH]; rewrite ?append_nil, ?append_cons; simpl; [reflexivity|].
  rewrite IH. apply orb_assoc.
Qed.

Lemma append_assoc' (a b c : string) : (a ++ b) ++ c = a ++ (b ++ c).
Proof.
  induction a as [|x a IH]; rewrite ?append_nil, ?append_cons; [reflexivity|].
  by rewrite IH.
Qed.

(** On a key built from names without hyphen or angle bracket, the two cuts
    of lines 147-148 give the names back. *)
Lemma key_FROM_plain (a b : string) :
  occurs "-" a = false ->
  ConnectionsCheck.key_FROM (ConnectionsCheck.connection_key a b) = a.
Proof.
  intros Ha. unfold ConnectionsCheck.key_FROM, ConnectionsCheck.connection_key, cut.
  change ("->" ++ b) with (String "-" (String ">" b)).
  rewrite (split_on_first _ _ _ Ha).
  destruct (split_on "-" (String ">" b)) eqn:E; [by apply split_on_nonnil in E|].
  reflexivity.
Qed.

Lemma key_TO_plain (a b : string) :
  occurs ">" a = false -> occurs ">" b = false ->
  ConnectionsCheck.key_TO (ConnectionsCheck.connection_key a b) = b.
Proof.
  intros Ha Hb. unfold ConnectionsCheck.key_TO, ConnectionsCheck.connection_key, cut.
  change ("->" ++ b) with ("-" ++ String ">" b).
  rewrite <- append_assoc'.
  rewrite split_on_first by (rewrite occurs_app, Ha; reflexivity).
  rewrite (split_on_absent _ _ Hb). reflexivity.
Qed.

Lemma connection_key_inj (a b a' b' : string) :
  occurs "-" a = false -> occurs "-" a' = false ->
  ConnectionsCheck.connection_key a b = ConnectionsCheck.connection_key a' b' ->
  a = a' /\ b = b'.
Proof.
  revert a'. induction a as [|c a IH]; intros [|c' a'] Ha Ha' E.
  - split; [reflexivity|]. by injection E.
  - simpl in Ha'. exfalso. injection E as E1 _. subst c'.
    by rewrite Ascii.eqb_refl in Ha'.
  - simpl in Ha. exfalso. injection E as E1 _. subst c.
    by rewrite Ascii.eqb_refl in Ha.
  - simpl in Ha, Ha'. apply orb_false_iff in Ha as [_ Ha].
    apply orb_false_iff in Ha' as [_ Ha'].
    injection E as -> E. destruct (IH a' Ha Ha' E) as [-> ->]. done.
Qed.

End TextFacts.

(** ** The connection check: how one document and one key change the state *)

Section ConnectionsFacts.
Import Text FS ConnectionsCheck.

(** The shell assignments, field by field. *)
Lemma ERRORS_echo (m : message) (st : state) :
  ERRORS (echo m st) = ERRORS st.
Proof. reflexivity. Qed.

Lemma WARNINGS_echo (m : message) (st : state) :
  WARNINGS (echo m st) = WARNINGS st.
Proof. reflexivity. Qed.

Lemma CHECKED_echo (m : message) (st : state) :
  CHECKED (echo m st) = CHECKED st.
Proof. reflexivity. Qed.

Lemma connections_echo (m : message) (st : state) :
  connections (echo m st) = connections st.
Proof. reflexivity. Qed.

Lemma out_echo (m : message) (st : state) :
  out (echo m st) = (out st ++ [m])%list.
Proof. reflexivity. Qed.

Lemma ERRORS_incr_ERRORS (st : state) :
  ERRORS (incr_ERRORS st) = ERRORS st + 1.
Proof. reflexivity. Qed.

Lemma WARNINGS_incr_ERRORS (st : state) :
  WARNINGS (incr_ERRORS st) = WARNINGS st.
Proof. reflexivity. Qed.

Lemma CHECKED_incr_ERRORS (st : state) :
  CHECKED (incr_ERRORS st) = CHECKED st.
Proof. reflexivity. Qed.

Lemma connections_incr_ERRORS (st : state) :
  connections (incr_ERRORS st) = connections st.
Proof. reflexivity. Qed.

Lemma out_incr_ERRORS (st : state) :
  out (incr_ERRORS st) = out st.
Proof. reflexivity. Qed.

Lemma ERRORS_incr_WARNINGS (st : state) :
  ERRORS (incr_WARNINGS st) = ERRORS st.
Proof. reflexivity. Qed.

Lemma WARNINGS_incr_WARNINGS (st : state) :
  WARNINGS (incr_WARNINGS st) = WARNINGS st + 1.
Proof. reflexivity. Qed.

Lemma CHECKED_incr_WARNINGS (st : state) :
  CHECKED (incr_WARNINGS st) = CHECKED st.
Proof. reflexivity. Qed.

Lemma connections_incr_WARNINGS (st : state) :
  connections (incr_WARNINGS st) = connections st.
Proof. reflexivity. Qed.

Lemma out_incr_WARNINGS (st : state) :
  out (incr_WARNINGS st) = out st.
Proof. reflexivity. Qed.

Lemma ERRORS_incr_CHECKED (st : state) :
  ERRORS (incr_CHECKED st) = ERRORS st.
Proof. reflexivity. Qed.

Lemma WARNINGS_incr_CHECKED (st : state) :
  WARNINGS (incr_CHECKED st) = WARNINGS st.
Proof. reflexivity. Qed.

Lemma CHECKED_incr_CHECKED (st : state) :
  CHECKED (incr_CHECKED st) = CHECKED st + 1.
Proof. reflexivity. Qed.

Lemma connections_incr_CHECKED (st : state) :
  connections (incr_CHECKED st) = connections st.
Proof. reflexivity. Qed.

Lemma out_incr_CHECKED (st : state) :
  out (incr_CHECKED st) = out st.
Proof. reflexivity. Qed.

Lemma ERRORS_store_connection (k : string) (st : state) :
  ERRORS (store_connection k st) = ERRORS st.
Proof. reflexivity. Qed.

Lemma WARNINGS_store_connection (k : string) (st : state) :
  WARNINGS (store_connection k st) = WARNINGS st.
Proof. reflexivity. Qed.

Lemma CHECKED_store_connection (k : string) (st : state) :
  CHECKED (store_connection k st) = CHECKED st.
Proof. reflexivity. Qed.

Lemma connections_store_connection (k : string) (st : state) :
  connections (store_connection k st) = <[k := "1"]> (connections st).
Proof. reflexivity. Qed.

Lemma out_store_connection (k : string) (st : state) :
  out (store_connection k st) = out st.
Proof. reflexivity. Qed.

Create Rewrite HintDb shell_state.

#[local] Hint Rewrite
  ERRORS_echo WARNINGS_echo CHECKED_echo
  connections_echo out_echo ERRORS_incr_ERRORS
  WARNINGS_incr_ERRORS CHECKED_incr_ERRORS connections_incr_ERRORS
  out_incr_ERRORS ERRORS_incr_WARNINGS WARNINGS_incr_WARNINGS
  CHECKED_incr_WARNINGS connections_incr_WARNINGS out_incr_WARNINGS
  ERRORS_incr_CHECKED WARNINGS_incr_CHECKED CHECKED_incr_CHECKED
  connections_incr_CHECKED out_incr_CHECKED ERRORS_store_connection
  WARNINGS_store_connection CHECKED_store_connection connections_store_connection
  out_store_connection
  : shell_state.

Ltac project :=
  unfold report_error, report_warning;
  autorewrite with shell_state;
  cbn [ERRORS WARNINGS CHECKED out connections initial fst snd].

(** Name the tests of one iteration, so that case analysis never looks
    inside grep, sed or the file system. *)
Ltac name_tests fs c :=
  let f := fresh "file" in
  let j := fresh "json" in
  let nf := fresh "from_given" in
  let nt := fresh "to_given" in
  let ef := fresh "from_exists" in
  let et := fresh "to_exists" in
  let hi := fresh "interface" in
  let hv := fresh "version" in
  let hb := fresh "breaking" in
  set (f := contract_is_file c) in *;
  set (j := json_syntax_ok c) in *;
  set (nf := nonempty (FROM_MODULE c)) in *;
  set (nt := nonempty (TO_MODULE c)) in *;
  set (ef := is_dir fs (module_dir (FROM_MODULE c))) in *;
  set (et := is_dir fs (module_dir (TO_MODULE c))) in *;
  set (hi := HAS_INTERFACE c) in *;
  set (hv := HAS_VERSION c) in *;
  set (hb := has_breaking_changes c) in *;
  clearbody f j nf nt ef et hi hv hb;
  let fm := fresh "from" in
  let tm := fresh "to" in
  let nm := fresh "name" in
  set (fm := FROM_MODULE c) in *;
  set (tm := TO_MODULE c) in *;
  set (nm := basename (contract_path c)) in *;
  clearbody fm tm nm.

(** Follow the control flow: split on the variable under the first test
    that is left, and prune. *)
Ltac follow_tests :=
  repeat match goal with
         | |- context [if ?b then _ else _] =>
             match b with
             | context [?v] => is_var v; destruct v
             end;
             cbn [when negb andb orb]
         | |- context [when ?b _ _] =>
             match b with
             | context [?v] => is_var v; destruct v
             end;
             cbn [when negb andb orb]
         end.

Ltac step_cases fs c :=
  unfold process_contract, check_fields, check_modules_exist;
  name_tests fs c;
  follow_tests;
  project.

(** Each document adds to the counters and the log what it would add to
    the initial state. *)
Lemma process_contract_ERRORS fs st c :
  ERRORS (process_contract fs st c)
  = ERRORS st + ERRORS (process_contract fs initial c).
Proof. step_cases fs c; lia. Qed.

Lemma process_contract_WARNINGS fs st c :
  WARNINGS (process_contract fs st c)
  = WARNINGS st + WARNINGS (process_contract fs initial c).
Proof. step_cases fs c; lia. Qed.

Lemma process_contract_CHECKED fs st c :
  CHECKED (process_contract fs st c)
  = CHECKED st + b2n (contract_is_file c).
Proof. step_cases fs c; cbn [b2n]; lia. Qed.

Lemma process_contract_out fs st c :
  out (process_contract fs st c)
  = (out st ++ out (process_contract fs initial c))%list.
Proof.
  step_cases fs c; rewrite <- ?app_assoc; cbn [app];
    rewrite ?app_nil_r; reflexivity.
Qed.

Lemma process_contract_connections fs st c :
  connections (process_contract fs st c)
  = if stored c then <[contract_key c := "1"]> (connections st)
    else connections st.
Proof.
  unfold stored, contract_key. step_cases fs c; reflexivity.
Qed.

(** The loop over the documents: sums of what each document adds. *)
Lemma process_contracts_ERRORS fs cs st :
  ERRORS (process_contracts fs cs st)
  = ERRORS st
    + list_sum (map (fun c => ERRORS (process_contract fs initial c)) cs).
Proof.
  unfold process_contracts. revert st.
  induction cs as [|c cs IH]; intros st; simpl; [lia|].
  rewrite IH, process_contract_ERRORS. lia.
Qed.

Lemma process_contracts_WARNINGS fs cs st :
  WARNINGS (process_contracts fs cs st)
  = WARNINGS st
    + list_sum (map (fun c => WARNINGS (process_contract fs initial c)) cs).
Proof.
  unfold process_contracts. revert st.
  induction cs as [|c cs IH]; intros st; simpl; [lia|].
  rewrite IH, process_contract_WARNINGS. lia.
Qed.

Lemma process_contracts_CHECKED fs cs st :
  CHECKED (process_contracts fs cs st)
  = CHECKED st + length (List.filter contract_is_file cs).
Proof.
  unfold process_contracts. revert st.
  induction cs as [|c cs IH]; intros st; simpl; [lia|].
  rewrite IH, process_contract_CHECKED.
  destruct (contract_is_file c); simpl; lia.
Qed.

Lemma process_contracts_out fs cs st :
  out (process_contracts fs cs st)
  = (out st
     ++ concat (map (fun c => out (process_contract fs initial c)) cs))%list.
Proof.
  unfold process_contracts. revert st.
  induction cs as [|c cs IH]; intros st; simpl; [by rewrite app_nil_r|].
  rewrite IH, process_contract_out, <- app_assoc. reflexivity.
Qed.

(** The array after the loop holds exactly the keys of the stored
    documents, each with the value 1. *)
Lemma process_contracts_lookup fs cs st key :
  connections (process_contracts fs cs st) !! key
  = if existsb (fun c => stored c && bool_decide (contract_key c = key)) cs
    then Some "1" else connections st !! key.
Proof.
  unfold process_contracts. revert st.
  induction cs as [|c cs IH]; intros st; simpl; [reflexivity|].
  rewrite IH, process_contract_connections.
  destruct (existsb _ cs); [by rewrite orb_true_r|].
  rewrite orb_false_r. destruct (stored c); simpl; [|reflexivity].
  case_bool_decide as E.
  - subst key. apply lookup_insert_eq.
  - by apply lookup_insert_ne.
Qed.

Lemma stored_key_recorded fs cs st c :
  In c cs -> stored c = true ->
  connections (process_contracts fs cs st) !! contract_key c = Some "1".
Proof.
  intros Hin Hst. rewrite process_contracts_lookup.
  replace (existsb _ cs) with true; [reflexivity|].
  symmetry. apply existsb_exists. exists c. split; [exact Hin|].
  rewrite Hst. simpl. by apply bool_decide_eq_true.
Qed.

(** No document prints a cycle line. *)
Lemma process_contract_no_cycle_line fs c :
  List.filter is_cycle_report (out (process_contract fs initial c)) = [].
Proof. step_cases fs c; reflexivity. Qed.

Lemma process_contracts_no_cycle_line fs cs :
  List.filter is_cycle_report (out (process_contracts fs cs initial)) = [].
Proof.
  rewrite process_contracts_out. simpl.
  induction cs as [|c cs IH]; simpl; [reflexivity|].
  by rewrite List.filter_app, process_contract_no_cycle_line, IH.
Qed.

(** The loop over the keys. *)
Lemma check_keys_fold conns ks st found :
  fold_left (check_key conns) ks (st, found)
  = (fold_left (fun s k => report_warning (circular_line k) s)
       (List.filter (has_reverse conns) ks) st,
     found || existsb (has_reverse conns) ks).
Proof.
  revert st found. induction ks as [|k ks IH]; intros st found; simpl.
  - by rewrite orb_false_r.
  - unfold check_key at 2. destruct (has_reverse conns k); simpl.
    + rewrite IH. f_equal. by rewrite orb_true_r.
    + rewrite IH. reflexivity.
Qed.

Lemma report_warnings_fold ks st :
  let st' := fold_left (fun s k => report_warning (circular_line k) s) ks st in
  ERRORS st' = ERRORS st
  /\ WARNINGS st' = WARNINGS st + length ks
  /\ CHECKED st' = CHECKED st
  /\ connections st' = connections st
  /\ out st' = (out st ++ map circular_line ks)%list.
Proof.
  revert st. induction ks as [|k ks IH]; intros st; simpl.
  - rewrite app_nil_r. repeat split; lia.
  - destruct (IH (report_warning (circular_line k) st)) as (E & W & C & M & O).
    rewrite E, W, C, M, O. project.
    rewrite <- app_assoc. repeat split; lia.
Qed.

(** The keys that draw a cycle line. *)
Lemma check_circular_spec st :
  let reported := List.filter (has_reverse (connections st)) (keys (connections st)) in
  let st' := check_circular st in
  ERRORS st' = ERRORS st
  /\ WARNINGS st' = WARNINGS st + length reported
  /\ CHECKED st' = CHECKED st
  /\ connections st' = connections st
  /\ out st' = (out st ++ map circular_line reported
                ++ if existsb (has_reverse (connections st)) (keys (connections st))
                   then [] else [NoCircular])%list.
Proof.
  intros reported st'. subst st'. unfold check_circular.
  rewrite check_keys_fold. simpl.
  destruct (report_warnings_fold reported st) as (E & W & C & M & O).
  fold reported.
  destruct (existsb _ _); cbn [when negb]; autorewrite with shell_state;
    rewrite ?E, ?W, ?C, ?M, ?O, ?app_nil_r, <- ?app_assoc; repeat split.
Qed.

Lemma summary_out st :
  exists m, message_severity m = None /\ is_cycle_report m = false
            /\ snd (summary st) = echo m st.
Proof.
  unfold summary.
  destruct (Nat.eqb (ERRORS st) 0), (Nat.eqb (WARNINGS st) 0); simpl;
    eexists; (split; [|split; [|reflexivity]]); reflexivity.
Qed.

Lemma summary_exit st : fst (summary st) = if Nat.eqb (ERRORS st) 0 then 0 else 1.
Proof.
  unfold summary.
  destruct (Nat.eqb (ERRORS st) 0), (Nat.eqb (WARNINGS st) 0); reflexivity.
Qed.

(** A run that finds contracts is the three phases in sequence. *)
Lemma run_phases env :
  has_contracts env ->
  run env = summary (check_circular
              (process_contracts (env_fs env) (glob_contracts env) initial)).
Proof.
  intros [Hd Hc]. unfold run. rewrite Hd. simpl.
  apply Nat.eqb_neq in Hc. by rewrite Hc.
Qed.

Lemma final_connections env :
  has_contracts env ->
  connections (final_state env)
  = connections (process_contracts (env_fs env) (glob_contracts env) initial).
Proof.
  intros H. unfold final_state. rewrite (run_phases _ H).
  destruct (summary_out (check_circular
    (process_contracts (env_fs env) (glob_contracts env) initial)))
    as (m & _ & _ & ->).
  rewrite connections_echo.
  by destruct (check_circular_spec
    (process_contracts (env_fs env) (glob_contracts env) initial))
    as (_ & _ & _ & -> & _).
Qed.

Lemma cycle_lines_kept ks :
  List.filter is_cycle_report (map circular_line ks) = map circular_line ks.
Proof. induction ks as [|k ks IH]; simpl; [reflexivity|]. by rewrite IH. Qed.

(** A run that gets past the early exits does not print the notice of
    line 31. *)
Lemma process_contract_no_notice fs c :
  ~ In NoConnectionsDir (out (process_contract fs initial c)).
Proof.
  step_cases fs c; cbn [In]; intros H;
    repeat (destruct H as [H|H]; [discriminate H|]); exact H.
Qed.

Lemma no_directory_notice env :
  has_contracts env -> ~ In NoConnectionsDir (out (final_state env)).
Proof.
  intros H. unfold final_state. rewrite (run_phases _ H).
  set (st0 := process_contracts (env_fs env) (glob_contracts env) initial).
  destruct (summary_out (check_circular st0)) as (m & Hm & _ & ->).
  rewrite out_echo. destruct (check_circular_spec st0) as (_ & _ & _ & _ & ->).
  unfold st0. rewrite process_contracts_out. cbn [out initial app].
  rewrite !in_app_iff. intros [[Hc|[Hk|Hn]]|Hs].
  - apply in_concat in Hc as (l & Hl & Hc).
    apply in_map_iff in Hl as (c & <- & _).
    by apply process_contract_no_notice in Hc.
  - apply in_map_iff in Hk as (k & Hk & _). unfold circular_line in Hk.
    discriminate Hk.
  - destruct (existsb _ _); [destruct Hn|].
    destruct Hn as [Hn|[]]; discriminate Hn.
  - destruct Hs as [->|[]]. discriminate Hm.
Qed.

(** The cycle lines of a run: one per key whose reverse key is in the
    array. *)
Lemma cycle_reports_run env :
  has_contracts env ->
  let conns := connections (final_state env) in
  cycle_reports (final_state env)
  = map circular_line (List.filter (has_reverse conns) (keys conns)).
Proof.
  intros H conns. subst conns. rewrite (final_connections _ H).
  unfold cycle_reports, final_state. rewrite (run_phases _ H).
  set (st := process_contracts (env_fs env) (glob_contracts env) initial).
  destruct (summary_out (check_circular st)) as (m & _ & Hm & ->).
  rewrite out_echo, List.filter_app. simpl. rewrite Hm, app_nil_r.
  destruct (check_circular_spec st) as (_ & _ & _ & _ & ->).
  rewrite !List.filter_app.
  unfold st at 1. rewrite process_contracts_no_cycle_line. simpl.
  replace (List.filter is_cycle_report (if existsb _ _ then [] else [NoCircular]))
    with (@nil message) by (by destruct (existsb _ _)).
  rewrite app_nil_r. apply cycle_lines_kept.
Qed.

(** ** Circular dependencies *)

Lemma keys_elem (conns : gmap string string) (k : string) :
  In k (keys conns) <-> is_Some (conns !! k).
Proof.
  unfold keys. rewrite <- list_elem_of_In, list_elem_of_fmap. split.
  - intros ([k' v] & -> & Hkv). apply elem_of_map_to_list in Hkv. by exists v.
  - intros [v Hv]. exists (k, v). split; [reflexivity|].
    by apply elem_of_map_to_list.
Qed.

Lemma keys_two (k1 k2 v1 v2 : string) :
  k1 <> k2 ->
  keys (<[k2 := v2]> (<[k1 := v1]> ∅)) = [k2; k1]
  \/ keys (<[k2 := v2]> (<[k1 := v1]> ∅)) = [k1; k2].
Proof.
  intros Hne. apply Permutation_length_2_inv. unfold keys.
  rewrite map_to_list_insert by (rewrite lookup_insert_ne by done; apply lookup_empty).
  rewrite map_to_list_insert by apply lookup_empty.
  by rewrite map_to_list_empty.
Qed.

Lemma has_reverse_plain (conns : gmap string string) (a b : string) :
  occurs "-" a = false -> occurs ">" a = false -> occurs ">" b = false ->
  has_reverse conns (connection_key a b)
  = nonempty (lookup_connection conns (connection_key b a)).
Proof.
  intros Ha Ha' Hb. unfold has_reverse.
  by rewrite key_FROM_plain, key_TO_plain.
Qed.

Lemma circular_line_plain (a b : string) :
  occurs "-" a = false -> occurs ">" a = false -> occurs ">" b = false ->
  circular_line (connection_key a b) = PotentialCircular a b.
Proof.
  intros Ha Ha' Hb. unfold circular_line.
  by rewrite key_FROM_plain, key_TO_plain.
Qed.

(** The script on the documents a-to-b.json and b-to-a.json, modules a and b
    registered: two cycle lines, not one. *)
Lemma C1_counterexample :
  cycle_reports (final_state Samples.env_mutual_ab)
  = [PotentialCircular "a" "b"; PotentialCircular "b" "a"]
  /\ length (cycle_reports (final_state Samples.env_mutual_ab)) <> 1.
Proof. split; [vm_compute; reflexivity|vm_compute; discriminate]. Qed.

(** The same scenario with the kebab-case names of the naming convention:
    line 147 cuts the key at the first hyphen, inside the name, the reverse
    key is not found, and no cycle is reported. *)
Lemma mutual_kebab_unreported :
  cycle_reports (final_state Samples.env_mutual_kebab) = []
  /\ In NoCircular (out (final_state Samples.env_mutual_kebab)).
Proof. split; vm_compute; [reflexivity|tauto]. Qed.

(** C1, as amended: for distinct names a and b without hyphen or angle
    bracket, the run over exactly two stored documents declaring a->b and
    b->a prints the mutual dependency once per direction: the cycle lines
    are a <-> b and b <-> a, two in all, in the order the shell enumerates
    the keys. *)
Theorem C1_mutual_pair_reported_per_direction
    (env : environment) (a b : string) (c1 c2 : contract) :
  has_contracts env ->
  glob_contracts env = [c1; c2] ->
  stored c1 = true -> stored c2 = true ->
  FROM_MODULE c1 = a -> TO_MODULE c1 = b ->
  FROM_MODULE c2 = b -> TO_MODULE c2 = a ->
  a <> b ->
  occurs "-" a = false -> occurs ">" a = false ->
  occurs "-" b = false -> occurs ">" b = false ->
  cycle_reports (final_state env)
    ≡ₚ [PotentialCircular a b; PotentialCircular b a]
  /\ length (cycle_reports (final_state env)) = 2.
Proof.
  intros Henv Hcs S1 S2 F1 T1 F2 T2 Hab Ha Ha' Hb Hb'.
  assert (Hperm : cycle_reports (final_state env)
                  ≡ₚ [PotentialCircular a b; PotentialCircular b a]).
  { rewrite (cycle_reports_run _ Henv). cbv zeta.
    rewrite (final_connections _ Henv), Hcs.
    unfold process_contracts. cbn [fold_left].
    rewrite !process_contract_connections, S1, S2.
    unfold contract_key. rewrite F1, T1, F2, T2. cbn [connections initial].
    set (k1 := connection_key a b). set (k2 := connection_key b a).
    set (conns := <[k2 := "1"]> (<[k1 := "1"]> ∅) : gmap string string).
    assert (Hk : k1 <> k2).
    { intros E. apply connection_key_inj in E as [E _]; done. }
    assert (R1 : has_reverse conns k1 = true).
    { unfold k1. rewrite has_reverse_plain by done. fold k2.
      unfold lookup_connection, conns. by rewrite lookup_insert_eq. }
    assert (R2 : has_reverse conns k2 = true).
    { unfold k2. rewrite has_reverse_plain by done. fold k1.
      unfold lookup_connection, conns.
      rewrite lookup_insert_ne by done. by rewrite lookup_insert_eq. }
    assert (L1 : circular_line k1 = PotentialCircular a b)
      by (by apply circular_line_plain).
    assert (L2 : circular_line k2 = PotentialCircular b a)
      by (by apply circular_line_plain).
    pose proof (keys_two k1 k2 "1" "1" Hk) as Hkeys.
    change (keys conns = [k2; k1] \/ keys conns = [k1; k2]) in Hkeys.
    destruct Hkeys as [-> | ->];
      cbn [List.filter]; rewrite R1, R2; cbn [map]; rewrite L1, L2.
    - apply perm_swap.
    - reflexivity. }
  split; [exact Hperm|]. by rewrite Hperm.
Qed.

Lemma C1_mutual_pair_reported_per_direction_witness :
  cycle_reports (final_state Samples.env_mutual_ab)
    ≡ₚ [PotentialCircular "a" "b"; PotentialCircular "b" "a"]
  /\ length (cycle_reports (final_state Samples.env_mutual_ab)) = 2.
Proof.
  eapply (C1_mutual_pair_reported_per_direction Samples.env_mutual_ab "a" "b").
  - split; [reflexivity|vm_compute; discriminate].
  - reflexivity.
  - vm_compute; reflexivity.
  - vm_compute; reflexivity.
  - vm_compute; reflexivity.
  - vm_compute; reflexivity.
  - vm_compute; reflexivity.
  - vm_compute; reflexivity.
  - discriminate.
  - reflexivity.
  - reflexivity.
  - reflexivity.
  - reflexivity.
Defined.

(** The script on one document from a to a, module a registered: the
    self-loop is printed as a cycle. *)
Lemma C8_counterexample :
  In (PotentialCircular "a" "a") (cycle_reports (final_state Samples.env_self))
  /\ List.filter (has_severity Warning) (out (final_state Samples.env_self))
     = [PotentialCircular "a" "a"].
Proof. split; vm_compute; [tauto|reflexivity]. Qed.

(** C8, as amended: a stored document whose from and to are the same name,
    a name without hyphen or angle bracket, is reported by the circular
    dependency check itself: the run prints the cycle line a <-> a for it.
    The script has no separate self-loop warning: every warning it prints is
    a missing-field warning or a cycle line. *)
Theorem C8_self_loop_reported_as_cycle
    (env : environment) (a : string) (c : contract) :
  has_contracts env ->
  In c (glob_contracts env) ->
  stored c = true ->
  FROM_MODULE c = a -> TO_MODULE c = a ->
  occurs "-" a = false -> occurs ">" a = false ->
  In (PotentialCircular a a) (cycle_reports (final_state env))
  /\ (forall m, In m (out (final_state env)) ->
        message_severity m = Some Warning ->
        is_cycle_report m = true
        \/ m = MissingInterface \/ m = MissingVersion
        \/ m = MissingBreakingChanges).
Proof.
  intros Henv Hin Hst HF HT Ha Ha'. split.
  - rewrite (cycle_reports_run _ Henv). cbv zeta.
    rewrite <- (circular_line_plain a a) by done.
    apply in_map, filter_In.
    assert (Hk : connections (final_state env) !! connection_key a a = Some "1").
    { rewrite (final_connections _ Henv).
      rewrite <- HF at 1. rewrite <- HT. by apply stored_key_recorded. }
    split.
    + apply keys_elem. by exists "1".
    + rewrite has_reverse_plain by done. unfold lookup_connection.
      by rewrite Hk.
  - intros m Hout Hm. destruct m; try discriminate; auto.
    by apply (no_directory_notice _ Henv) in Hout.
Qed.

Lemma C8_self_loop_reported_as_cycle_witness :
  In (PotentialCircular "a" "a") (cycle_reports (final_state Samples.env_self)).
Proof.
  refine (proj1 (C8_self_loop_reported_as_cycle Samples.env_self "a"
            (Samples.self_loop_file) _ _ _ _ _ _ _)).
  - split; [reflexivity|vm_compute; discriminate].
  - left. reflexivity.
  - vm_compute; reflexivity.
  - vm_compute; reflexivity.
  - vm_compute; reflexivity.
  - reflexivity.
  - reflexivity.
Defined.

(** The script on one document from the unregistered ghost to a: the module
    is reported missing, and the key ghost->a is in the array the cycle check
    reads all the same. *)
Lemma C3_counterexample :
  is_dir (env_fs Samples.env_ghost) (module_dir "ghost") = false
  /\ In (ModuleNotFound "ghost") (out (final_state Samples.env_ghost))
  /\ connections (final_state Samples.env_ghost) !! connection_key "ghost" "a"
     = Some "1".
Proof.
  split; [vm_compute; reflexivity|].
  split; [vm_compute; tauto|vm_compute; reflexivity].
Qed.

(** C3, as amended: a stored document draws exactly one module-not-found
    error per unregistered endpoint, from first and to second, and no other
    error; its key from->to is recorded in the array used for the circular
    dependency check whether or not the endpoints are registered. *)
Theorem C3_dangling_endpoint_errors_and_edge
    (env : environment) (c : contract) :
  has_contracts env ->
  In c (glob_contracts env) ->
  stored c = true ->
  let fs := env_fs env in
  let from_missing := negb (is_dir fs (module_dir (FROM_MODULE c))) in
  let to_missing := negb (is_dir fs (module_dir (TO_MODULE c))) in
  List.filter (has_severity Error) (out (process_contract fs initial c))
  = ((if from_missing then [ModuleNotFound (FROM_MODULE c)] else [])
     ++ (if to_missing then [ModuleNotFound (TO_MODULE c)] else []))%list
  /\ ERRORS (process_contract fs initial c)
     = b2n from_missing + b2n to_missing
  /\ connections (final_state env) !! contract_key c = Some "1".
Proof.
  intros Henv Hin Hst fs from_missing to_missing.
  subst from_missing to_missing. split; [|split].
  - revert Hst. unfold stored. step_cases fs c; intros Hst;
      try discriminate Hst; reflexivity.
  - revert Hst. unfold stored. step_cases fs c; intros Hst;
      try discriminate Hst; reflexivity.
  - rewrite (final_connections _ Henv). by apply stored_key_recorded.
Qed.

Lemma C3_dangling_endpoint_errors_and_edge_witness :
  connections (final_state Samples.env_ghost) !! connection_key "ghost" "a"
  = Some "1".
Proof.
  refine (proj2 (proj2 (C3_dangling_endpoint_errors_and_edge Samples.env_ghost
            Samples.ghost_file _ _ _))).
  - split; [reflexivity|vm_compute; discriminate].
  - left. reflexivity.
  - vm_compute; reflexivity.
Defined.

(** ** Counters, log and exit status *)

Lemma count_severity_app s (l l' : list message) :
  count_severity s (l ++ l') = count_severity s l + count_severity s l'.
Proof. unfold count_severity. by rewrite List.filter_app, length_app. Qed.

Lemma count_severity_cycle_lines s ks :
  count_severity s (map circular_line ks)
  = if bool_decide (s = Warning) then length ks else 0.
Proof.
  induction ks as [|k ks IH]; [by destruct s|].
  change (map circular_line (k :: ks))
    with ([circular_line k] ++ map circular_line ks)%list.
  rewrite count_severity_app, IH. by destruct s.
Qed.

Lemma counters_match_log_app (st st' : state) (l : list message) :
  counters_match_log st ->
  out st' = (out st ++ l)%list ->
  ERRORS st' = ERRORS st + count_severity Error l ->
  WARNINGS st' = WARNINGS st + count_severity Warning l ->
  counters_match_log st'.
Proof.
  intros [E W] O E' W'. unfold counters_match_log.
  rewrite O, !count_severity_app. lia.
Qed.

Lemma process_contract_counters fs c :
  counters_match_log (process_contract fs initial c).
Proof. unfold counters_match_log. step_cases fs c; split; reflexivity. Qed.

Lemma process_contracts_counters fs cs st :
  counters_match_log st ->
  counters_match_log (process_contracts fs cs st).
Proof.
  unfold process_contracts. revert st.
  induction cs as [|c cs IH]; intros st H; simpl; [exact H|].
  apply IH. destruct (process_contract_counters fs c) as [E W].
  eapply counters_match_log_app; [exact H|apply process_contract_out|..].
  - rewrite process_contract_ERRORS. lia.
  - rewrite process_contract_WARNINGS. lia.
Qed.

Lemma check_circular_counters st :
  counters_match_log st -> counters_match_log (check_circular st).
Proof.
  intros H. destruct (check_circular_spec st) as (E & W & _ & _ & O).
  eapply counters_match_log_app; [exact H|exact O|..].
  - rewrite E, count_severity_app, count_severity_cycle_lines.
    destruct (existsb _ _); unfold count_severity; simpl; lia.
  - rewrite W, count_severity_app, count_severity_cycle_lines.
    destruct (existsb _ _); unfold count_severity; simpl; lia.
Qed.

Lemma echo_counters m st :
  message_severity m = None ->
  counters_match_log st -> counters_match_log (echo m st).
Proof.
  intros Hm H. eapply counters_match_log_app; [exact H|apply out_echo|..];
    rewrite ?ERRORS_echo, ?WARNINGS_echo; unfold count_severity; simpl;
    unfold has_severity; rewrite Hm; simpl; lia.
Qed.

Lemma initial_counters : counters_match_log initial.
Proof. split; reflexivity. Qed.

(** A run that finds the connections directory counts its red and yellow
    lines. *)
Lemma final_counters env :
  connections_dir_exists env = true -> counters_match_log (final_state env).
Proof.
  intros Hdir. unfold final_state, run. rewrite Hdir. cbn [negb].
  destruct (Nat.eqb (find_json_count env) 0); simpl;
    [by apply echo_counters, initial_counters|].
  set (st := check_circular _).
  destruct (summary_out st) as (m & Hm & _ & ->).
  apply echo_counters; [exact Hm|].
  apply check_circular_counters, process_contracts_counters, initial_counters.
Qed.

(** The red lines are counted in every run. *)
Lemma final_errors_counted env :
  ERRORS (final_state env) = count_severity Error (out (final_state env)).
Proof.
  destruct (connections_dir_exists env) eqn:Hdir;
    [by destruct (final_counters env Hdir)|].
  unfold final_state, run. by rewrite Hdir.
Qed.

Lemma run_exit env :
  exit_status env = if Nat.eqb (ERRORS (final_state env)) 0 then 0 else 1.
Proof.
  unfold exit_status, final_state, run.
  destruct (connections_dir_exists env); simpl; [|reflexivity].
  destruct (Nat.eqb (find_json_count env) 0); simpl; [reflexivity|].
  set (st := check_circular _).
  rewrite summary_exit.
  destruct (summary_out st) as (m & _ & _ & ->). by rewrite ERRORS_echo.
Qed.

Lemma count_severity_In s (l : list message) :
  count_severity s l <> 0 <-> In s (omap message_severity l).
Proof.
  induction l as [|m l IH]; simpl; [unfold count_severity; simpl; tauto|].
  change (m :: l) with ([m] ++ l)%list at 1.
  rewrite count_severity_app. unfold count_severity at 1. simpl.
  unfold has_severity.
  destruct (message_severity m) as [s'|] eqn:E; simpl.
  - case_bool_decide as D; simpl.
    + injection D as ->. split; [auto|lia].
    + rewrite IH. split; [auto|]. intros [->|H]; [done|exact H].
  - exact IH.
Qed.

Lemma no_critical_finding st : ~ In Critical (finding_severities st).
Proof.
  unfold finding_severities. induction (out st) as [|m l IH]; simpl; [tauto|].
  destruct m; simpl; try exact IH; intros [?|?]; try discriminate; tauto.
Qed.

Lemma exit_status_errors env :
  exit_status env <> 0 <-> In Error (finding_severities (final_state env)).
Proof.
  unfold finding_severities. rewrite <- count_severity_In.
  rewrite <- final_errors_counted, run_exit.
  destruct (Nat.eqb_spec (ERRORS (final_state env)) 0); split; lia.
Qed.

(** The from and to of a document without the quoted field name are empty,
    so that a missing field and an empty one draw the same error. *)
Lemma contains_here_false pat s :
  contains_here pat s = false ->
  strip_prefix pat s = None
  /\ match s with
     | String _ rest => contains_here pat rest = false
     | EmptyString => True
     end.
Proof.
  destruct s as [|ch rest]; cbn [contains_here];
    destruct (strip_prefix pat _); intros H; try discriminate H; auto.
Qed.

Lemma match_field_here_none name s :
  strip_prefix (q ++ name ++ q) s = None -> match_field_here name s = None.
Proof. unfold match_field_here. by intros ->. Qed.

Lemma grep_o_line_absent name line :
  contains_here (q ++ name ++ q) line = false -> grep_o_line name line = None.
Proof.
  induction line as [|ch line IH]; intros H;
    apply contains_here_false in H as [Hp Hrest]; cbn [grep_o_line];
    rewrite (match_field_here_none _ _ Hp); [reflexivity|by apply IH].
Qed.

Lemma absent_field_empty name text :
  grep_q (q ++ name ++ q) text = false -> extract_field name text = EmptyString.
Proof.
  unfold grep_q, extract_field, grep_o_head1.
  induction (lines text) as [|l ls IH]; simpl; [reflexivity|].
  intros H. apply orb_false_iff in H as [Hl Hls].
  rewrite (grep_o_line_absent _ _ Hl). by apply IH.
Qed.

Lemma nonempty_false s : nonempty s = false <-> s = EmptyString.
Proof. destruct s; simpl; split; congruence. Qed.

(** Two documents that a JSON parser accepts, checked with a and b
    registered.  The first has no from, no version and no breaking_changes:
    the run prints the error of line 86 for it and no warning at all, its
    other fields being never looked at.  The second has no from of its own,
    only one inside its interface: the run takes that one and prints no
    error. *)
Lemma C4_counterexample :
  (json_syntax_ok Samples.no_from_file = true
   /\ grep_q (q ++ "version" ++ q) (contract_text Samples.no_from_file) = false
   /\ grep_q (q ++ "breaking_changes" ++ q)
        (contract_text Samples.no_from_file) = false
   /\ out (process_contract (env_fs Samples.env_mixed) initial
             Samples.no_from_file)
      = [Checking "no-from.json"; MissingFromOrTo])
  /\ (json_syntax_ok Samples.nested_from_file = true
      /\ FROM_MODULE Samples.nested_from_file = "a"
      /\ List.filter (has_severity Error)
           (out (process_contract (env_fs Samples.env_mixed) initial
                   Samples.nested_from_file))
         = []).
Proof. split; repeat split; vm_compute; reflexivity. Qed.

(** C4, as amended: for every document that is a regular file, (1) a
    document whose text has the quoted word from (or to) on no line has an
    empty from (or to); (2) one that no JSON parser accepts draws the
    invalid-syntax error alone; (3) one that parses and has an empty from or
    to draws exactly one line, the error of line 86, adds one to ERRORS and
    nothing to WARNINGS, and draws no warning whatever else it lacks; (4)
    only when both names are extracted are the other fields looked at, and
    then a text with the quoted word interface, version or breaking_changes
    on no line draws one warning line for each and adds one to WARNINGS,
    while ERRORS grows only by the endpoints that are not registered: a
    missing version or breaking_changes is never an error.  The script
    searches the text, at any depth of the document. *)
Theorem C4_missing_field_severities
    (fs : filesystem) (st : state) (c : contract) :
  contract_is_file c = true ->
  let st' := process_contract fs st c in
  let new := out (process_contract fs initial c) in
  (grep_q (q ++ "from" ++ q) (contract_text c) = false
   \/ grep_q (q ++ "to" ++ q) (contract_text c) = false ->
   FROM_MODULE c = EmptyString \/ TO_MODULE c = EmptyString)
  /\ (json_syntax_ok c = false ->
      new = [Checking (basename (contract_path c)); InvalidJson]
      /\ ERRORS st' = ERRORS st + 1
      /\ WARNINGS st' = WARNINGS st)
  /\ (json_syntax_ok c = true ->
      FROM_MODULE c = EmptyString \/ TO_MODULE c = EmptyString ->
      new = [Checking (basename (contract_path c)); MissingFromOrTo]
      /\ message_severity MissingFromOrTo = Some Error
      /\ List.filter (has_severity Warning) new = []
      /\ ERRORS st' = ERRORS st + 1
      /\ WARNINGS st' = WARNINGS st)
  /\ (json_syntax_ok c = true ->
      FROM_MODULE c <> EmptyString -> TO_MODULE c <> EmptyString ->
      let has name := grep_q (q ++ name ++ q) (contract_text c) in
      List.filter (has_severity Warning) new
      = ((if has "interface" then [] else [MissingInterface])
         ++ (if has "version" then [] else [MissingVersion])
         ++ (if has "breaking_changes" then [] else [MissingBreakingChanges]))%list
      /\ WARNINGS st'
         = WARNINGS st + b2n (negb (has "interface")) + b2n (negb (has "version"))
           + b2n (negb (has "breaking_changes"))
      /\ ERRORS st'
         = ERRORS st + b2n (negb (is_dir fs (module_dir (FROM_MODULE c))))
           + b2n (negb (is_dir fs (module_dir (TO_MODULE c))))).
Proof.
  intros Hfile st' new. subst st' new. split; [|split; [|split]].
  - intros [H|H]; [left|right]; by apply absent_field_empty.
  - intros Hjson.
    rewrite process_contract_ERRORS, process_contract_WARNINGS.
    revert Hfile Hjson.
    step_cases fs c; intros Hfile Hjson;
      try discriminate; repeat split; lia.
  - intros Hjson Hempty.
    assert (Hn : nonempty (FROM_MODULE c) && nonempty (TO_MODULE c) = false).
    { destruct Hempty as [-> | ->]; [reflexivity|]. apply andb_false_r. }
    rewrite process_contract_ERRORS, process_contract_WARNINGS.
    revert Hfile Hjson Hn. clear Hempty.
    step_cases fs c; intros Hfile Hjson Hn;
      try discriminate; repeat split; lia.
  - intros Hjson HF HT has. subst has. cbv beta.
    change (grep_q (q ++ "interface" ++ q) (contract_text c))
      with (HAS_INTERFACE c).
    change (grep_q (q ++ "version" ++ q) (contract_text c))
      with (HAS_VERSION c).
    change (grep_q (q ++ "breaking_changes" ++ q) (contract_text c))
      with (has_breaking_changes c).
    assert (Hn : nonempty (FROM_MODULE c) && nonempty (TO_MODULE c) = true).
    { destruct (FROM_MODULE c); [done|]. by destruct (TO_MODULE c). }
    rewrite process_contract_ERRORS, process_contract_WARNINGS.
    revert Hfile Hjson Hn. clear HF HT.
    step_cases fs c; intros Hfile Hjson Hn;
      try discriminate; cbn [b2n negb]; repeat split; lia.
Qed.

Lemma C4_missing_field_severities_witness :
  List.filter (has_severity Warning)
    (out (process_contract (env_fs Samples.env_mixed) initial Samples.bare_file))
  = [MissingVersion; MissingBreakingChanges]
  /\ ERRORS (process_contract (env_fs Samples.env_mixed) initial Samples.bare_file)
     = 0.
Proof.
  destruct (C4_missing_field_severities (env_fs Samples.env_mixed) initial
              Samples.bare_file) as (_ & _ & _ & H).
  - reflexivity.
  - destruct H as (W & _ & E).
    + reflexivity.
    + vm_compute; discriminate.
    + vm_compute; discriminate.
    + split; [exact W|exact E].
Defined.

(** C5: once past the early exits, the run reaches every document.  CHECKED
    ends as the number of regular files among them; ERRORS ends as the sum of
    the errors each document draws on its own, whatever the documents before
    it drew; WARNINGS as the like sum plus the cycle lines; and every line a
    document draws on its own, its Checking line included, is in the final
    log. *)
Theorem C5_every_document_processed (env : environment) :
  has_contracts env ->
  let fs := env_fs env in
  let cs := glob_contracts env in
  let st := final_state env in
  CHECKED st = length (List.filter contract_is_file cs)
  /\ ERRORS st = list_sum (map (fun c => ERRORS (process_contract fs initial c)) cs)
  /\ WARNINGS st
     = list_sum (map (fun c => WARNINGS (process_contract fs initial c)) cs)
       + length (cycle_reports st)
  /\ (forall c, In c cs -> contract_is_file c = true ->
        In (Checking (basename (contract_path c))) (out st))
  /\ (forall c m, In c cs -> In m (out (process_contract fs initial c)) ->
        In m (out st)).
Proof.
  intros Henv. cbv zeta.
  pose proof (cycle_reports_run _ Henv) as Hcyc. cbv zeta in Hcyc.
  rewrite (final_connections _ Henv) in Hcyc.
  set (fs := env_fs env) in *. set (cs := glob_contracts env) in *.
  set (st0 := process_contracts fs cs initial) in *.
  destruct (summary_out (check_circular st0)) as (m' & _ & _ & Hsum).
  assert (Hfinal : final_state env = echo m' (check_circular st0)).
  { unfold final_state. by rewrite (run_phases _ Henv). }
  destruct (check_circular_spec st0) as (E & W & C & _ & O).
  assert (Hall : forall c m, In c cs ->
            In m (out (process_contract fs initial c)) ->
            In m (out (final_state env))).
  { intros c m Hc Hm. rewrite Hfinal, out_echo, O.
    unfold st0. rewrite process_contracts_out.
    apply in_or_app; left. apply in_or_app; left. apply in_or_app; right.
    apply in_concat. exists (out (process_contract fs initial c)).
    split; [|exact Hm].
    by apply (in_map (fun c => out (process_contract fs initial c))). }
  rewrite Hcyc, length_map.
  rewrite Hfinal, ERRORS_echo, WARNINGS_echo, CHECKED_echo, E, W, C.
  unfold st0 at 1 2 3.
  rewrite process_contracts_ERRORS, process_contracts_WARNINGS,
    process_contracts_CHECKED.
  cbn [ERRORS WARNINGS CHECKED initial].
  rewrite <- Hfinal.
  repeat split; try lia.
  - intros c Hc Hf. apply (Hall c); [exact Hc|].
    unfold process_contract. rewrite Hf. cbn [negb].
    set (st1 := echo _ _).
    assert (Hin : In (Checking (basename (contract_path c))) (out st1))
      by (subst st1; rewrite out_echo; apply in_or_app; right; by left).
    clearbody st1. clear -Hin. revert Hin. step_cases fs c; intros Hin;
      repeat (apply in_or_app; left); exact Hin.
  - exact Hall.
Qed.

Lemma C5_every_document_processed_witness :
  CHECKED (final_state Samples.env_mixed) = 4
  /\ ERRORS (final_state Samples.env_mixed) = 3
  /\ In MissingVersion (out (final_state Samples.env_mixed)).
Proof.
  destruct (C5_every_document_processed Samples.env_mixed) as (C & E & _ & _ & A).
  - split; [reflexivity|vm_compute; discriminate].
  - split; [exact C|]. split; [exact E|].
    apply (A Samples.bare_file); vm_compute; tauto.
Defined.

End ConnectionsFacts.

(** ** The severity aggregator and the exit status *)

Section Aggregation.
Import FS ConnectionsCheck Guardian.

Context {A : Type} `{Severe A}.

Lemma count_of_nonzero (findings : list A) (s : severity) :
  count_of findings s <> 0 <-> exists f, In f findings /\ severity_of f = s.
Proof.
  unfold count_of. induction findings as [|f fs IH]; simpl.
  - split; [done|]. intros (f & [] & _).
  - case_bool_decide as E; simpl.
    + split; [|lia]. intros _. exists f. auto.
    + rewrite IH. split.
      * intros (g & Hg & Hs). exists g. auto.
      * intros (g & [->|Hg] & Hs); [done|]. exists g. auto.
Qed.

Lemma evaluate_fails_iff (findings : list A) (failOn : FailOn) :
  ok (evaluate findings failOn) = false
  <-> exists f, In f findings /\ fails_on failOn (severity_of f) = true.
Proof.
  unfold evaluate. cbn [ok]. rewrite negb_false_iff, existsb_exists. split.
  - intros (s & _ & Hs). apply andb_true_iff in Hs as [Hon Hn].
    apply negb_true_iff, Nat.eqb_neq, count_of_nonzero in Hn as (f & Hf & <-).
    exists f. auto.
  - intros (f & Hf & Hon). exists (severity_of f). split.
    + destruct (severity_of f); simpl; auto.
    + rewrite Hon. simpl. apply negb_true_iff, Nat.eqb_neq, count_of_nonzero.
      exists f. auto.
Qed.

End Aggregation.

Section ExitStatus.
Import FS ConnectionsCheck Guardian.

(** C2: (1) the aggregator fails exactly when some finding has a severity
    enabled in failOn; (2) the exit status of the connection check is
    nonzero exactly when the aggregator, given the severities of the lines
    the run printed and the failOn block of CERBER.md (critical and error
    on, warning off), says not ok; (3) which is exactly when the run printed
    an error line; (4) so a run whose findings are all warnings exits 0,
    however many they are. *)
Theorem C2_failure_iff_enabled_severity (env : environment) :
  (forall (A : Type) (S : Severe A) (findings : list A) (failOn : FailOn),
      ok (evaluate findings failOn) = false
      <-> exists f, In f findings /\ fails_on failOn (severity_of f) = true)
  /\ (exit_status env <> 0
      <-> ok (evaluate (finding_severities (final_state env)) health_failOn)
          = false)
  /\ (exit_status env <> 0
      <-> In Error (finding_severities (final_state env)))
  /\ ((forall s, In s (finding_severities (final_state env)) -> s = Warning) ->
      exit_status env = 0).
Proof.
  split; [intros; apply evaluate_fails_iff|].
  split; [|split].
  - rewrite evaluate_fails_iff, exit_status_errors. split.
    + intros He. exists Error. auto.
    + intros (s & Hs & Hon). destruct s; [discriminate| exact Hs|].
      by apply no_critical_finding in Hs.
  - apply exit_status_errors.
  - intros Hw. destruct (Nat.eq_dec (exit_status env) 0) as [|Hne]; [done|].
    apply exit_status_errors, Hw in Hne. discriminate.
Qed.

Lemma C2_failure_iff_enabled_severity_witness :
  exit_status Samples.env_mutual_ab = 0
  /\ exit_status Samples.env_mixed <> 0.
Proof.
  split.
  - apply (proj2 (proj2 (proj2
             (C2_failure_iff_enabled_severity Samples.env_mutual_ab)))).
    intros s Hs. vm_compute in Hs.
    destruct Hs as [<-|[<-|[]]]; reflexivity.
  - apply (proj2 (proj1 (proj2 (proj2
             (C2_failure_iff_enabled_severity Samples.env_mixed))))).
    vm_compute. tauto.
Defined.

End ExitStatus.

(** ** The module registry *)

Section Registry.
Import Text FS AddModule.

(** The script run a second time for billing, a month later and with a new
    template: it exits 1 with the already-exists error, and the record of
    billing still carries the first date. *)
Lemma C6_counterexample :
  exit_code <$> add_module "2026-02-01" "billing" Samples.fs_billing_new_template
  = Some 1
  /\ printed <$> add_module "2026-02-01" "billing" Samples.fs_billing_new_template
     = Some (ModuleAlreadyExists "billing")
  /\ (resolve Samples.fs_billing_new_template "billing" ≫= MODULE_md)
     = Some (basic_module_md "billing" "2026-01-01").
Proof.
  split; [vm_compute; reflexivity|].
  split; vm_compute; reflexivity.
Qed.

(** C6, as amended: the script run for a name whose module directory
    exists is refused: it exits 1 with the already-exists error and leaves
    the file system as it was, so that the registry keeps its size and
    resolve still returns the prior record.  A module is replaced only by
    removing its directory first. *)
Theorem C6_existing_module_rejected
    (today name : string) (fs : filesystem) :
  name <> EmptyString ->
  is_dir fs (module_dir name) = true ->
  exists o,
    add_module today name fs = Some o
    /\ exit_code o = 1
    /\ printed o = ModuleAlreadyExists name
    /\ fs_after o = fs
    /\ resolve (fs_after o) name = resolve fs name
    /\ registry_size (fs_after o) = registry_size fs.
Proof.
  intros Hname Hdir. unfold add_module.
  destruct name as [|ch name]; [done|]. cbn [nonempty negb].
  rewrite Hdir. eexists. split; [reflexivity|]. cbn [exit_code printed fs_after].
  repeat split.
Qed.

Lemma C6_existing_module_rejected_witness :
  exists o,
    add_module "2026-02-01" "billing" Samples.fs_billing_new_template = Some o
    /\ exit_code o = 1
    /\ printed o = ModuleAlreadyExists "billing"
    /\ fs_after o = Samples.fs_billing_new_template
    /\ resolve (fs_after o) "billing"
       = resolve Samples.fs_billing_new_template "billing"
    /\ registry_size (fs_after o) = registry_size Samples.fs_billing_new_template.
Proof.
  apply (C6_existing_module_rejected "2026-02-01" "billing"
           Samples.fs_billing_new_template).
  - discriminate.
  - vm_compute; reflexivity.
Defined.

(** A first registration, for comparison: the module is created and
    resolves to the three files the script writes. *)
Lemma first_registration_resolves :
  exit_code <$> add_module "2026-01-01" "billing" Samples.empty_fs = Some 0
  /\ resolve Samples.fs_billing "billing"
     = Some {| MODULE_md := Some (basic_module_md "billing" "2026-01-01");
               contract := Some contract_json;
               dependencies := Some dependencies_json |}
  /\ registered Samples.fs_billing = ["billing"].
Proof.
  split; [vm_compute; reflexivity|].
  split; vm_compute; reflexivity.
Qed.

End Registry.

(** ** The pattern matcher *)

Section PatternMatcher.
Import Guardian.

Lemma scan_file_origin ignored r f x :
  In x (scan_file ignored r f) -> rule x = r /\ file x = fst f.
Proof.
  destruct f as [path content]. unfold scan_file.
  destruct (ignored path || negb (in_scope r path) || excepted r path);
    [intros []|].
  destruct content as [text|].
  - intros Hx. apply repeat_spec in Hx. by subst x.
  - intros [<-|[]]. done.
Qed.

(** C7: a file whose path matches one of a rule's exception globs
    contributes no Finding for that rule, whatever it contains and whatever
    else is scanned; and in the scenario of the hard-coded password rule
    with the exception .env.example, config.ts yields exactly one error
    Finding and .env.example none. *)
Theorem C7_excepted_file_contributes_nothing
    (ignored : string -> bool) (t : tree) (ruleset : list Rule)
    (r : Rule) (path : string) :
  excepted r path = true ->
  (forall x, In x (scan ignored t ruleset) -> ~ (rule x = r /\ file x = path))
  /\ scan Samples.nothing_ignored Samples.password_tree [Samples.password_rule]
     = [{| rule := Samples.password_rule; file := "config.ts";
           finding_severity := Error; kind := pattern_match |}].
Proof.
  intros Hex. split; [|vm_compute; reflexivity].
  intros x Hx [Hr Hf]. unfold scan in Hx.
  apply in_flat_map in Hx as (r' & _ & Hx).
  apply in_flat_map in Hx as ([p c] & _ & Hx).
  destruct (scan_file_origin _ _ _ _ Hx) as [Hr' Hf']. cbn [fst] in Hf'.
  assert (Er : r' = r) by congruence. assert (Ep : p = path) by congruence.
  rewrite Er, Ep in Hx. clear -Hex Hx.
  unfold scan_file in Hx. rewrite Hex, orb_true_r in Hx. destruct Hx.
Qed.

Lemma C7_excepted_file_contributes_nothing_witness :
  excepted Samples.password_rule ".env.example" = true
  /\ ((forall x,
         In x (scan Samples.nothing_ignored Samples.password_tree
                 [Samples.password_rule]) ->
         ~ (rule x = Samples.password_rule /\ file x = ".env.example"))
      /\ scan Samples.nothing_ignored Samples.password_tree [Samples.password_rule]
         = [{| rule := Samples.password_rule; file := "config.ts";
               finding_severity := Error; kind := pattern_match |}]).
Proof.
  split; [vm_compute; reflexivity|].
  apply (C7_excepted_file_contributes_nothing Samples.nothing_ignored
           Samples.password_tree [Samples.password_rule] Samples.password_rule
           ".env.example").
  vm_compute; reflexivity.
Defined.

End PatternMatcher.

(** ** The TypeScript stubs *)

Section Stubs.
Import ModuleSystem.

(** C9: each of the nine exported functions of module-system.ts throws an
    Error whose message starts with Not implemented, on every input; none
    returns a value. *)
Theorem C9_module_system_not_implemented :
  (forall moduleName, throws_not_implemented (loadModule moduleName))
  /\ (forall moduleName, throws_not_implemented (loadContract moduleName))
  /\ (forall moduleName, throws_not_implemented (validateModule moduleName))
  /\ throws_not_implemented (validateConnections tt)
  /\ (forall moduleName, throws_not_implemented (createFocusContext moduleName))
  /\ throws_not_implemented (listModules tt)
  /\ (forall moduleName, throws_not_implemented (getModuleDependencies moduleName))
  /\ throws_not_implemented (detectCircularDependencies tt)
  /\ (forall moduleName, throws_not_implemented (getModuleConnections moduleName)).
Proof. repeat split; intros; vm_compute; discriminate. Qed.

End Stubs.

(** ** Feature flags *)

Section Flags.
Import FeatureFlags.

(** With NODE_ENV set to the empty string, a flag restricted to development
    is on, though the environment list does not contain the empty string. *)
Lemma C10_counterexample :
  fst (isFeatureEnabled Samples.rt_empty_env Samples.beta_flags "beta") = true
  /\ ~ stated_enabled Samples.rt_empty_env Samples.beta_flags "beta".
Proof.
  split; [vm_compute; reflexivity|].
  intros (config & Hc & _ & Henv & _).
  assert (config = Samples.beta_flag) as ->.
  { vm_compute in Hc. injection Hc as <-. reflexivity. }
  specialize (Henv ["development"] eq_refl ltac:(discriminate)).
  apply list_elem_of_In in Henv. destruct Henv as [E|[]]. discriminate E.
Qed.

Lemma get_own (featureFlags : FeatureFlagsConfig) flag :
  (exists config, get featureFlags flag = Own config
                  /\ featureFlags !! flag = Some config)
  \/ (featureFlags !! flag = None
      /\ (get featureFlags flag = Inherited \/ get featureFlags flag = Undefined)).
Proof.
  unfold get. destruct (featureFlags !! flag) as [c|]; [left; eauto|right].
  split; [reflexivity|]. destruct (bool_decide _); auto.
Qed.

(** C10, as amended: isFeatureEnabled returns true exactly when the flag
    is present in the current configuration, its enabled field is true, its
    environments list, when present and non-empty, contains the current
    environment, which is NODE_ENV, or development when NODE_ENV is unset
    or empty, and its expiresAt date, when present, is not strictly in
    the past; for a flag that is not present it returns false, and it
    returns on every input. *)
Theorem C10_isFeatureEnabled_iff
    (rt : runtime) (featureFlags : FeatureFlagsConfig) (flag : string) :
  (fst (isFeatureEnabled rt featureFlags flag) = true
   <-> enabled_when rt featureFlags flag)
  /\ (featureFlags !! flag = None ->
      fst (isFeatureEnabled rt featureFlags flag) = false).
Proof.
  unfold isFeatureEnabled, enabled_when.
  destruct (get_own featureFlags flag) as [(config & -> & Hc)|[Hn [-> | ->]]].
  - split; [|intros Hn; congruence]. rewrite Hc.
    destruct config as [en de ow ex envs]. cbn [enabled environments expiresAt].
    split.
    + intros Hon. exists (mkFlag en de ow ex envs).
      cbn [enabled environments expiresAt].
      destruct en; [|discriminate Hon]. cbn [negb] in Hon.
      split; [reflexivity|]. split; [reflexivity|].
      destruct envs as [[|e es]|].
      * split; [intros ? [= <-] ?; done|].
        destruct ex as [[|ch d]|]; intros d' [= <-]; [reflexivity|].
        by destruct (later_than _ _).
      * case_bool_decide as Hin; [|discriminate Hon]. cbn [negb] in Hon.
        split; [intros ? [= <-] _; exact Hin|].
        destruct ex as [[|ch d]|]; intros d' [= <-]; [reflexivity|].
        by destruct (later_than _ _).
      * split; [intros ? [=]|].
        destruct ex as [[|ch d]|]; intros d' [= <-]; [reflexivity|].
        by destruct (later_than _ _).
    + intros (config & [= <-] & Hen & Henv & Hex).
      cbn [enabled environments expiresAt] in *. subst en. cbn [negb].
      assert (Hok : match envs with
                    | Some (e :: es) => bool_decide (currentEnv rt ∈ e :: es)
                    | _ => true
                    end = true).
      { destruct envs as [[|e es]|]; [reflexivity| |reflexivity].
        apply bool_decide_eq_true. by apply Henv. }
      rewrite Hok. cbn [negb].
      destruct ex as [[|ch d]|]; [reflexivity| |reflexivity].
      by rewrite (Hex _ eq_refl).
  - split; [|reflexivity]. split; [discriminate|].
    intros (config & Hc & _). congruence.
  - split; [|reflexivity]. split; [discriminate|].
    intros (config & Hc & _). congruence.
Qed.

Lemma C10_isFeatureEnabled_iff_witness :
  enabled_when Samples.rt_unset_env Samples.beta_flags "beta"
  /\ fst (isFeatureEnabled Samples.rt_unset_env Samples.beta_flags "gamma")
     = false.
Proof.
  split.
  - apply (proj1 (proj1 (C10_isFeatureEnabled_iff Samples.rt_unset_env
                           Samples.beta_flags "beta"))).
    vm_compute; reflexivity.
  - apply (proj2 (C10_isFeatureEnabled_iff Samples.rt_unset_env
                    Samples.beta_flags "gamma")).
    vm_compute; reflexivity.
Defined.

End Flags.

(** ** The connection check: what decides the exit status *)

Section ConnectionsOutcome.
Import Text FS ConnectionsCheck.

Create Rewrite HintDb connection_state.

#[local] Hint Rewrite
  ERRORS_echo WARNINGS_echo CHECKED_echo connections_echo out_echo
  ERRORS_incr_ERRORS WARNINGS_incr_ERRORS CHECKED_incr_ERRORS
  connections_incr_ERRORS out_incr_ERRORS
  ERRORS_incr_WARNINGS WARNINGS_incr_WARNINGS CHECKED_incr_WARNINGS
  connections_incr_WARNINGS out_incr_WARNINGS
  ERRORS_incr_CHECKED WARNINGS_incr_CHECKED CHECKED_incr_CHECKED
  connections_incr_CHECKED out_incr_CHECKED
  ERRORS_store_connection WARNINGS_store_connection CHECKED_store_connection
  connections_store_connection out_store_connection
  : connection_state.

(** The errors one document draws, read off its tests. *)
Lemma document_errors fs c :
  ERRORS (process_contract fs initial c)
  = if negb (contract_is_file c) then 0
    else if negb (json_syntax_ok c) then 1
    else if negb (nonempty (FROM_MODULE c)) || negb (nonempty (TO_MODULE c))
    then 1
    else b2n (negb (is_dir fs (module_dir (FROM_MODULE c))))
         + b2n (negb (is_dir fs (module_dir (TO_MODULE c)))).
Proof.
  unfold process_contract, check_fields, check_modules_exist.
  destruct (contract_is_file c); cbn [negb]; [|reflexivity].
  destruct (json_syntax_ok c); cbn [negb];
    [|unfold report_error; autorewrite with connection_state; reflexivity].
  destruct (nonempty (FROM_MODULE c)), (nonempty (TO_MODULE c));
    cbn [negb orb];
    try (unfold report_error; autorewrite with connection_state; reflexivity).
  destruct (is_dir fs (module_dir (FROM_MODULE c))),
    (is_dir fs (module_dir (TO_MODULE c)));
    destruct (HAS_INTERFACE c), (HAS_VERSION c), (has_breaking_changes c);
    cbn [when negb andb orb b2n];
    unfold report_error, report_warning; autorewrite with connection_state;
    reflexivity.
Qed.

Lemma final_ERRORS env :
  has_contracts env ->
  ERRORS (final_state env)
  = list_sum (map (fun c => ERRORS (process_contract (env_fs env) initial c))
                (glob_contracts env)).
Proof.
  intros H. unfold final_state. rewrite (run_phases _ H).
  set (st0 := process_contracts (env_fs env) (glob_contracts env) initial).
  destruct (summary_out (check_circular st0)) as (m & _ & _ & ->).
  rewrite ERRORS_echo.
  destruct (check_circular_spec st0) as (-> & _).
  unfold st0. by rewrite process_contracts_ERRORS.
Qed.

Lemma list_sum_zero (l : list nat) :
  list_sum l = 0 <-> forall n, In n l -> n = 0.
Proof.
  induction l as [|x l IH]; simpl; [split; [intros _ ? []|reflexivity]|].
  split.
  - intros Hs n [<-|Hn]; [lia|]. apply IH; [lia|exact Hn].
  - intros Hall. rewrite (Hall x (or_introl eq_refl)).
    apply IH. intros n Hn. apply Hall. by right.
Qed.

Lemma has_contracts_dec env : {has_contracts env} + {~ has_contracts env}.
Proof.
  unfold has_contracts.
  destruct (connections_dir_exists env); [|right; intros [? _]; discriminate].
  destruct (Nat.eq_dec (find_json_count env) 0) as [E|E];
    [right; intros [_ ?]; done|left; done].
Qed.

Lemma exit_status_no_contracts env :
  ~ has_contracts env -> run env = (0, echo NoConnectionsDir initial)
                         \/ run env = (0, echo NoContracts initial).
Proof.
  unfold has_contracts, run. intros H.
  destruct (connections_dir_exists env); cbn [negb]; [|by left].
  destruct (Nat.eqb_spec (find_json_count env) 0); [by right|].
  exfalso. apply H. done.
Qed.

(** X1: the connection check exits nonzero exactly when it gets past its two
    early exits and some regular file among the contracts is rejected by both
    JSON parsers, or has an empty from or to, or names a module whose
    directory does not exist.  Missing interface, version or
    breaking_changes fields and circular dependencies never change the exit
    status. *)
Theorem X1_exit_status_by_documents (env : environment) :
  exit_status env = 0
  <-> (~ has_contracts env
       \/ forall c, In c (glob_contracts env) ->
            contract_is_file c = true ->
            json_syntax_ok c = true
            /\ FROM_MODULE c <> EmptyString
            /\ TO_MODULE c <> EmptyString
            /\ is_dir (env_fs env) (module_dir (FROM_MODULE c)) = true
            /\ is_dir (env_fs env) (module_dir (TO_MODULE c)) = true).
Proof.
  destruct (has_contracts_dec env) as [H|H].
  2:{ split; [by left|]. intros _. unfold exit_status.
      by destruct (exit_status_no_contracts _ H) as [-> | ->]. }
  rewrite run_exit, (final_ERRORS _ H).
  set (fs := env_fs env). set (cs := glob_contracts env).
  transitivity (list_sum (map (fun c => ERRORS (process_contract fs initial c)) cs) = 0).
  { destruct (Nat.eqb_spec (list_sum (map (fun c => ERRORS (process_contract fs initial c)) cs)) 0);
      split; congruence. }
  rewrite list_sum_zero. split.
  - intros Hall. right. intros c Hc Hf.
    specialize (Hall _ (in_map (fun c => ERRORS (process_contract fs initial c)) _ _ Hc)).
    cbv beta in Hall. rewrite document_errors, Hf in Hall. cbn [negb] in Hall.
    destruct (json_syntax_ok c); cbn [negb] in Hall; [|discriminate].
    destruct (FROM_MODULE c) as [|? ?]; cbn [nonempty negb orb] in Hall;
      [discriminate|].
    destruct (TO_MODULE c) as [|? ?]; cbn [nonempty negb orb] in Hall;
      [discriminate|].
    destruct (is_dir fs _), (is_dir fs _); cbn [negb b2n] in Hall;
      try discriminate.
    repeat split; discriminate.
  - intros [Hno|Hall]; [done|]. intros n Hn.
    apply in_map_iff in Hn as (c & <- & Hc). rewrite document_errors.
    destruct (contract_is_file c) eqn:Hf; cbn [negb]; [|reflexivity].
    destruct (Hall c Hc Hf) as (-> & HF & HT & -> & ->). cbn [negb b2n].
    destruct (FROM_MODULE c); [done|]. destruct (TO_MODULE c); [done|].
    reflexivity.
Qed.

(** X2: the counters and the lines printed.  In every run ERRORS is the
    number of error lines (red cross), and the exit status is 1 exactly when
    that number is not zero.  In a run that finds the connections directory
    WARNINGS is the number of warning lines (yellow sign); the run that does
    not find it has one finding, the yellow notice of line 31, counts
    nothing for it and exits 0.  A run that gets past the early exits ends
    with the summary line for exactly those two numbers. *)
Theorem X2_counters_and_summary (env : environment) :
  let st := final_state env in
  let errors := count_severity Error (out st) in
  let warnings := count_severity Warning (out st) in
  ERRORS st = errors
  /\ exit_status env = (if Nat.eqb errors 0 then 0 else 1)
  /\ (connections_dir_exists env = true -> WARNINGS st = warnings)
  /\ (connections_dir_exists env = false ->
      out st = [NoConnectionsDir] /\ warnings = 1 /\ WARNINGS st = 0
      /\ exit_status env = 0)
  /\ (has_contracts env ->
      List.last (out st) NoContracts
      = ConnectionsExtra.summary_line errors warnings).
Proof.
  intros st errors warnings. subst st errors warnings.
  pose proof (final_errors_counted env) as E.
  split; [exact E|]. split; [by rewrite run_exit, E|]. split; [|split].
  - intros Hdir. by destruct (final_counters env Hdir).
  - intros Hdir. unfold exit_status, final_state, run. rewrite Hdir.
    cbn [negb fst snd]. rewrite out_echo, WARNINGS_echo. by repeat split.
  - intros H. destruct (final_counters env (proj1 H)) as [_ W].
    rewrite <- E, <- W. unfold final_state. rewrite (run_phases _ H).
    set (st0 := check_circular _).
    unfold summary, ConnectionsExtra.summary_line.
    destruct (Nat.eqb (ERRORS st0) 0) eqn:E0,
      (Nat.eqb (WARNINGS st0) 0) eqn:W0;
      cbn [andb snd]; rewrite ?out_echo, ?ERRORS_echo, ?WARNINGS_echo,
        ?E0, ?W0, last_last; reflexivity.
Qed.

(** X3: when no expansion of the glob is a regular file, also when find
    counted contracts the glob does not reach (nested or hidden ones), the
    run checks nothing and passes: exit status 0, all three counters 0. *)
Theorem X3_no_regular_file_passes (env : environment) :
  forallb (fun c => negb (contract_is_file c)) (glob_contracts env) = true ->
  exit_status env = 0
  /\ CHECKED (final_state env) = 0
  /\ ERRORS (final_state env) = 0
  /\ WARNINGS (final_state env) = 0
  /\ connections (final_state env) = ∅.
Proof.
  intros Hnone.
  assert (Hloop : forall st,
             process_contracts (env_fs env) (glob_contracts env) st = st).
  { unfold process_contracts. induction (glob_contracts env) as [|c cs IH];
      intros st; [reflexivity|].
    cbn [forallb] in Hnone. apply andb_true_iff in Hnone as [Hc Hcs].
    cbn [fold_left]. unfold process_contract at 2. rewrite Hc. by apply IH. }
  destruct (has_contracts_dec env) as [H|H].
  - unfold exit_status, final_state. rewrite (run_phases _ H), Hloop.
    vm_compute. repeat split.
  - unfold exit_status, final_state.
    destruct (exit_status_no_contracts _ H) as [-> | ->]; vm_compute;
      repeat split.
Qed.

Lemma X3_no_regular_file_passes_witness :
  exit_status Samples2.env_nested_only = 0
  /\ CHECKED (final_state Samples2.env_nested_only) = 0
  /\ ERRORS (final_state Samples2.env_nested_only) = 0
  /\ WARNINGS (final_state Samples2.env_nested_only) = 0
  /\ connections (final_state Samples2.env_nested_only) = ∅.
Proof.
  apply (X3_no_regular_file_passes Samples2.env_nested_only).
  reflexivity.
Defined.

End ConnectionsOutcome.

(** ** Keys and the names cut out of them *)

Section KeyFacts.
Import Text FS ConnectionsCheck ConnectionsExtra.

Lemma split_on_singleton d s x : split_on d s = [x] -> x = s.
Proof.
  revert x. induction s as [|c s IH]; intros x; simpl;
    [intros E; injection E as E; by symmetry|].
  destruct (Ascii.eqb c d).
  - intros E. injection E as E1 E2. destruct (split_on_nonnil _ _ E2).
  - destruct (split_on d s) as [|f fs] eqn:Es;
      [destruct (split_on_nonnil _ _ Es)|].
    intros E. injection E as E1 E2. subst x fs. by rewrite (IH f).
Qed.

Lemma cut_first d s : cut d 1 s = first_field d s.
Proof.
  unfold cut, first_field.
  destruct (split_on d s) as [|x [|y ys]] eqn:E; simpl; try reflexivity.
  symmetry. by apply split_on_singleton in E.
Qed.

Lemma first_field_cons d c s :
  first_field d (String c s)
  = if Ascii.eqb c d then EmptyString else String c (first_field d s).
Proof.
  unfold first_field. simpl. destruct (Ascii.eqb c d); [reflexivity|].
  destruct (split_on d s) eqn:E; [by apply split_on_nonnil in E|reflexivity].
Qed.

Lemma first_field_before d (a r : string) :
  first_field d (a ++ String d r) = first_field d a.
Proof.
  induction a as [|c a IH]; rewrite ?append_nil, ?append_cons.
  - rewrite first_field_cons, Ascii.eqb_refl. reflexivity.
  - rewrite !first_field_cons, IH. reflexivity.
Qed.

Lemma first_field_free d a : occurs d (first_field d a) = false.
Proof.
  induction a as [|c a IH]; [reflexivity|].
  rewrite first_field_cons. destruct (Ascii.eqb c d) eqn:E; [reflexivity|].
  simpl. by rewrite E, IH.
Qed.

Lemma first_field_id d a : first_field d a = a <-> occurs d a = false.
Proof.
  split.
  - intros E. rewrite <- E. apply first_field_free.
  - intros H. unfold first_field. by rewrite split_on_absent.
Qed.

Lemma key_FROM_first (a b : string) :
  key_FROM (connection_key a b) = first_field "-" a.
Proof.
  unfold key_FROM, connection_key. rewrite cut_first.
  change ("->" ++ b) with (String "-" (String ">" b)).
  apply first_field_before.
Qed.

Lemma key_TO_first (a b : string) :
  occurs ">" a = false ->
  key_TO (connection_key a b) = first_field ">" b.
Proof.
  intros Ha. unfold key_TO, connection_key, cut, first_field.
  change ("->" ++ b) with ("-" ++ String ">" b).
  rewrite <- append_assoc'.
  rewrite split_on_first by (rewrite occurs_app, Ha; reflexivity).
  destruct (split_on ">" b) eqn:E; [by apply split_on_nonnil in E|].
  reflexivity.
Qed.

(** X4: what lines 147-148 cut out of a stored key from->to.  FROM is the
    from-name up to its first hyphen, so that it is the from-name itself
    exactly when that name has no hyphen; TO is the to-name up to its first
    angle bracket, provided the from-name has none. *)
Theorem X4_names_cut_from_key (a b : string) :
  key_FROM (connection_key a b) = first_field "-" a
  /\ (key_FROM (connection_key a b) = a <-> occurs "-" a = false)
  /\ (occurs ">" a = false ->
      key_TO (connection_key a b) = first_field ">" b
      /\ (key_TO (connection_key a b) = b <-> occurs ">" b = false)).
Proof.
  split; [apply key_FROM_first|]. split.
  - rewrite key_FROM_first. apply first_field_id.
  - intros Ha. rewrite (key_TO_first _ _ Ha). split; [reflexivity|].
    apply first_field_id.
Qed.

Lemma append_inj_l (p x y : string) : p ++ x = p ++ y -> x = y.
Proof.
  induction p as [|c p IH]; rewrite ?append_nil, ?append_cons; [done|].
  intros [= E]. by apply IH.
Qed.

Lemma append_char_inj (a a' : string) c :
  a ++ String c EmptyString = a' ++ String c EmptyString -> a = a'.
Proof.
  revert a'. induction a as [|x a IH]; intros [|x' a'];
    rewrite ?append_nil, ?append_cons; intros E.
  - reflexivity.
  - injection E as _ E. by destruct a'.
  - injection E as _ E. by destruct a.
  - injection E as -> E. by rewrite (IH a').
Qed.

Lemma connection_key_from_inj (a b a' b' : string) :
  occurs ">" a = false -> occurs ">" a' = false ->
  connection_key a b = connection_key a' b' -> a = a'.
Proof.
  intros Ha Ha' E. unfold connection_key in E.
  change ("->" ++ b) with ("-" ++ String ">" b) in E.
  change ("->" ++ b') with ("-" ++ String ">" b') in E.
  rewrite <- !append_assoc' in E.
  apply (f_equal (split_on ">")) in E.
  rewrite !split_on_first in E by (rewrite occurs_app, ?Ha, ?Ha'; reflexivity).
  injection E as E _. by apply append_char_inj in E.
Qed.

(** A key whose reverse is looked up in an array that holds exactly the two
    keys of a mutual pair. *)
Lemma has_reverse_in_pair (conns : gmap string string) (x y : string) :
  x <> y -> occurs ">" x = false -> occurs ">" y = false ->
  (forall K, conns !! K
             = if bool_decide (K = connection_key x y
                               \/ K = connection_key y x)
               then Some "1" else None) ->
  has_reverse conns (connection_key x y) = negb (occurs "-" x).
Proof.
  intros Hxy Hx Hy Hconns. unfold has_reverse, lookup_connection.
  rewrite key_FROM_first, (key_TO_first _ _ Hx).
  rewrite (proj2 (first_field_id ">" y) Hy), Hconns.
  destruct (occurs "-" x) eqn:Hh; cbn [negb].
  - rewrite bool_decide_eq_false_2; [reflexivity|].
    intros [E|E].
    + apply connection_key_from_inj in E; done.
    + unfold connection_key in E. apply append_inj_l in E.
      apply append_inj_l in E. apply first_field_id in E. congruence.
  - rewrite (proj2 (first_field_id "-" x) Hh).
    rewrite bool_decide_eq_true_2; [reflexivity|by right].
Qed.

(** X5: the run over exactly two stored documents a->b and b->a, for
    distinct names without angle bracket.  A direction is reported exactly
    when its from-name has no hyphen: two cycle lines for two plain names,
    one when one name is kebab-case, none when both are. *)
Theorem X5_mutual_pair_and_hyphens
    (env : environment) (a b : string) (c1 c2 : contract) :
  has_contracts env ->
  glob_contracts env = [c1; c2] ->
  stored c1 = true -> stored c2 = true ->
  FROM_MODULE c1 = a -> TO_MODULE c1 = b ->
  FROM_MODULE c2 = b -> TO_MODULE c2 = a ->
  a <> b ->
  occurs ">" a = false -> occurs ">" b = false ->
  cycle_reports (final_state env)
    ≡ₚ ((if occurs "-" a then [] else [PotentialCircular a b])
        ++ (if occurs "-" b then [] else [PotentialCircular b a]))%list
  /\ length (cycle_reports (final_state env))
     = b2n (negb (occurs "-" a)) + b2n (negb (occurs "-" b)).
Proof.
  intros Henv Hcs S1 S2 F1 T1 F2 T2 Hab Ha Hb.
  assert (Hperm : cycle_reports (final_state env)
    ≡ₚ ((if occurs "-" a then [] else [PotentialCircular a b])
        ++ (if occurs "-" b then [] else [PotentialCircular b a]))%list).
  { rewrite (cycle_reports_run _ Henv). cbv zeta.
    rewrite (final_connections _ Henv), Hcs.
    unfold process_contracts. cbn [fold_left].
    rewrite !process_contract_connections, S1, S2.
    unfold contract_key. rewrite F1, T1, F2, T2. cbn [connections initial].
    set (k1 := connection_key a b). set (k2 := connection_key b a).
    set (conns := <[k2 := "1"]> (<[k1 := "1"]> ∅) : gmap string string).
    assert (Hk : k1 <> k2).
    { intros E. by apply connection_key_from_inj in E. }
    assert (Hconns : forall K, conns !! K
               = if bool_decide (K = k1 \/ K = k2) then Some "1" else None).
    { intros K. unfold conns. case_bool_decide as D.
      - destruct D as [-> | ->].
        + rewrite lookup_insert_ne by done. apply lookup_insert_eq.
        + apply lookup_insert_eq.
      - rewrite !lookup_insert_ne by (intros <-; apply D; auto).
        apply lookup_empty. }
    assert (R1 : has_reverse conns k1 = negb (occurs "-" a)).
    { apply has_reverse_in_pair; try done. }
    assert (R2 : has_reverse conns k2 = negb (occurs "-" b)).
    { apply has_reverse_in_pair; try done. intros K. rewrite Hconns.
      fold k1 k2. rewrite (bool_decide_ext (K = k1 \/ K = k2) (K = k2 \/ K = k1));
        [reflexivity|tauto]. }
    assert (C1 : occurs "-" a = false ->
                 circular_line k1 = PotentialCircular a b).
    { intros Hh. unfold circular_line, k1.
      rewrite key_FROM_first, (key_TO_first _ _ Ha).
      by rewrite (proj2 (first_field_id "-" a) Hh),
        (proj2 (first_field_id ">" b) Hb). }
    assert (C2 : occurs "-" b = false ->
                 circular_line k2 = PotentialCircular b a).
    { intros Hh. unfold circular_line, k2.
      rewrite key_FROM_first, (key_TO_first _ _ Hb).
      by rewrite (proj2 (first_field_id "-" b) Hh),
        (proj2 (first_field_id ">" a) Ha). }
    pose proof (keys_two k1 k2 "1" "1" Hk) as Hkeys.
    change (keys conns = [k2; k1] \/ keys conns = [k1; k2]) in Hkeys.
    destruct Hkeys as [-> | ->]; cbn [List.filter]; rewrite R1, R2;
      destruct (occurs "-" a), (occurs "-" b); cbn [negb map app];
      rewrite ?C1, ?C2 by reflexivity; try reflexivity.
    apply perm_swap. }
  split; [exact Hperm|]. rewrite Hperm.
  by destruct (occurs "-" a), (occurs "-" b).
Qed.

Lemma X5_mutual_pair_and_hyphens_witness :
  cycle_reports (final_state Samples2.env_mutual_auth)
    ≡ₚ [PotentialCircular "auth" "user-auth"]
  /\ length (cycle_reports (final_state Samples2.env_mutual_auth)) = 1.
Proof.
  eapply (X5_mutual_pair_and_hyphens Samples2.env_mutual_auth
            "auth" "user-auth").
  - split; [reflexivity|vm_compute; discriminate].
  - reflexivity.
  - vm_compute; reflexivity.
  - vm_compute; reflexivity.
  - vm_compute; reflexivity.
  - vm_compute; reflexivity.
  - vm_compute; reflexivity.
  - vm_compute; reflexivity.
  - discriminate.
  - reflexivity.
  - reflexivity.
Defined.

End KeyFacts.

(** ** Reading a field: grep, head and sed *)

Section FieldFacts.
Import Text FS ConnectionsCheck ConnectionsExtra.

Lemma q_cons (s : string) : q ++ s = String dquote s.
Proof. reflexivity. Qed.

Lemma strip_prefix_app (p r : string) : strip_prefix p (p ++ r) = Some r.
Proof.
  induction p as [|c p IH]; rewrite ?append_nil, ?append_cons; simpl;
    [reflexivity|]. by rewrite Ascii.eqb_refl.
Qed.

Lemma span_space (sp : string) c r :
  all_space sp = true -> is_space c = false ->
  span is_space (sp ++ String c r) = (sp, String c r).
Proof.
  intros Hsp Hc. induction sp as [|x sp IH];
    rewrite ?append_nil, ?append_cons; simpl.
  - by rewrite Hc.
  - simpl in Hsp. apply andb_true_iff in Hsp as [-> Hsp]. by rewrite (IH Hsp).
Qed.

Lemma span_value (v r : string) :
  occurs dquote v = false ->
  span not_dquote (v ++ String dquote r) = (v, String dquote r).
Proof.
  intros Hv. induction v as [|x v IH]; rewrite ?append_nil, ?append_cons;
    simpl.
  - reflexivity.
  - simpl in Hv. apply orb_false_iff in Hv as [Hx Hv].
    unfold not_dquote at 1. rewrite Hx. simpl. by rewrite (IH Hv).
Qed.

Lemma field_text_shape (name sp1 sp2 v rest : string) :
  field_text name sp1 sp2 v ++ rest
  = (q ++ name ++ q)
    ++ sp1 ++ String ":" (sp2 ++ String dquote (v ++ String dquote rest)).
Proof. unfold field_text. rewrite !append_assoc'. reflexivity. Qed.

Lemma match_field_here_field (name sp1 sp2 v rest : string) :
  all_space sp1 = true -> all_space sp2 = true ->
  occurs dquote v = false ->
  match_field_here name (field_text name sp1 sp2 v ++ rest)
  = Some (field_text name sp1 sp2 v).
Proof.
  intros H1 H2 Hv. rewrite field_text_shape. unfold match_field_here.
  rewrite strip_prefix_app, (span_space _ _ _ H1) by reflexivity.
  cbn iota beta. rewrite (span_space _ _ _ H2) by reflexivity.
  cbn iota beta. rewrite Ascii.eqb_refl, (span_value _ _ Hv).
  reflexivity.
Qed.

Lemma strip_prefix_cons a (p : string) b (s : string) :
  strip_prefix (String a p) (String b s)
  = if Ascii.eqb a b then strip_prefix p s else None.
Proof. reflexivity. Qed.

Lemma match_field_here_other name c t :
  Ascii.eqb c dquote = false -> match_field_here name (String c t) = None.
Proof.
  intros Hc. unfold match_field_here.
  by rewrite q_cons, strip_prefix_cons, Ascii.eqb_sym, Hc.
Qed.

Lemma match_field_here_empty name : match_field_here name EmptyString = None.
Proof. unfold match_field_here. rewrite q_cons. reflexivity. Qed.

Lemma grep_o_line_here name (s m : string) :
  match_field_here name s = Some m -> grep_o_line name s = Some m.
Proof. intros H. destruct s; cbn [grep_o_line]; by rewrite H. Qed.

Lemma grep_o_line_skip name (pre s : string) :
  occurs dquote pre = false ->
  grep_o_line name (pre ++ s) = grep_o_line name s.
Proof.
  induction pre as [|c pre IH]; rewrite ?append_nil, ?append_cons; [done|].
  cbn [grep_o_line occurs]. intros H. apply orb_false_iff in H as [Hc Hpre].
  by rewrite (match_field_here_other _ _ _ Hc), (IH Hpre).
Qed.

Lemma grep_o_line_quote_free name (l : string) :
  occurs dquote l = false -> grep_o_line name l = None.
Proof.
  induction l as [|c l IH]; cbn [grep_o_line occurs]; intros H.
  - by rewrite match_field_here_empty.
  - apply orb_false_iff in H as [Hc Hl].
    by rewrite (match_field_here_other _ _ _ Hc), (IH Hl).
Qed.

(** The lines of a text, character by character. *)
Lemma lines_LF (t : string) : lines (String LF t) = EmptyString :: lines t.
Proof.
  unfold lines. simpl. destruct t as [|c t]; [reflexivity|].
  destruct (split_on LF (String c t)) as [|f fs] eqn:E;
    [destruct (split_on_nonnil _ _ E)|].
  change (List.last (EmptyString :: f :: fs) (String LF EmptyString))
    with (List.last (f :: fs) (String LF EmptyString)).
  destruct (List.last (f :: fs) (String LF EmptyString)); reflexivity.
Qed.

Lemma lines_cons c (t : string) :
  Ascii.eqb c LF = false ->
  lines (String c t)
  = match lines t with
    | [] => [String c EmptyString]
    | f :: tl => String c f :: tl
    end.
Proof.
  intros Hc. unfold lines. simpl split_on. rewrite Hc.
  destruct (split_on LF t) as [|f fs] eqn:E;
    [destruct (split_on_nonnil _ _ E)|].
  destruct fs as [|g gs].
  - assert (f = t) as -> by (by apply split_on_singleton in E).
    cbn [List.last removelast]. destruct t; reflexivity.
  - change (List.last (String c f :: g :: gs) (String LF EmptyString))
      with (List.last (g :: gs) (String LF EmptyString)).
    change (List.last (f :: g :: gs) (String LF EmptyString))
      with (List.last (g :: gs) (String LF EmptyString)).
    destruct t as [|x t]; [discriminate E|].
    destruct (List.last (g :: gs) (String LF EmptyString)); reflexivity.
Qed.

Lemma first_match_skip name (pre s : string) :
  occurs dquote pre = false ->
  first_match name (lines (pre ++ s)) = first_match name (lines s).
Proof.
  induction pre as [|c pre IH]; rewrite ?append_nil, ?append_cons; [done|].
  cbn [occurs]. intros H. apply orb_false_iff in H as [Hc Hpre].
  destruct (Ascii.eqb c LF) eqn:HLF.
  - apply Ascii.eqb_eq in HLF. subst c. rewrite lines_LF.
    cbn [first_match grep_o_line].
    rewrite match_field_here_empty. by apply IH.
  - rewrite (lines_cons _ _ HLF), <- (IH Hpre).
    destruct (lines (pre ++ s)) as [|f tl]; cbn [first_match grep_o_line].
    + by rewrite (match_field_here_other _ _ _ Hc), match_field_here_empty.
    + by rewrite (match_field_here_other _ _ _ Hc).
Qed.

Lemma lines_head (L post : string) :
  L <> EmptyString -> occurs LF L = false ->
  exists p1 rest, lines (L ++ post) = (L ++ p1) :: rest.
Proof.
  induction L as [|c L IH]; [done|]. intros _ H. simpl in H.
  apply orb_false_iff in H as [Hc HL]. rewrite append_cons, (lines_cons _ _ Hc).
  destruct L as [|d L].
  - rewrite append_nil. destruct (lines post) as [|f tl].
    + by exists EmptyString, [].
    + by exists f, tl.
  - destruct (IH ltac:(discriminate) HL) as (p1 & rest & ->).
    by exists p1, rest.
Qed.

Lemma count_dquote_app (a b : string) :
  count_dquote (a ++ b) = count_dquote a + count_dquote b.
Proof.
  induction a as [|c a IH]; rewrite ?append_nil, ?append_cons; simpl;
    [reflexivity|]. rewrite IH. lia.
Qed.

Lemma count_dquote_free (v : string) :
  occurs dquote v = false -> count_dquote v = 0.
Proof.
  induction v as [|c v IH]; simpl; [reflexivity|].
  intros H. apply orb_false_iff in H as [-> H]. by rewrite IH.
Qed.

Lemma between_last_two_value (x v : string) :
  occurs dquote v = false ->
  between_last_two (x ++ q ++ v ++ q) = v.
Proof.
  intros Hv.
  assert (Htail : count_dquote (v ++ q) = 1).
  { rewrite count_dquote_app, (count_dquote_free _ Hv). reflexivity. }
  induction x as [|c x IH]; rewrite ?append_nil, ?append_cons.
  - rewrite q_cons. cbn [between_last_two]. rewrite Htail, Ascii.eqb_refl.
    cbn [Nat.eqb andb]. change q with (String dquote EmptyString).
    by rewrite span_value.
  - cbn [between_last_two].
    assert (Hc : Nat.eqb (count_dquote (x ++ q ++ v ++ q)) 1 = false).
    { rewrite count_dquote_app, q_cons. cbn [count_dquote].
      rewrite Ascii.eqb_refl, Htail. apply Nat.eqb_neq. lia. }
    by rewrite Hc, andb_false_r.
Qed.

(** The sed of line 82 on a text that ends in a quoted run. *)
Lemma sed_last_quoted_value (x v : string) :
  occurs dquote v = false ->
  sed_last_quoted (x ++ q ++ v ++ q) = v.
Proof.
  intros Hv. unfold sed_last_quoted.
  assert (Hn : count_dquote (x ++ q ++ v ++ q) = count_dquote x + 2).
  { rewrite count_dquote_app, q_cons. cbn [count_dquote].
    rewrite Ascii.eqb_refl, count_dquote_app, (count_dquote_free _ Hv).
    cbn. lia. }
  rewrite Hn. replace (Nat.leb 2 (count_dquote x + 2)) with true
    by (symmetry; apply Nat.leb_le; lia).
  by apply between_last_two_value.
Qed.

(** A line and its line feed, in front of a text. *)
Lemma lines_line (l t : string) :
  occurs LF l = false -> lines (l ++ String LF t) = l :: lines t.
Proof.
  induction l as [|c l IH]; rewrite ?append_nil, ?append_cons.
  - intros _. apply lines_LF.
  - cbn [occurs]. intros H. apply orb_false_iff in H as [Hc Hl].
    by rewrite (lines_cons _ _ Hc), (IH Hl).
Qed.

(** Lines without a match are passed over. *)
Lemma first_match_above name (above : list string) (rest : string) :
  forallb (fun l => negb (occurs LF l)
                    && bool_decide (grep_o_line name l = None)) above = true ->
  first_match name (lines (ModuleCheck.unlines above ++ rest))
  = first_match name (lines rest).
Proof.
  induction above as [|l ls IH]; [done|]. cbn [forallb ModuleCheck.unlines].
  intros [[Hl Hm]%andb_true_iff Hls]%andb_true_iff.
  apply negb_true_iff in Hl. apply bool_decide_eq_true in Hm.
  unfold nl. rewrite !append_assoc', append_cons, append_nil.
  rewrite (lines_line _ _ Hl). cbn [first_match]. rewrite Hm. by apply IH.
Qed.

(** X6: the pipeline of lines 82-83 reads back a field written on one
    line.  Take the field from or to, written as the quoted name, white
    space, a colon, white space and the quoted value, with a value free of
    double quotes.  When no line above it has a match for the name and its
    own line has no double quote before it, the extracted value is that
    value, whatever follows; fields of other names may come first on the
    lines above. *)
Theorem X6_field_read_back
    (name indent sp1 sp2 value post : string) (above : list string) :
  name = "from" \/ name = "to" ->
  forallb (fun l => negb (occurs LF l)
                    && bool_decide (grep_o_line name l = None)) above = true ->
  occurs dquote indent = false ->
  all_space sp1 = true -> occurs LF sp1 = false ->
  all_space sp2 = true -> occurs LF sp2 = false ->
  occurs dquote value = false -> occurs LF value = false ->
  extract_field name
    (ModuleCheck.unlines above ++ indent
     ++ field_text name sp1 sp2 value ++ post)
  = value.
Proof.
  intros Hwhich Habove Hpre H1 L1 H2 L2 Hv Lv.
  assert (occurs LF name = false) as Hname
    by (destruct Hwhich as [-> | ->]; reflexivity).
  unfold extract_field, grep_o_head1.
  rewrite (first_match_above _ _ _ Habove), (first_match_skip _ _ _ Hpre).
  set (F := field_text name sp1 sp2 value).
  assert (HF : occurs LF F = false).
  { unfold F, field_text. rewrite !occurs_app, Hname, L1, L2, Lv.
    reflexivity. }
  assert (HF' : F <> EmptyString) by (unfold F, field_text; by rewrite q_cons).
  destruct (lines_head F post HF' HF) as (p1 & rest & ->).
  cbn [first_match]. unfold F.
  rewrite (grep_o_line_here _ _ _ (match_field_here_field _ _ _ _ p1 H1 H2 Hv)).
  unfold field_text.
  replace (q ++ name ++ q ++ sp1 ++ ":" ++ sp2 ++ q ++ value ++ q)
    with ((q ++ name ++ q ++ sp1 ++ ":" ++ sp2) ++ q ++ value ++ q)
    by (by rewrite !append_assoc').
  by apply sed_last_quoted_value.
Qed.

Lemma X6_field_read_back_witness :
  extract_field "from"
    (ModuleCheck.unlines
       ["{"; "  " ++ field_text "id" EmptyString " " "billing-to-auth" ++ ","]
     ++ "  " ++ field_text "from" EmptyString " " "billing"
     ++ ("," ++ nl ++ "}" ++ nl))
  = "billing".
Proof.
  apply (X6_field_read_back "from" "  " EmptyString " " "billing"
           ("," ++ nl ++ "}" ++ nl)
           ["{"; "  " ++ field_text "id" EmptyString " " "billing-to-auth" ++ ","]);
    first [reflexivity | left; reflexivity | vm_compute; reflexivity].
Defined.

Lemma lines_free (text l : string) :
  In l (lines text) -> occurs LF l = false.
Proof.
  revert l. induction text as [|c t IH]; intros l; [intros []|].
  destruct (Ascii.eqb c LF) eqn:Hc.
  - apply Ascii.eqb_eq in Hc. subst c. rewrite lines_LF.
    intros [<-|Hl]; [reflexivity|by apply IH].
  - rewrite (lines_cons _ _ Hc). destruct (lines t) as [|f tl].
    + intros [<-|[]]. cbn [occurs]. by rewrite Hc.
    + intros [<-|Hl].
      * cbn [occurs]. rewrite Hc. apply IH. by left.
      * apply IH. by right.
Qed.

Lemma occurs_strip_prefix d (p s r : string) :
  strip_prefix p s = Some r -> occurs d s = false -> occurs d r = false.
Proof.
  revert s. induction p as [|a p IH]; intros s; cbn [strip_prefix].
  - by intros [= ->].
  - destruct s as [|b s]; [discriminate|].
    destruct (Ascii.eqb a b); [|discriminate].
    intros H Hs. cbn [occurs] in Hs. apply orb_false_iff in Hs as [_ Hs].
    by apply (IH s).
Qed.

Lemma occurs_span d f (s : string) :
  occurs d s = false ->
  occurs d (fst (span f s)) = false /\ occurs d (snd (span f s)) = false.
Proof.
  induction s as [|c s IH]; cbn [span occurs]; [done|].
  intros H. pose proof H as H'. apply orb_false_iff in H as [Hc Hs].
  destruct (f c); [|by split].
  destruct (span f s) as [a b]. destruct (IH Hs) as [Ha Hb].
  cbn [fst snd occurs] in *. by rewrite Hc, Ha, Hb.
Qed.

Lemma span_not_dquote_free (s : string) :
  occurs dquote (fst (span not_dquote s)) = false.
Proof.
  induction s as [|c s IH]; cbn [span]; [reflexivity|].
  unfold not_dquote at 1. destruct (Ascii.eqb c dquote) eqn:Hc; cbn [negb];
    [reflexivity|].
  destruct (span not_dquote s) as [a b]. cbn [fst occurs] in *.
  by rewrite Hc, IH.
Qed.

Lemma occurs_tail d c (s : string) :
  occurs d (String c s) = false -> occurs d s = false.
Proof. cbn [occurs]. intros H. by apply orb_false_iff in H as [_ H]. Qed.

(** A match of the field pattern ends in a quoted run free of quotes, cut
    out of the line. *)
Lemma match_field_here_shape name (s m : string) :
  match_field_here name s = Some m ->
  exists x v, m = x ++ q ++ v ++ q
              /\ occurs dquote v = false
              /\ (occurs LF s = false -> occurs LF v = false).
Proof.
  unfold match_field_here. intros H.
  destruct (strip_prefix (q ++ name ++ q) s) as [r1|] eqn:E1; [|discriminate].
  pose proof (occurs_span LF is_space r1) as S1.
  destruct (span is_space r1) as [sp1 r2].
  destruct r2 as [|c r3]; [discriminate|].
  assert (Hc : c = ":"%char).
  { destruct c as [[] [] [] [] [] [] [] []]; try discriminate H; reflexivity. }
  subst c. cbn iota beta in H.
  pose proof (occurs_span LF is_space r3) as S2.
  destruct (span is_space r3) as [sp2 r4].
  destruct r4 as [|c r5]; [discriminate|].
  destruct (Ascii.eqb c dquote); [|discriminate].
  pose proof (span_not_dquote_free r5) as Hv.
  pose proof (occurs_span LF not_dquote r5) as S3.
  destruct (span not_dquote r5) as [val r6].
  destruct r6; [discriminate|]. injection H as <-.
  exists (q ++ name ++ q ++ sp1 ++ ":" ++ sp2), val.
  split; [by rewrite !append_assoc'|]. split; [exact Hv|].
  intros Hs. cbn [fst snd] in *.
  apply (occurs_strip_prefix LF _ _ _ E1) in Hs.
  destruct (S1 Hs) as [_ H2]. apply occurs_tail in H2.
  destruct (S2 H2) as [_ H4]. apply occurs_tail in H4.
  by destruct (S3 H4).
Qed.

Lemma grep_o_line_shape name (l m : string) :
  grep_o_line name l = Some m ->
  exists x v, m = x ++ q ++ v ++ q
              /\ occurs dquote v = false
              /\ (occurs LF l = false -> occurs LF v = false).
Proof.
  induction l as [|c l IH]; cbn [grep_o_line];
    destruct (match_field_here name _) as [m'|] eqn:E.
  - intros [= <-]. by apply (match_field_here_shape name EmptyString).
  - discriminate.
  - intros [= <-]. by apply (match_field_here_shape name (String c l)).
  - intros H. destruct (IH H) as (x & v & -> & Hv & HL).
    exists x, v. split; [reflexivity|]. split; [exact Hv|].
    intros Hl. apply HL. by apply occurs_tail in Hl.
Qed.

(** X7: whatever the document, the value the pipeline of lines 82-83
    extracts holds no double quote and no line feed: a name is cut at the
    first double quote after its opening quote, an escaped one included. *)
Theorem X7_extracted_value_has_no_quote (name text : string) :
  occurs dquote (extract_field name text) = false
  /\ occurs LF (extract_field name text) = false.
Proof.
  unfold extract_field, grep_o_head1.
  pose proof (lines_free text) as Hfree.
  induction (lines text) as [|l ls IH]; cbn [first_match]; [done|].
  destruct (grep_o_line name l) as [m|] eqn:E.
  - destruct (grep_o_line_shape _ _ _ E) as (x & v & -> & Hv & HL).
    rewrite (sed_last_quoted_value _ _ Hv). split; [exact Hv|].
    apply HL, Hfree. by left.
  - apply IH. intros l' Hl'. apply Hfree. by right.
Qed.

End FieldFacts.

(** ** Adding a module *)

Section AddModuleFacts.
Import Text FS AddModule.

(** The three places where [mkdir -p] must not find a regular file. *)
Lemma mkdir_p_module_spec name fs :
  mkdir_p_module name fs
  = if existsb (is_file fs) [".cerber"; modules_root; module_dir name]
    then None
    else Some {| dirs := list_to_set [".cerber"; modules_root; module_dir name]
                         ∪ dirs fs;
                 files := files fs |}.
Proof. reflexivity. Qed.

Lemma dirs_update_bible name fs : dirs (update_bible name fs) = dirs fs.
Proof.
  unfold update_bible. destruct (files fs !! BIBLE_PATH); [|reflexivity].
  destruct (grep_q name s); [reflexivity|].
  destruct (grep_q "### Core Modules" s); [|reflexivity].
  destruct (is_dir fs (BIBLE_PATH ++ ".bak")); [|reflexivity].
  destruct (is_dir fs (BIBLE_PATH ++ ".bak/BIBLE.md")); reflexivity.
Qed.

Lemma dirs_create_files name today fs :
  dirs (create_files name today fs) = dirs fs.
Proof.
  unfold create_files.
  destruct (files fs !! (TEMPLATE_DIR ++ "/MODULE_TEMPLATE.md")); reflexivity.
Qed.

(** The paths the script may write or remove. *)
Lemma module_path_not_bible name suffix extra :
  module_dir name ++ suffix <> BIBLE_PATH ++ extra.
Proof.
  intros E. apply (f_equal (strip_prefix ".cerber/")) in E.
  unfold module_dir, modules_root, BIBLE_PATH in E.
  rewrite !append_assoc' in E. vm_compute in E. discriminate E.
Qed.

Lemma files_update_bible name fs p :
  p <> BIBLE_PATH -> p <> BIBLE_PATH ++ ".bak" ->
  p <> BIBLE_PATH ++ ".bak/BIBLE.md" ->
  files (update_bible name fs) !! p = files fs !! p.
Proof.
  intros H1 H2 H3. unfold update_bible.
  destruct (files fs !! BIBLE_PATH); [|reflexivity].
  destruct (grep_q name s); [reflexivity|].
  destruct (grep_q "### Core Modules" s); [|reflexivity].
  destruct (is_dir fs (BIBLE_PATH ++ ".bak")).
  - destruct (is_dir fs (BIBLE_PATH ++ ".bak/BIBLE.md")); [reflexivity|].
    cbn [write_file files]. by rewrite !lookup_insert_ne.
  - cbn [remove_file write_file files].
    rewrite lookup_delete_ne by done. by rewrite lookup_insert_ne.
Qed.

Lemma files_create_files_outside name today fs p :
  (forall suffix, p <> module_dir name ++ suffix) ->
  files (create_files name today fs) !! p = files fs !! p.
Proof.
  intros Hp. unfold create_files.
  destruct (files fs !! (TEMPLATE_DIR ++ "/MODULE_TEMPLATE.md"));
    cbn [remove_file write_file files];
    rewrite ?lookup_insert_ne, ?lookup_delete_ne, ?lookup_insert_ne
      by (apply not_eq_sym, Hp); reflexivity.
Qed.

Lemma files_create_files name today fs p :
  ~ In p (AddModuleExtra.touched_paths name) ->
  files (create_files name today fs) !! p = files fs !! p.
Proof.
  intros Hp. unfold AddModuleExtra.touched_paths in Hp. cbn [In] in Hp.
  unfold create_files.
  destruct (files fs !! (TEMPLATE_DIR ++ "/MODULE_TEMPLATE.md"));
    cbn [remove_file write_file files];
    rewrite ?lookup_insert_ne, ?lookup_delete_ne, ?lookup_insert_ne
      by (intros <-; tauto); reflexivity.
Qed.

Lemma bible_path_not_new name extra :
  ~ In (BIBLE_PATH ++ extra) [".cerber"; modules_root; module_dir name].
Proof.
  cbn [In]. intros [E|[E|[E|[]]]];
    apply (f_equal (strip_prefix ".cerber/")) in E;
    unfold module_dir, modules_root, BIBLE_PATH in E;
    rewrite ?append_assoc' in E; vm_compute in E; discriminate E.
Qed.

(** Creating the module does not change whether the BIBLE.md update fails. *)
Lemma update_bible_fails_fresh name today fs :
  update_bible_fails name
    (create_files name today
       {| dirs := list_to_set [".cerber"; modules_root; module_dir name]
                  ∪ dirs fs;
          files := files fs |})
  = update_bible_fails name fs.
Proof.
  unfold update_bible_fails.
  rewrite files_create_files_outside
    by (intros suffix; apply not_eq_sym, (module_path_not_bible name suffix EmptyString)).
  cbn [files]. destruct (files fs !! BIBLE_PATH) as [bible|]; [|reflexivity].
  f_equal. unfold is_dir. rewrite dirs_create_files. cbn [dirs].
  apply bool_decide_ext.
  rewrite elem_of_union, elem_of_list_to_set, list_elem_of_In.
  pose proof (bible_path_not_new name ".bak"). tauto.
Qed.

Lemma module_file_distinct name (x y : string) :
  x <> y -> module_dir name ++ x <> module_dir name ++ y.
Proof. intros Hxy E. by apply append_inj_l in E. Qed.

Lemma files_create_files_own name today fs :
  files (create_files name today fs) !! (module_dir name ++ "/MODULE.md")
  = Some (AddModuleExtra.module_md name today fs)
  /\ files (create_files name today fs) !! (module_dir name ++ "/contract.json")
     = Some contract_json
  /\ files (create_files name today fs)
       !! (module_dir name ++ "/dependencies.json")
     = Some dependencies_json.
Proof.
  unfold create_files, AddModuleExtra.module_md.
  destruct (files fs !! (TEMPLATE_DIR ++ "/MODULE_TEMPLATE.md"));
    cbn [remove_file write_file files]; repeat split;
    repeat first
      [ rewrite lookup_insert_eq; reflexivity
      | rewrite lookup_insert_ne by (apply module_file_distinct; discriminate)
      | rewrite lookup_delete_ne by (apply module_file_distinct; discriminate) ].
Qed.

Lemma add_module_fresh today name fs :
  plain_name name = true ->
  is_dir fs (module_dir name) = false ->
  AddModuleExtra.blocked name fs = false ->
  add_module today name fs
  = Some {| exit_code := if update_bible_fails name fs then 1 else 0;
            printed := if update_bible_fails name fs then BibleUpdateFailed
                       else ModuleCreated name;
            fs_after :=
              update_bible name
                (create_files name today
                   {| dirs := list_to_set [".cerber"; modules_root; module_dir name]
                              ∪ dirs fs;
                      files := files fs |}) |}.
Proof.
  intros Hplain Hdir Hblocked. unfold add_module.
  assert (nonempty name = true) as -> by (by destruct name).
  cbn [negb]. rewrite Hdir, Hplain. cbn [negb].
  rewrite mkdir_p_module_spec. unfold AddModuleExtra.blocked in Hblocked.
  rewrite Hblocked. cbv zeta. rewrite update_bible_fails_fresh.
  by destruct (update_bible_fails name fs).
Qed.

Lemma is_dir_fresh name today fs p :
  is_dir
    (update_bible name
       (create_files name today
          {| dirs := list_to_set [".cerber"; modules_root; module_dir name]
                     ∪ dirs fs;
             files := files fs |})) p = true
  <-> is_dir fs p = true \/ In p [".cerber"; modules_root; module_dir name].
Proof.
  unfold is_dir. rewrite dirs_update_bible, dirs_create_files. cbn [dirs].
  rewrite !bool_decide_eq_true.
  rewrite elem_of_union, elem_of_list_to_set, list_elem_of_In. tauto.
Qed.

(** X8: the outcome of the add-module script for a name of the naming
    convention.  The script exits 0 exactly when the module directory does
    not exist yet, no regular file stands where mkdir -p needs a directory,
    and the BIBLE.md update does not fail; it fails when BIBLE.md is a file
    that does not mention the name and has the Core Modules heading while
    BIBLE.md.bak is a directory.  A run stopped by the existence guard or by
    mkdir leaves the file system as it found it.  A run stopped in the
    BIBLE.md update exits 1 with the module already created, and, unless cp
    failed because BIBLE.md.bak/BIBLE.md is a directory, with BIBLE.md
    emptied and its old text left in BIBLE.md.bak/BIBLE.md. *)
Theorem X8_add_module_outcome
    (today name : string) (fs : filesystem) :
  plain_name name = true ->
  exists o,
    add_module today name fs = Some o
    /\ (exit_code o = 0
        <-> is_dir fs (module_dir name) = false
            /\ AddModuleExtra.blocked name fs = false
            /\ update_bible_fails name fs = false)
    /\ (is_dir fs (module_dir name) = true
        \/ AddModuleExtra.blocked name fs = true ->
        exit_code o = 1 /\ fs_after o = fs)
    /\ (is_dir fs (module_dir name) = false ->
        AddModuleExtra.blocked name fs = false ->
        update_bible_fails name fs = true ->
        exit_code o = 1
        /\ is_dir (fs_after o) (module_dir name) = true
        /\ files (fs_after o) !! (module_dir name ++ "/contract.json")
           = Some contract_json
        /\ (is_dir fs (BIBLE_PATH ++ ".bak/BIBLE.md") = false ->
            files (fs_after o) !! BIBLE_PATH = Some EmptyString
            /\ files (fs_after o) !! (BIBLE_PATH ++ ".bak/BIBLE.md")
               = files fs !! BIBLE_PATH)).
Proof.
  intros Hplain. assert (nonempty name = true) as Hn by (by destruct name).
  destruct (is_dir fs (module_dir name)) eqn:Hdir.
  { eexists. split; [unfold add_module; rewrite Hn, Hdir; reflexivity|].
    cbn [exit_code fs_after]. split; [|split]; [|by auto|discriminate].
    split; [discriminate|]. by intros (? & _). }
  destruct (AddModuleExtra.blocked name fs) eqn:Hblocked.
  { eexists. split.
    - unfold add_module. rewrite Hn, Hdir, Hplain. cbn [negb].
      rewrite mkdir_p_module_spec. unfold AddModuleExtra.blocked in Hblocked.
      rewrite Hblocked. reflexivity.
    - cbn [exit_code fs_after]. split; [|split]; [|by auto|discriminate].
      split; [discriminate|]. by intros (_ & ? & _). }
  eexists. split; [by apply add_module_fresh|]. cbn [exit_code fs_after].
  split; [|split].
  - destruct (update_bible_fails name fs); split; try discriminate; try done.
    by intros (_ & _ & ?).
  - intros [?|?]; discriminate.
  - intros _ _ Hfails. rewrite Hfails. split; [reflexivity|].
    split; [apply is_dir_fresh; right; cbn [In]; tauto|].
    set (fs1 := {| dirs := list_to_set [".cerber"; modules_root; module_dir name]
                           ∪ dirs fs;
                   files := files fs |}).
    split.
    { rewrite files_update_bible by apply module_path_not_bible.
      by destruct (files_create_files_own name today fs1) as (_ & -> & _). }
    intros Hstray. unfold update_bible_fails in Hfails.
    assert (files (create_files name today fs1) !! BIBLE_PATH
            = files fs !! BIBLE_PATH) as Hb.
    { rewrite files_create_files_outside; [reflexivity|].
      intros suffix. apply not_eq_sym, (module_path_not_bible name suffix EmptyString). }
    assert (forall extra,
              is_dir (create_files name today fs1) (BIBLE_PATH ++ extra)
              = is_dir fs (BIBLE_PATH ++ extra)) as Hd.
    { intros extra. unfold is_dir. rewrite dirs_create_files. subst fs1.
      cbn [dirs]. apply bool_decide_ext.
      rewrite elem_of_union, elem_of_list_to_set, list_elem_of_In.
      pose proof (bible_path_not_new name extra). tauto. }
    unfold update_bible. rewrite Hb, !Hd, Hstray.
    destruct (files fs !! BIBLE_PATH) as [bible|]; [|discriminate].
    apply andb_true_iff in Hfails as [[Hname Hcore]%andb_true_iff Hbak].
    apply negb_true_iff in Hname. rewrite Hname, Hcore, Hbak.
    cbn [write_file files]. rewrite lookup_insert_eq. split; [reflexivity|].
    rewrite lookup_insert_ne by (by intros E; apply (f_equal String.length) in E).
    by rewrite lookup_insert_eq.
Qed.

Lemma X8_add_module_outcome_witness :
  exists o,
    add_module "2026-01-01" "orders" Samples2.fs_bible_backup_dir = Some o
    /\ exit_code o = 1
    /\ is_dir (fs_after o) (module_dir "orders") = true
    /\ files (fs_after o) !! BIBLE_PATH = Some EmptyString.
Proof.
  destruct (X8_add_module_outcome "2026-01-01" "orders"
              Samples2.fs_bible_backup_dir) as (o & Hrun & _ & _ & H);
    [reflexivity|].
  exists o. split; [exact Hrun|].
  destruct H as (Hexit & Hdir & _ & Hb); try (vm_compute; reflexivity).
  split; [exact Hexit|]. split; [exact Hdir|].
  apply Hb. vm_compute; reflexivity.
Defined.

(** X9: a first registration.  For a name of the naming convention whose
    module directory does not exist, with no regular file in the way of
    mkdir -p and no directory BIBLE.md.bak in the way of a due BIBLE.md
    update, the script exits 0, the directory exists afterwards, the module
    resolves to the three files written (MODULE.md from the template or the
    here-document, the two JSON skeletons), and running the script again
    for the same name is refused without any change. *)
Theorem X9_first_registration (today name : string) (fs : filesystem) :
  plain_name name = true ->
  is_dir fs (module_dir name) = false ->
  AddModuleExtra.blocked name fs = false ->
  update_bible_fails name fs = false ->
  exists o,
    add_module today name fs = Some o
    /\ exit_code o = 0
    /\ is_dir (fs_after o) (module_dir name) = true
    /\ resolve (fs_after o) name
       = Some {| MODULE_md := Some (AddModuleExtra.module_md name today fs);
                 contract := Some contract_json;
                 dependencies := Some dependencies_json |}
    /\ forall later,
         add_module later name (fs_after o)
         = Some {| exit_code := 1; printed := ModuleAlreadyExists name;
                   fs_after := fs_after o |}.
Proof.
  intros Hplain Hdir Hblocked Hbible. eexists.
  split; [by apply add_module_fresh|]. cbn [exit_code fs_after].
  rewrite Hbible. split; [reflexivity|].
  assert (Hnow : is_dir
            (update_bible name
               (create_files name today
                  {| dirs := list_to_set [".cerber"; modules_root; module_dir name]
                             ∪ dirs fs;
                     files := files fs |})) (module_dir name) = true).
  { unfold is_dir. rewrite dirs_update_bible, dirs_create_files.
    cbn [dirs]. apply bool_decide_eq_true. set_solver. }
  split; [exact Hnow|]. split.
  - unfold resolve. rewrite Hnow.
    rewrite !files_update_bible by apply module_path_not_bible.
    destruct (files_create_files_own name today
                {| dirs := list_to_set [".cerber"; modules_root; module_dir name]
                           ∪ dirs fs;
                   files := files fs |}) as (-> & -> & ->).
    reflexivity.
  - intros later. unfold add_module.
    assert (nonempty name = true) as -> by (by destruct name).
    cbn [negb]. by rewrite Hnow.
Qed.

Lemma X9_first_registration_witness :
  exists o,
    add_module "2026-01-01" "billing" Samples.empty_fs = Some o
    /\ exit_code o = 0
    /\ is_dir (fs_after o) (module_dir "billing") = true
    /\ resolve (fs_after o) "billing"
       = Some {| MODULE_md :=
                   Some (AddModuleExtra.module_md "billing" "2026-01-01"
                           Samples.empty_fs);
                 contract := Some contract_json;
                 dependencies := Some dependencies_json |}
    /\ forall later,
         add_module later "billing" (fs_after o)
         = Some {| exit_code := 1; printed := ModuleAlreadyExists "billing";
                   fs_after := fs_after o |}.
Proof.
  apply (X9_first_registration "2026-01-01" "billing" Samples.empty_fs);
    vm_compute; reflexivity.
Defined.

Lemma add_module_cases today name fs o :
  add_module today name fs = Some o ->
  fs_after o = fs
  \/ fs_after o
     = update_bible name
         (create_files name today
            {| dirs := list_to_set [".cerber"; modules_root; module_dir name]
                       ∪ dirs fs;
               files := files fs |}).
Proof.
  unfold add_module. destruct (negb (nonempty name)); [intros [= <-]; by left|].
  destruct (is_dir fs (module_dir name)); [intros [= <-]; by left|].
  destruct (negb (plain_name name)); [discriminate|].
  rewrite mkdir_p_module_spec.
  destruct (existsb (is_file fs) _); [intros [= <-]; by left|].
  cbv zeta. destruct (update_bible_fails _ _); intros [= <-]; by right.
Qed.

(** X10: what a run leaves alone.  For a name of the naming convention
    the script runs to an end, and whatever its outcome every directory
    that existed still exists, so every module stays registered, and every
    file keeps its content other than the module's own MODULE.md,
    MODULE.md.bak, contract.json and dependencies.json, and BIBLE.md,
    BIBLE.md.bak and BIBLE.md.bak/BIBLE.md. *)
Theorem X10_add_module_frame
    (today name : string) (fs : filesystem) :
  plain_name name = true ->
  exists o,
    add_module today name fs = Some o
    /\ (forall p, is_dir fs p = true -> is_dir (fs_after o) p = true)
    /\ (forall p, ~ In p (AddModuleExtra.touched_paths name) ->
          files (fs_after o) !! p = files fs !! p).
Proof.
  intros Hplain.
  assert (exists o, add_module today name fs = Some o) as [o H].
  { unfold add_module. destruct (negb (nonempty name)); [by eauto|].
    destruct (is_dir fs (module_dir name)); [by eauto|].
    rewrite Hplain. cbn [negb]. destruct (mkdir_p_module name fs); [|by eauto].
    cbv zeta. destruct (update_bible_fails _ _); by eauto. }
  exists o. split; [exact H|].
  destruct (add_module_cases today name fs o H) as [-> | ->].
  - split; [intros p Hp; exact Hp|reflexivity].
  - split.
    + intros p Hp. apply is_dir_fresh. by left.
    + intros p Hp.
      rewrite files_update_bible, files_create_files; [reflexivity|exact Hp|..];
        intros ->; apply Hp; unfold AddModuleExtra.touched_paths; cbn [In];
        tauto.
Qed.

Lemma X10_add_module_frame_witness :
  exists o,
    add_module "2026-02-01" "orders" Samples.fs_billing_new_template = Some o
    /\ is_dir (fs_after o) (module_dir "billing") = true
    /\ files (fs_after o) !! (module_dir "billing" ++ "/MODULE.md")
       = files Samples.fs_billing_new_template
           !! (module_dir "billing" ++ "/MODULE.md").
Proof.
  destruct (X10_add_module_frame "2026-02-01" "orders"
              Samples.fs_billing_new_template) as (o & Hrun & Hd & Hf);
    [reflexivity|].
  exists o. split; [exact Hrun|]. split.
  - apply Hd. vm_compute; reflexivity.
  - apply Hf. vm_compute. intros H.
    repeat (destruct H as [H|H]; [discriminate H|]). exact H.
Defined.

(** The first lines of a text and the rest make up the text. *)
Lemma head_n_drop_lines (s : string) n : head_n s n ++ drop_lines s n = s.
Proof.
  revert n. induction s as [|c s IH]; intros n; [reflexivity|].
  destruct n as [|n]; cbn [head_n drop_lines]; [reflexivity|].
  by rewrite append_cons, IH.
Qed.

Lemma contains_here_cons pat c (s : string) :
  contains_here pat s = true -> contains_here pat (String c s) = true.
Proof.
  intros H. cbn [contains_here]. destruct (strip_prefix pat _); [reflexivity|].
  exact H.
Qed.

(** grep finds a pattern that stands on one line of the text. *)
Lemma grep_q_found (pat x y : string) :
  pat <> EmptyString -> occurs LF pat = false ->
  grep_q pat (x ++ pat ++ y) = true.
Proof.
  intros Hne HLF. unfold grep_q.
  induction x as [|c x IH]; rewrite ?append_nil, ?append_cons.
  - destruct (lines_head pat y Hne HLF) as (p1 & rest & ->).
    cbn [existsb]. replace (contains_here pat (pat ++ p1)) with true;
      [reflexivity|].
    symmetry. destruct (pat ++ p1) eqn:E; cbn [contains_here];
      rewrite <- E, strip_prefix_app; reflexivity.
  - destruct (Ascii.eqb c LF) eqn:Hc.
    + apply Ascii.eqb_eq in Hc. subst c. rewrite lines_LF. cbn [existsb].
      rewrite IH. apply orb_true_r.
    + rewrite (lines_cons _ _ Hc).
      destruct (lines (x ++ pat ++ y)) as [|f tl]; [discriminate IH|].
      cbn [existsb] in *. apply orb_true_iff in IH as [Hf|Htl].
      * by rewrite (contains_here_cons _ _ _ Hf).
      * rewrite Htl. apply orb_true_r.
Qed.

(** X11: the update of BIBLE.md inserts, or loses the text.  For a
    module name of the naming convention, when BIBLE.md does not mention
    the name and has a line with the heading Core Modules, and BIBLE.md.bak
    is not a directory, the new text is the old one with the module entry
    put in after the second line below the first such heading, and nothing
    of the old text is lost.  When BIBLE.md.bak is a directory instead, the
    update fails: the file system is unchanged if BIBLE.md.bak/BIBLE.md is
    a directory too, and else BIBLE.md is left empty, its old text being
    in BIBLE.md.bak/BIBLE.md.  When the name is mentioned already or the
    heading is missing, the file system is left as it is and nothing
    fails. *)
Theorem X11_bible_update_inserts (name bible : string) (fs : filesystem) :
  plain_name name = true ->
  files fs !! BIBLE_PATH = Some bible ->
  let LINE_NUM := grep_n_first "### Core Modules" bible + 2 in
  let before := head_n bible LINE_NUM in
  let after := drop_lines bible LINE_NUM in
  bible = before ++ after
  /\ (grep_q name bible = false -> grep_q "### Core Modules" bible = true ->
      (is_dir fs (BIBLE_PATH ++ ".bak") = false ->
       update_bible_fails name fs = false
       /\ files (update_bible name fs) !! BIBLE_PATH
          = Some (before ++ bible_entry name ++ after))
      /\ (is_dir fs (BIBLE_PATH ++ ".bak") = true ->
          update_bible_fails name fs = true
          /\ (is_dir fs (BIBLE_PATH ++ ".bak/BIBLE.md") = true ->
              update_bible name fs = fs)
          /\ (is_dir fs (BIBLE_PATH ++ ".bak/BIBLE.md") = false ->
              files (update_bible name fs) !! BIBLE_PATH = Some EmptyString
              /\ files (update_bible name fs) !! (BIBLE_PATH ++ ".bak/BIBLE.md")
                 = Some bible)))
  /\ (grep_q name bible = true \/ grep_q "### Core Modules" bible = false ->
      update_bible_fails name fs = false /\ update_bible name fs = fs).
Proof.
  intros _ Hb LINE_NUM before after. subst before after.
  split; [by rewrite head_n_drop_lines|].
  unfold update_bible, update_bible_fails. rewrite Hb.
  split.
  - intros -> ->. cbn [negb andb]. split.
    + intros ->. split; [reflexivity|]. cbn [remove_file write_file files].
      rewrite lookup_delete_ne
        by (by intros E; apply (f_equal String.length) in E).
      rewrite lookup_insert_eq. unfold tail_from.
      by rewrite Nat.add_sub.
    + intros ->. split; [reflexivity|]. split; intros ->; [reflexivity|].
      cbn [write_file files]. rewrite lookup_insert_eq.
      split; [reflexivity|].
      rewrite lookup_insert_ne
        by (by intros E; apply (f_equal String.length) in E).
      by rewrite lookup_insert_eq.
  - intros [-> | ->]; [by split|]. rewrite andb_false_r.
    by destruct (grep_q name bible).
Qed.

Lemma X11_bible_update_inserts_witness :
  files (update_bible "orders" Samples2.fs_with_bible) !! BIBLE_PATH
  = Some (head_n Samples2.bible 4 ++ bible_entry "orders"
          ++ drop_lines Samples2.bible 4).
Proof.
  refine (proj2 (proj1 (proj1 (proj2 (X11_bible_update_inserts "orders"
                          Samples2.bible Samples2.fs_with_bible _ _)) _ _) _));
    vm_compute; reflexivity.
Defined.

Lemma name_chars_no_LF (name : string) :
  all_chars name_char name = true -> occurs LF name = false.
Proof.
  induction name as [|c s IH]; [reflexivity|]. cbn [all_chars occurs].
  intros [Hc Hs]%andb_true_iff. rewrite (IH Hs), orb_false_r.
  destruct (Ascii.eqb c LF) eqn:E; [|reflexivity].
  apply Ascii.eqb_eq in E. subst c. discriminate Hc.
Qed.

Lemma plain_name_one_line (name : string) :
  plain_name name = true -> name <> EmptyString /\ occurs LF name = false.
Proof.
  destruct name as [|c s]; [discriminate|]. intros [_ H]%andb_true_iff.
  split; [discriminate|]. by apply name_chars_no_LF.
Qed.

(** X12: updating BIBLE.md twice for the same name of the naming convention
    changes nothing the second time: the entry written by the first update
    mentions the name, and the second finds it. *)
Theorem X12_bible_update_idempotent (name : string) (fs : filesystem) :
  plain_name name = true ->
  update_bible name (update_bible name fs) = update_bible name fs.
Proof.
  intros [Hne HLF]%plain_name_one_line. unfold update_bible at 2 3.
  destruct (files fs !! BIBLE_PATH) as [bible|] eqn:Hb;
    [|unfold update_bible; by rewrite Hb].
  destruct (grep_q name bible) eqn:Hname;
    [unfold update_bible; by rewrite Hb, Hname|].
  destruct (grep_q "### Core Modules" bible) eqn:Hcore;
    [|unfold update_bible; by rewrite Hb, Hname, Hcore].
  destruct (is_dir fs (BIBLE_PATH ++ ".bak")) eqn:Hbak.
  { destruct (is_dir fs (BIBLE_PATH ++ ".bak/BIBLE.md")) eqn:Hstray.
    - unfold update_bible. by rewrite Hb, Hname, Hcore, Hbak, Hstray.
    - unfold update_bible. cbn [write_file files]. rewrite lookup_insert_eq.
      assert (grep_q name EmptyString = false) as ->
        by (destruct name; [done|reflexivity]).
      reflexivity. }
  unfold update_bible. cbn [remove_file write_file files].
  rewrite lookup_delete_ne by (by intros E; apply (f_equal String.length) in E).
  rewrite lookup_insert_eq.
  replace (grep_q name _) with true; [reflexivity|].
  symmetry. unfold bible_entry.
  replace (head_n bible (grep_n_first "### Core Modules" bible + 2)
           ++ (nl ++ "**" ++ name ++ "** - [Add description]" ++ nl
               ++ "   - Owner: [Your Name]" ++ nl
               ++ "   - Status: Active" ++ nl
               ++ "   - Files: `src/modules/" ++ name ++ "/`" ++ nl ++ nl)
           ++ tail_from bible (grep_n_first "### Core Modules" bible + 2 + 1))
    with ((head_n bible (grep_n_first "### Core Modules" bible + 2)
           ++ nl ++ "**")
          ++ name
          ++ ("** - [Add description]" ++ nl
              ++ "   - Owner: [Your Name]" ++ nl
              ++ "   - Status: Active" ++ nl
              ++ "   - Files: `src/modules/" ++ name ++ "/`" ++ nl ++ nl
              ++ tail_from bible (grep_n_first "### Core Modules" bible + 2 + 1)))
    by (by rewrite !append_assoc').
  by apply grep_q_found.
Qed.

Lemma X12_bible_update_idempotent_witness :
  update_bible "orders" (update_bible "orders" Samples2.fs_with_bible)
  = update_bible "orders" Samples2.fs_with_bible.
Proof.
  apply (X12_bible_update_idempotent "orders" Samples2.fs_with_bible).
  reflexivity.
Defined.

End AddModuleFacts.

(** ** cerber-module-check.sh *)

Section ModuleCheckFacts.
Import Text FS ModuleCheck.

Lemma count_lines_snoc s ls l :
  count_lines s (ls ++ [l])
  = count_lines s ls + (if bool_decide (line_severity l = Some s) then 1 else 0).
Proof.
  unfold count_lines. rewrite List.filter_app, List.length_app. cbn [List.filter].
  by destruct (bool_decide (line_severity l = Some s)).
Qed.

Lemma counted_say l st :
  line_severity l = None -> counted st -> counted (say l st).
Proof.
  intros Hl [HE HW]. unfold counted, say. cbn [ERRORS WARNINGS out].
  rewrite !count_lines_snoc.
  split; case_bool_decide; try congruence; lia.
Qed.

Lemma counted_error l st :
  line_severity l = Some Error -> counted st -> counted (error l st).
Proof.
  intros Hl [HE HW]. unfold counted, error. cbn [ERRORS WARNINGS out].
  rewrite !count_lines_snoc.
  split; case_bool_decide; try congruence; lia.
Qed.

Lemma counted_warn l st :
  line_severity l = Some Warning -> counted st -> counted (warn l st).
Proof.
  intros Hl [HE HW]. unfold counted, warn. cbn [ERRORS WARNINGS out].
  rewrite !count_lines_snoc.
  split; case_bool_decide; try congruence; lia.
Qed.

Lemma counted_initial : counted initial.
Proof. split; reflexivity. Qed.

Ltac counted_step :=
  repeat first
    [ assumption
    | apply counted_say; [reflexivity|]
    | apply counted_error; [reflexivity|]
    | apply counted_warn; [reflexivity|] ].

Lemma check_module_md_counted fs d st :
  counted st -> counted (check_module_md fs d st).
Proof.
  intros H. unfold check_module_md.
  destruct (read fs (d ++ "/MODULE.md")) as [md|]; [|counted_step].
  destruct (grep_q "## Purpose" md && grep_q "## Responsibilities" md
            && grep_q "## Public Interface" md),
    (grep_q "[MODULE_NAME]" md); counted_step.
Qed.

Lemma check_contract_counted tools fs d st :
  counted st -> counted (check_contract tools fs d st).
Proof.
  intros H. unfold check_contract.
  destruct (read fs (d ++ "/contract.json")) as [text|]; [|counted_step].
  destruct (valid_json tools text); [|counted_step].
  destruct (grep_q (q ++ "version" ++ q) text
            && grep_q (q ++ "publicInterface" ++ q) text); counted_step.
Qed.

(** The loop of lines 111-119. *)
Lemma check_dep_fold fs ws st b :
  let r := fold_left (check_dep fs) ws (st, b) in
  ERRORS (fst r) = ERRORS st
  /\ WARNINGS (fst r)
     = WARNINGS st
       + length (List.filter (fun d => negb (is_dir fs (module_dir d))) ws)
  /\ (counted st -> counted (fst r))
  /\ snd r = b && forallb (fun d => is_dir fs (module_dir d)) ws
  /\ List.filter dependency_report (out (fst r))
     = (List.filter dependency_report (out st)
        ++ map DependencyNotFound
             (List.filter (fun d => negb (is_dir fs (module_dir d))) ws))%list.
Proof.
  revert st b. induction ws as [|w ws IH]; intros st b; cbn [fold_left].
  - cbn. rewrite andb_true_r, app_nil_r.
    split; [reflexivity|]. split; [lia|]. split; [tauto|]. by split.
  - change (check_dep fs (st, b) w)
      with (if is_dir fs (module_dir w) then (st, b)
            else (warn (DependencyNotFound w) st, false)).
    cbn [List.filter forallb].
    destruct (is_dir fs (module_dir w)); cbn [negb andb fst].
    + apply IH.
    + specialize (IH (warn (DependencyNotFound w) st) false).
      cbn zeta in IH. destruct IH as (HE & HW & HC & Hb & Ho).
      rewrite andb_false_r. split; [|split; [|split; [|split]]].
      * exact HE.
      * rewrite HW. cbn [warn WARNINGS length]. lia.
      * intros H. apply HC. by apply counted_warn.
      * exact Hb.
      * rewrite Ho. cbn [warn out]. rewrite List.filter_app. cbn.
        by rewrite <- app_assoc.
Qed.

Lemma check_dependencies_counted tools fs d st st' :
  check_dependencies tools fs d st = Some st' -> counted st -> counted st'.
Proof.
  unfold check_dependencies. intros Hrun H.
  destruct (read fs (d ++ "/dependencies.json")) as [text|];
    [|injection Hrun as <-; counted_step].
  destruct (valid_json tools text); [|injection Hrun as <-; counted_step].
  destruct (nonempty (deps text)); [|injection Hrun as <-; counted_step].
  destruct (forallb glob_free (words (deps text))); [|discriminate].
  pose proof (check_dep_fold fs (words (deps text))
                (say DependenciesValidJson (say DependenciesExists st)) true)
    as (_ & _ & HC & _ & _).
  destruct (fold_left _ _ _) as [st3 ok]. cbn [fst] in HC.
  injection Hrun as <-. destruct ok; counted_step; apply HC; counted_step.
Qed.

Lemma check_source_dir_counted fs name st :
  counted st -> counted (check_source_dir fs name st).
Proof.
  intros H. unfold check_source_dir.
  destruct (is_dir fs ("src/modules/" ++ name)); counted_step.
Qed.

Lemma check_module_md_ERRORS fs d st :
  ERRORS (check_module_md fs d st)
  = ERRORS st
    + match read fs (d ++ "/MODULE.md") with Some _ => 0 | None => 1 end.
Proof.
  unfold check_module_md.
  destruct (read fs (d ++ "/MODULE.md")) as [md|]; [|reflexivity].
  destruct (grep_q "## Purpose" md && grep_q "## Responsibilities" md
            && grep_q "## Public Interface" md),
    (grep_q "[MODULE_NAME]" md); cbn; lia.
Qed.

Lemma check_contract_ERRORS tools fs d st :
  ERRORS (check_contract tools fs d st)
  = ERRORS st
    + match read fs (d ++ "/contract.json") with
      | Some text => if valid_json tools text then 0 else 1
      | None => 1
      end.
Proof.
  unfold check_contract.
  destruct (read fs (d ++ "/contract.json")) as [text|]; [|reflexivity].
  destruct (valid_json tools text); [|reflexivity].
  destruct (grep_q (q ++ "version" ++ q) text
            && grep_q (q ++ "publicInterface" ++ q) text); cbn; lia.
Qed.

Lemma check_dependencies_ERRORS tools fs d st st' :
  check_dependencies tools fs d st = Some st' ->
  ERRORS st'
  = ERRORS st
    + match read fs (d ++ "/dependencies.json") with
      | Some text => if valid_json tools text then 0 else 1
      | None => 0
      end.
Proof.
  unfold check_dependencies.
  destruct (read fs (d ++ "/dependencies.json")) as [text|];
    [|intros [= <-]; cbn; lia].
  destruct (valid_json tools text); [|intros [= <-]; reflexivity].
  destruct (nonempty (deps text)); [|intros [= <-]; cbn; lia].
  destruct (forallb glob_free (words (deps text))); [|discriminate].
  pose proof (check_dep_fold fs (words (deps text))
                (say DependenciesValidJson (say DependenciesExists st)) true)
    as (HE & _).
  destruct (fold_left _ _ _) as [st3 ok]. cbn [fst] in HE.
  intros [= <-]. destruct ok; cbn [say ERRORS]; rewrite HE; cbn; lia.
Qed.

Lemma check_source_dir_ERRORS fs name st :
  ERRORS (check_source_dir fs name st) = ERRORS st.
Proof.
  unfold check_source_dir. by destruct (is_dir fs ("src/modules/" ++ name)).
Qed.

Lemma summary_spec st :
  summary st
  = (if Nat.eqb (ERRORS st) 0 then 0 else 1,
     say (verdict (ERRORS st) (WARNINGS st)) st).
Proof.
  unfold summary, verdict.
  destruct (ERRORS st) as [|e], (WARNINGS st) as [|w]; reflexivity.
Qed.

(** Past the two guards the script runs its four checks and the summary. *)
Lemma module_check_run tools arg1 fs :
  nonempty arg1 = true -> is_dir fs (module_dir arg1) = true ->
  module_check tools arg1 fs
  = (fun st => summary (check_source_dir fs arg1 st))
    <$> check_dependencies tools fs (module_dir arg1)
          (check_contract tools fs (module_dir arg1)
             (check_module_md fs (module_dir arg1) initial)).
Proof.
  intros Hn Hd. unfold module_check. rewrite Hn, Hd. cbn [negb].
  by destruct (check_dependencies _ _ _ _).
Qed.

Lemma nonempty_iff (s : string) : nonempty s = true <-> s <> EmptyString.
Proof. destruct s; cbn; split; congruence. Qed.

(** A run without a pattern among its dependency words reaches its end. *)
Lemma module_check_returns tools arg1 fs :
  pattern_free tools arg1 fs = true ->
  exists code st, module_check tools arg1 fs = Some (code, st).
Proof.
  intros Hp. unfold module_check.
  destruct (negb (nonempty arg1)); [by eauto|].
  destruct (negb (is_dir fs (module_dir arg1))); [by eauto|].
  assert (exists st',
            check_dependencies tools fs (module_dir arg1)
              (check_contract tools fs (module_dir arg1)
                 (check_module_md fs (module_dir arg1) initial)) = Some st')
    as [st' ->].
  { unfold check_dependencies, pattern_free in *.
    destruct (read fs (module_dir arg1 ++ "/dependencies.json")) as [text|];
      [|by eauto].
    destruct (valid_json tools text); [|by eauto]. cbn [negb orb] in Hp.
    destruct (nonempty (deps text)); [|by eauto]. rewrite Hp.
    destruct (fold_left _ _ _) as [st3 ok]. by eauto. }
  destruct (summary (check_source_dir fs arg1 st')) as [code st]. by eauto.
Qed.

Lemma module_check_exit_status_run
    (tools : json_tools) (arg1 : string) (fs : filesystem)
    (code : nat) (st : state) :
  module_check tools arg1 fs = Some (code, st) ->
  (code = 0
   <-> arg1 <> EmptyString
       /\ is_dir fs (module_dir arg1) = true
       /\ is_Some (read fs (module_dir arg1 ++ "/MODULE.md"))
       /\ (exists text, read fs (module_dir arg1 ++ "/contract.json") = Some text
                        /\ valid_json tools text = true)
       /\ (forall text,
             read fs (module_dir arg1 ++ "/dependencies.json") = Some text ->
             valid_json tools text = true))
  /\ (code = 0 \/ code = 1).
Proof.
  intros Hrun. destruct (nonempty arg1) eqn:Hn.
  2:{ unfold module_check in Hrun. rewrite Hn in Hrun. injection Hrun as <- _.
      split; [|by right]. split; [discriminate|]. intros (Hne & _).
      apply nonempty_iff in Hne. congruence. }
  destruct (is_dir fs (module_dir arg1)) eqn:Hd.
  2:{ unfold module_check in Hrun. rewrite Hn, Hd in Hrun.
      injection Hrun as <- _. split; [|by right].
      split; [discriminate|]. by intros (_ & ? & _). }
  rewrite (module_check_run _ _ _ Hn Hd) in Hrun.
  destruct (check_dependencies _ _ _ _) as [st'|] eqn:Hdeps; [|discriminate].
  cbn in Hrun. rewrite summary_spec in Hrun. injection Hrun as <- _.
  rewrite check_source_dir_ERRORS, (check_dependencies_ERRORS _ _ _ _ _ Hdeps),
    check_contract_ERRORS, check_module_md_ERRORS.
  cbn [initial ERRORS]. apply nonempty_iff in Hn.
  destruct (read fs (module_dir arg1 ++ "/MODULE.md")) as [md|];
    destruct (read fs (module_dir arg1 ++ "/contract.json")) as [ct|];
    try destruct (valid_json tools ct) eqn:Hct;
    destruct (read fs (module_dir arg1 ++ "/dependencies.json")) as [dp|];
    try destruct (valid_json tools dp) eqn:Hdp;
    cbn; (split; [|tauto]); split; try discriminate;
    try (intros _; repeat split; eauto; intros ? [= <-]; done).
  all: intros (_ & _ & Hmd & (text & Hc & Hv) & Hdv);
    try (by destruct Hmd); try discriminate Hc;
    try (injection Hc as <-; congruence);
    try (specialize (Hdv _ eq_refl); congruence).
Qed.

(** X13: the exit status of the module check.  A run in which no
    dependency word is a pattern (a word with a star, a question mark or a
    bracket, which the shell would expand) reaches its end, and it exits 0
    exactly when a name is given, its module directory exists, MODULE.md is
    there, contract.json is there and one of the two JSON tools accepts it,
    and dependencies.json, when there, is accepted too; otherwise it exits
    1.  A missing dependencies.json, missing sections or fields, and
    dependencies that are not registered never change the exit status. *)
Theorem X13_module_check_exit_status
    (tools : json_tools) (arg1 : string) (fs : filesystem) :
  pattern_free tools arg1 fs = true ->
  exists code st,
    module_check tools arg1 fs = Some (code, st)
    /\ (code = 0
        <-> arg1 <> EmptyString
            /\ is_dir fs (module_dir arg1) = true
            /\ is_Some (read fs (module_dir arg1 ++ "/MODULE.md"))
            /\ (exists text,
                  read fs (module_dir arg1 ++ "/contract.json") = Some text
                  /\ valid_json tools text = true)
            /\ (forall text,
                  read fs (module_dir arg1 ++ "/dependencies.json") = Some text ->
                  valid_json tools text = true))
    /\ (code = 0 \/ code = 1).
Proof.
  intros Hp. destruct (module_check_returns _ _ _ Hp) as (code & st & Hrun).
  exists code, st. split; [exact Hrun|].
  exact (module_check_exit_status_run _ _ _ _ _ Hrun).
Qed.

Lemma X13_module_check_exit_status_witness :
  exists st,
    module_check accepting_tools "billing" Samples.fs_billing = Some (0, st).
Proof.
  destruct (X13_module_check_exit_status accepting_tools "billing"
              Samples.fs_billing) as (code & st & Hrun & [_ H] & _);
    [vm_compute; reflexivity|].
  exists st. rewrite Hrun. f_equal. f_equal. apply H.
  split; [discriminate|].
  split; [vm_compute; reflexivity|]. split; [vm_compute; eauto|].
  split; [eexists; split; [vm_compute; reflexivity|reflexivity]|].
  intros text _. reflexivity.
Defined.

Lemma module_check_counters_run
    (tools : json_tools) (arg1 : string) (fs : filesystem)
    (code : nat) (st : state) :
  module_check tools arg1 fs = Some (code, st) ->
  (code = 0 <-> count_lines Error (out st) = 0)
  /\ (arg1 = EmptyString \/ is_dir fs (module_dir arg1) = false ->
      code = 1
      /\ (out st = [ModuleNameRequired] \/ out st = [ModuleDirNotFound])
      /\ count_lines Error (out st) = 1)
  /\ (arg1 <> EmptyString -> is_dir fs (module_dir arg1) = true ->
      ERRORS st = count_lines Error (out st)
      /\ WARNINGS st = count_lines Warning (out st)
      /\ exists before,
           out st = (before
                     ++ [verdict (count_lines Error before)
                                 (count_lines Warning before)])%list).
Proof.
  intros Hrun. destruct (nonempty arg1) eqn:Hn.
  2:{ unfold module_check in Hrun. rewrite Hn in Hrun. injection Hrun as <- <-.
      split; [split; discriminate|]. split; [intros _; by auto|].
      intros Hne. apply nonempty_iff in Hne. congruence. }
  destruct (is_dir fs (module_dir arg1)) eqn:Hd.
  2:{ unfold module_check in Hrun. rewrite Hn, Hd in Hrun.
      injection Hrun as <- <-.
      split; [split; discriminate|]. split; [intros _; by auto|].
      discriminate. }
  rewrite (module_check_run _ _ _ Hn Hd) in Hrun.
  destruct (check_dependencies _ _ _ _) as [st'|] eqn:Hdeps; [|discriminate].
  cbn in Hrun. rewrite summary_spec in Hrun. injection Hrun as <- <-.
  assert (counted (check_source_dir fs arg1 st')) as HC.
  { apply check_source_dir_counted.
    apply (check_dependencies_counted _ _ _ _ _ Hdeps).
    apply check_contract_counted, check_module_md_counted, counted_initial. }
  set (st1 := check_source_dir fs arg1 st') in *.
  assert (line_severity (verdict (ERRORS st1) (WARNINGS st1)) = None) as Hv.
  { unfold verdict. by destruct (ERRORS st1), (WARNINGS st1). }
  destruct (counted_say _ _ Hv HC) as [HE HW].
  apply nonempty_iff in Hn. split; [|split].
  - rewrite <- HE. cbn [say ERRORS]. destruct (ERRORS st1); cbn; split;
      congruence.
  - intros [?|?]; congruence.
  - intros _ _. split; [exact HE|]. split; [exact HW|].
    exists (out st1). cbn [say out]. destruct HC as [<- <-]. reflexivity.
Qed.

(** X14: the counters of the module check and the lines it prints.  A run
    in which no dependency word is a pattern reaches its end, and it exits
    0 exactly when it printed no error line (red cross).  A run stopped by
    one of the two guards has one finding, an error line, and exits 1.  Past
    the guards ERRORS is the number of error lines printed, WARNINGS the
    number of warning lines (yellow sign), and the last line printed is the
    verdict for these two numbers. *)
Theorem X14_module_check_counters
    (tools : json_tools) (arg1 : string) (fs : filesystem) :
  pattern_free tools arg1 fs = true ->
  exists code st,
    module_check tools arg1 fs = Some (code, st)
    /\ (code = 0 <-> count_lines Error (out st) = 0)
    /\ (arg1 = EmptyString \/ is_dir fs (module_dir arg1) = false ->
        code = 1
        /\ (out st = [ModuleNameRequired] \/ out st = [ModuleDirNotFound])
        /\ count_lines Error (out st) = 1)
    /\ (arg1 <> EmptyString -> is_dir fs (module_dir arg1) = true ->
        ERRORS st = count_lines Error (out st)
        /\ WARNINGS st = count_lines Warning (out st)
        /\ exists before,
             out st = (before
                       ++ [verdict (count_lines Error before)
                                   (count_lines Warning before)])%list).
Proof.
  intros Hp. destruct (module_check_returns _ _ _ Hp) as (code & st & Hrun).
  exists code, st. split; [exact Hrun|].
  exact (module_check_counters_run _ _ _ _ _ Hrun).
Qed.

Lemma X14_module_check_counters_witness :
  exists code st,
    module_check accepting_tools "billing" Samples2.fs_billing_deps
    = Some (code, st)
    /\ (code = 0 <-> count_lines Error (out st) = 0)
    /\ WARNINGS st = count_lines Warning (out st).
Proof.
  destruct (X14_module_check_counters accepting_tools "billing"
              Samples2.fs_billing_deps) as (code & st & Hrun & H0 & _ & H);
    [vm_compute; reflexivity|].
  exists code, st. split; [exact Hrun|]. split; [exact H0|].
  apply H; [discriminate|vm_compute; reflexivity].
Defined.

Lemma fields_nonnil f s : fields f s <> [].
Proof.
  destruct s as [|c s]; cbn [fields]; [discriminate|].
  destruct (f c); [discriminate|]. by destruct (fields f s).
Qed.

Lemma fields_app_sep f a c b :
  f c = true -> fields f (a ++ String c b) = (fields f a ++ fields f b)%list.
Proof.
  intros Hc. induction a as [|x a IH]; rewrite ?append_nil, ?append_cons.
  - cbn [fields]. by rewrite Hc.
  - cbn [fields]. rewrite IH. destruct (f x); [reflexivity|].
    pose proof (fields_nonnil f a). by destruct (fields f a).
Qed.

Lemma words_app_sep a c b :
  is_IFS c = true -> words (a ++ String c b) = (words a ++ words b)%list.
Proof.
  intros Hc. unfold words. by rewrite (fields_app_sep _ _ _ _ Hc), List.filter_app.
Qed.

Lemma words_unlines ls : words (unlines ls) = flat_map words ls.
Proof.
  induction ls as [|l ls IH]; [reflexivity|]. cbn [unlines flat_map].
  unfold nl. rewrite append_cons, append_nil, words_app_sep by reflexivity.
  by rewrite IH.
Qed.

Lemma words_all_LF s : all_LF s = true -> words s = [].
Proof.
  induction s as [|c s IH]; [reflexivity|]. cbn [all_LF].
  intros [Hc Hs]%andb_true_iff. apply Ascii.eqb_eq in Hc. subst c.
  unfold words. cbn [fields]. change (is_IFS LF) with true.
  cbn [List.filter nonempty]. by apply IH.
Qed.

Lemma fields_cons f c s :
  fields f (String c s)
  = if f c then EmptyString :: fields f s
    else String c (hd EmptyString (fields f s)) :: tl (fields f s).
Proof.
  cbn [fields]. destruct (f c); [reflexivity|].
  pose proof (fields_nonnil f s). by destruct (fields f s).
Qed.

Lemma fields_strip_trailing_LF s :
  hd EmptyString (fields is_IFS (strip_trailing_LF s))
  = hd EmptyString (fields is_IFS s)
  /\ List.filter nonempty (tl (fields is_IFS (strip_trailing_LF s)))
     = List.filter nonempty (tl (fields is_IFS s)).
Proof.
  induction s as [|c s [IHh IHt]]; [by split|].
  cbn [strip_trailing_LF]. destruct (all_LF (String c s)) eqn:HLF.
  - cbn [all_LF] in HLF. apply andb_true_iff in HLF as [Hc Hs].
    apply Ascii.eqb_eq in Hc. subst c. rewrite fields_cons.
    change (is_IFS LF) with true. cbn [fields hd tl List.filter].
    split; [reflexivity|]. symmetry. by apply words_all_LF.
  - rewrite !fields_cons. destruct (is_IFS c); cbn [hd tl].
    + split; [reflexivity|].
      pose proof (fields_nonnil is_IFS s).
      pose proof (fields_nonnil is_IFS (strip_trailing_LF s)).
      destruct (fields is_IFS s), (fields is_IFS (strip_trailing_LF s));
        try done. cbn [hd tl] in *. cbn [List.filter]. by rewrite IHh, IHt.
    + by rewrite IHh, IHt.
Qed.

Lemma words_strip_trailing_LF s : words (strip_trailing_LF s) = words s.
Proof.
  destruct (fields_strip_trailing_LF s) as [Hh Ht]. unfold words.
  pose proof (fields_nonnil is_IFS s).
  pose proof (fields_nonnil is_IFS (strip_trailing_LF s)).
  destruct (fields is_IFS s), (fields is_IFS (strip_trailing_LF s));
    try done. cbn [hd tl] in *. cbn [List.filter]. by rewrite Hh, Ht.
Qed.

(** The names the loop of line 111 visits. *)
Lemma words_deps text : words (deps text) = flat_map words (dependency_lines text).
Proof. unfold deps. by rewrite words_strip_trailing_LF, words_unlines. Qed.

Lemma check_module_md_report fs d st :
  List.filter dependency_report (out (check_module_md fs d st))
  = List.filter dependency_report (out st).
Proof.
  unfold check_module_md.
  destruct (read fs (d ++ "/MODULE.md")) as [md|];
    [destruct (grep_q "## Purpose" md && grep_q "## Responsibilities" md
               && grep_q "## Public Interface" md),
       (grep_q "[MODULE_NAME]" md)|];
    cbn [say warn error out]; rewrite ?List.filter_app; cbn [List.filter];
    cbn [dependency_report]; by rewrite ?app_nil_r.
Qed.

Lemma check_contract_report tools fs d st :
  List.filter dependency_report (out (check_contract tools fs d st))
  = List.filter dependency_report (out st).
Proof.
  unfold check_contract.
  destruct (read fs (d ++ "/contract.json")) as [text|];
    [destruct (valid_json tools text);
       [destruct (grep_q (q ++ "version" ++ q) text
                  && grep_q (q ++ "publicInterface" ++ q) text)|]|];
    cbn [say warn error out]; rewrite ?List.filter_app; cbn [List.filter];
    cbn [dependency_report]; by rewrite ?app_nil_r.
Qed.

Lemma dependency_report_run
    (tools : json_tools) (arg1 text : string) (fs : filesystem)
    (code : nat) (st : state) :
  module_check tools arg1 fs = Some (code, st) ->
  arg1 <> EmptyString ->
  is_dir fs (module_dir arg1) = true ->
  read fs (module_dir arg1 ++ "/dependencies.json") = Some text ->
  valid_json tools text = true ->
  let names := flat_map words (dependency_lines text) in
  let missing := List.filter (fun d => negb (is_dir fs (module_dir d))) names in
  List.filter dependency_report (out st)
  = (map DependencyNotFound missing
     ++ if nonempty (deps text)
           && forallb (fun d => is_dir fs (module_dir d)) names
        then [AllDependenciesValid] else [])%list
  /\ length missing <= WARNINGS st.
Proof.
  intros Hrun Hne Hd Hread Hvalid names missing. subst names missing.
  apply nonempty_iff in Hne. rewrite (module_check_run _ _ _ Hne Hd) in Hrun.
  destruct (check_dependencies _ _ _ _) as [st'|] eqn:Hdeps; [|discriminate].
  cbn in Hrun. rewrite summary_spec in Hrun. injection Hrun as _ <-.
  set (st0 := check_contract tools fs (module_dir arg1)
                (check_module_md fs (module_dir arg1) initial)) in *.
  assert (List.filter dependency_report (out st0) = []) as Hst0.
  { subst st0. by rewrite check_contract_report, check_module_md_report. }
  assert (List.filter dependency_report (out st')
          = (map DependencyNotFound
               (List.filter (fun d => negb (is_dir fs (module_dir d)))
                  (flat_map words (dependency_lines text)))
             ++ if nonempty (deps text)
                   && forallb (fun d => is_dir fs (module_dir d))
                        (flat_map words (dependency_lines text))
                then [AllDependenciesValid] else [])%list
          /\ length (List.filter (fun d => negb (is_dir fs (module_dir d)))
                       (flat_map words (dependency_lines text)))
             <= WARNINGS st') as [Hout HW].
  { unfold check_dependencies in Hdeps. rewrite Hread, Hvalid in Hdeps.
    rewrite <- words_deps.
    destruct (nonempty (deps text)) eqn:Hdn.
    - destruct (forallb glob_free (words (deps text))); [|discriminate].
      pose proof (check_dep_fold fs (words (deps text))
                    (say DependenciesValidJson (say DependenciesExists st0))
                    true) as (_ & HW & _ & Hb & Ho).
      destruct (fold_left _ _ _) as [st3 ok]. cbn [fst snd] in *.
      injection Hdeps as <-. cbn [say out WARNINGS] in *.
      rewrite !List.filter_app, Hst0 in Ho. cbn in Ho. subst ok.
      split.
      + destruct (forallb _ _); cbn [say out andb]; rewrite ?List.filter_app, Ho;
          cbn; by rewrite ?app_nil_r.
      + destruct (forallb _ _); cbn [andb say WARNINGS]; lia.
    - injection Hdeps as <-. cbn [say out andb].
      rewrite !List.filter_app, Hst0. cbn.
      destruct (deps text) eqn:E; [|discriminate Hdn]. cbn. split; [reflexivity|lia]. }
  assert (forall e w, dependency_report (verdict e w) = false) as Hv
    by (intros [|e] [|w]; reflexivity).
  unfold check_source_dir. destruct (is_dir fs ("src/modules/" ++ arg1));
    cbn [say out WARNINGS ERRORS]; rewrite ?List.filter_app, Hout;
    cbn [List.filter]; rewrite Hv; cbn [dependency_report];
    rewrite ?app_nil_r; (split; [reflexivity|exact HW]).
Qed.

(** X15: what the module check says about dependencies.  Take the
    double-quoted strings of a dependencies.json accepted as JSON that do
    not contain the word dependencies, keys included, and split them into
    words.  When none of these words is a pattern (a word with a star, a
    question mark or a bracket, which the shell would expand), they are the
    names the run looks up: it reaches its end, prints one warning for each
    name whose directory under .cerber/modules the test of line 112 does
    not find, in that order and as often as the name occurs, counts each,
    and prints that all dependencies are valid exactly when there is such a
    string that is not empty and the directory of every name is found. *)
Theorem X15_dependency_report
    (tools : json_tools) (arg1 text : string) (fs : filesystem) :
  arg1 <> EmptyString ->
  is_dir fs (module_dir arg1) = true ->
  read fs (module_dir arg1 ++ "/dependencies.json") = Some text ->
  valid_json tools text = true ->
  let names := flat_map words (dependency_lines text) in
  let missing := List.filter (fun d => negb (is_dir fs (module_dir d))) names in
  forallb glob_free names = true ->
  exists code st,
    module_check tools arg1 fs = Some (code, st)
    /\ List.filter dependency_report (out st)
       = (map DependencyNotFound missing
          ++ if nonempty (deps text)
                && forallb (fun d => is_dir fs (module_dir d)) names
             then [AllDependenciesValid] else [])%list
    /\ length missing <= WARNINGS st.
Proof.
  intros Hne Hd Hread Hvalid names missing Hfree.
  assert (pattern_free tools arg1 fs = true) as Hp.
  { unfold pattern_free. rewrite Hread, Hvalid. cbn [negb orb].
    by rewrite words_deps. }
  destruct (module_check_returns _ _ _ Hp) as (code & st & Hrun).
  exists code, st. split; [exact Hrun|].
  exact (dependency_report_run _ _ _ _ _ _ Hrun Hne Hd Hread Hvalid).
Qed.

Lemma X15_dependency_report_witness :
  exists code st,
    module_check accepting_tools "billing" Samples2.fs_billing_deps
    = Some (code, st)
    /\ List.filter dependency_report (out st)
       = [DependencyNotFound "auth"; DependencyNotFound "forbidden";
          DependencyNotFound "auth"].
Proof.
  destruct (X15_dependency_report accepting_tools "billing"
              Samples2.billing_deps Samples2.fs_billing_deps)
    as (code & st & Hrun & Hout & _).
  - discriminate.
  - vm_compute; reflexivity.
  - vm_compute; reflexivity.
  - reflexivity.
  - vm_compute; reflexivity.
  - exists code, st. split; [exact Hrun|]. exact Hout.
Defined.

(** What a successful run of the add-module script leaves behind. *)
Lemma add_module_success today name fs o :
  AddModule.add_module today name fs = Some o ->
  AddModule.exit_code o = 0 ->
  AddModule.plain_name name = true
  /\ is_dir (AddModule.fs_after o) (module_dir name) = true
  /\ files (AddModule.fs_after o) !! (module_dir name ++ "/MODULE.md")
     = Some (AddModuleExtra.module_md name today fs)
  /\ files (AddModule.fs_after o) !! (module_dir name ++ "/contract.json")
     = Some AddModule.contract_json
  /\ files (AddModule.fs_after o) !! (module_dir name ++ "/dependencies.json")
     = Some AddModule.dependencies_json
  /\ (forall p, is_dir (AddModule.fs_after o) p = true
                 <-> is_dir fs p = true
                     \/ In p [".cerber"; modules_root; module_dir name]).
Proof.
  intros Hrun Hexit.
  assert (AddModule.plain_name name = true
          /\ is_dir fs (module_dir name) = false
          /\ AddModuleExtra.blocked name fs = false) as (Hplain & Hdir & Hblocked).
  { unfold AddModule.add_module in Hrun.
    destruct (negb (nonempty name));
      [injection Hrun as <-; discriminate Hexit|].
    destruct (is_dir fs (module_dir name));
      [injection Hrun as <-; discriminate Hexit|].
    destruct (AddModule.plain_name name); [|discriminate Hrun].
    rewrite mkdir_p_module_spec in Hrun. unfold AddModuleExtra.blocked.
    destruct (existsb _ _); [injection Hrun as <-; discriminate Hexit|].
    by repeat split. }
  pose proof (add_module_fresh today name fs Hplain Hdir Hblocked) as Hfresh.
  set (fs1 := {| dirs := list_to_set [".cerber"; modules_root; module_dir name]
                         ∪ dirs fs;
                 files := files fs |}) in Hfresh.
  rewrite Hfresh in Hrun. injection Hrun as <-. cbn [AddModule.fs_after].
  split; [exact Hplain|].
  rewrite !files_update_bible by apply module_path_not_bible.
  destruct (files_create_files_own name today fs1) as (-> & -> & ->).
  unfold is_dir. rewrite dirs_update_bible, dirs_create_files.
  split; [apply bool_decide_eq_true; subst fs1; cbn [dirs]; set_solver|].
  do 3 (split; [reflexivity|]).
  intros p. rewrite !bool_decide_eq_true. subst fs1. cbn [dirs].
  rewrite elem_of_union, elem_of_list_to_set, list_elem_of_In. tauto.
Qed.

Lemma check_module_md_WARNINGS fs d st :
  WARNINGS (check_module_md fs d st) <= WARNINGS st + 2.
Proof.
  unfold check_module_md.
  destruct (read fs (d ++ "/MODULE.md")) as [md|]; [|cbn; lia].
  destruct (grep_q "## Purpose" md && grep_q "## Responsibilities" md
            && grep_q "## Public Interface" md),
    (grep_q "[MODULE_NAME]" md); cbn; lia.
Qed.

Lemma check_contract_generated tools fs d st :
  read fs (d ++ "/contract.json") = Some AddModule.contract_json ->
  valid_json tools AddModule.contract_json = true ->
  check_contract tools fs d st
  = say ContractFieldsOk (say ContractValidJson (say ContractExists st)).
Proof.
  unfold check_contract. intros -> ->.
  replace (grep_q (q ++ "version" ++ q) AddModule.contract_json
           && grep_q (q ++ "publicInterface" ++ q) AddModule.contract_json)
    with true by (vm_compute; reflexivity).
  reflexivity.
Qed.

Lemma check_dependencies_generated tools fs d st :
  read fs (d ++ "/dependencies.json") = Some AddModule.dependencies_json ->
  valid_json tools AddModule.dependencies_json = true ->
  check_dependencies tools fs d st
  = Some (say DependenciesValidJson (say DependenciesExists st)).
Proof.
  unfold check_dependencies. intros -> ->.
  replace (nonempty (deps AddModule.dependencies_json)) with false
    by (vm_compute; reflexivity).
  reflexivity.
Qed.

(** X16: a module just added passes the module check.  When the JSON tools
    accept the two JSON files the add-module script writes, the check of
    the new module exits 0 right after a successful add, with no error and
    at most the two warnings about MODULE.md, whatever template was
    used. *)
Theorem X16_added_module_passes_check
    (tools : json_tools) (today name : string) (fs : filesystem)
    (o : AddModule.outcome) :
  valid_json tools AddModule.contract_json = true ->
  valid_json tools AddModule.dependencies_json = true ->
  AddModule.add_module today name fs = Some o ->
  AddModule.exit_code o = 0 ->
  exists st,
    module_check tools name (AddModule.fs_after o) = Some (0, st)
    /\ ERRORS st = 0
    /\ WARNINGS st <= 2
    /\ In ContractFieldsOk (out st)
    /\ In DependenciesValidJson (out st).
Proof.
  intros Hc Hd Hrun Hexit.
  destruct (add_module_success _ _ _ _ Hrun Hexit)
    as (Hplain & Hdir & Hmd & Hct & Hdp & _).
  assert (nonempty name = true) as Hn by (by destruct name).
  rewrite (module_check_run _ _ _ Hn Hdir).
  rewrite (check_dependencies_generated _ _ _ _ Hdp Hd).
  rewrite (check_contract_generated _ _ _ _ Hct Hc).
  cbn [fmap option_fmap option_map]. rewrite summary_spec.
  set (st0 := check_module_md (AddModule.fs_after o) (module_dir name) initial).
  assert (ERRORS st0 = 0) as HE.
  { subst st0. rewrite check_module_md_ERRORS. unfold read. by rewrite Hmd. }
  assert (WARNINGS st0 <= 2) as HW.
  { subst st0. apply (check_module_md_WARNINGS _ _ initial). }
  eexists. split.
  - f_equal. f_equal. rewrite check_source_dir_ERRORS. cbn [say ERRORS].
    by rewrite HE.
  - unfold check_source_dir.
    destruct (is_dir (AddModule.fs_after o) ("src/modules/" ++ name));
      cbn [say ERRORS WARNINGS out]; (split; [exact HE|]);
      (split; [exact HW|]); rewrite ?in_app_iff; cbn [In]; tauto.
Qed.

Lemma X16_added_module_passes_check_witness :
  match AddModule.add_module "2026-01-01" "billing" Samples.empty_fs with
  | Some o =>
      exists st,
        module_check accepting_tools "billing" (AddModule.fs_after o)
        = Some (0, st)
        /\ ERRORS st = 0 /\ WARNINGS st <= 2
        /\ In ContractFieldsOk (out st) /\ In DependenciesValidJson (out st)
  | None => False
  end.
Proof.
  destruct (AddModule.add_module "2026-01-01" "billing" Samples.empty_fs)
    as [o|] eqn:E; [|vm_compute in E; discriminate E].
  apply (X16_added_module_passes_check accepting_tools "2026-01-01" "billing"
           Samples.empty_fs o); [reflexivity|reflexivity|exact E|].
  vm_compute in E. injection E as <-. reflexivity.
Defined.

End ModuleCheckFacts.

(** ** cerber-focus.sh *)

Section FocusFacts.
Import Text FS Focus.

Lemma output_not_module_file name suffix :
  OUTPUT_FILE <> module_dir name ++ suffix.
Proof.
  intros E. apply (f_equal (strip_prefix ".cerber/")) in E.
  unfold module_dir, modules_root, OUTPUT_FILE in E.
  rewrite !append_assoc' in E. vm_compute in E. discriminate E.
Qed.

Lemma append_to_own p t fs :
  files (append_to p t fs) !! p
  = Some (default EmptyString (files fs !! p) ++ t).
Proof. unfold append_to, write. cbn [files]. by rewrite lookup_insert_eq. Qed.

Lemma append_to_other p t fs p' :
  p' <> p -> files (append_to p t fs) !! p' = files fs !! p'.
Proof.
  intros H. unfold append_to, write. cbn [files]. by rewrite lookup_insert_ne.
Qed.

Lemma dirs_append_to p t fs : dirs (append_to p t fs) = dirs fs.
Proof. reflexivity. Qed.

(** One optional JSON section (lines 82-110). *)
Lemma add_json_spec path title missing fs ns c :
  path <> OUTPUT_FILE ->
  files fs !! OUTPUT_FILE = Some c ->
  let r := add_json path title missing (fs, ns) in
  files (fst r) !! OUTPUT_FILE
  = Some (c ++ optional_section title (files fs !! path))
  /\ (forall p, p <> OUTPUT_FILE -> files (fst r) !! p = files fs !! p)
  /\ dirs (fst r) = dirs fs
  /\ snd r = (ns ++ match files fs !! path with
                    | Some _ => []
                    | None => [missing]
                    end)%list.
Proof.
  intros Hp Hc. unfold add_json. cbn [fst snd].
  destruct (files fs !! path) as [text|]; cbn [fst snd optional_section].
  - rewrite append_to_own, Hc. cbn [from_option id].
    split; [reflexivity|]. split; [|by rewrite app_nil_r].
    intros p' Hp'. by apply append_to_other.
  - split; [|done]. rewrite Hc. f_equal.
    clear. induction c as [|x c IH]; [reflexivity|].
    by rewrite append_cons, <- IH.
Qed.

(** The loop of lines 121-139. *)
Lemma add_contract_fold name contracts fs b c :
  files fs !! OUTPUT_FILE = Some c ->
  let r := fold_left (add_contract name) contracts (fs, b) in
  files (fst r) !! OUTPUT_FILE
  = Some (c ++ fold_right append EmptyString
                 (map contract_section (List.filter (mentions name) contracts)))
  /\ (forall p, p <> OUTPUT_FILE -> files (fst r) !! p = files fs !! p)
  /\ dirs (fst r) = dirs fs
  /\ snd r = b || existsb (mentions name) contracts.
Proof.
  revert fs b c. induction contracts as [|k ks IH]; intros fs b c Hc;
    cbn [fold_left List.filter existsb map fold_right].
  - rewrite orb_false_r. cbn [fst snd]. split; [|done]. rewrite Hc. f_equal.
    clear. induction c as [|x c IH]; [reflexivity|].
    by rewrite append_cons, <- IH.
  - change (add_contract name (fs, b) k)
      with (if mentions name k
            then (append_to OUTPUT_FILE (contract_section k) fs, true)
            else (fs, b)).
    destruct (mentions name k); cbn [orb map fold_right].
    + specialize (IH (append_to OUTPUT_FILE (contract_section k) fs) true
                     (c ++ contract_section k)).
      rewrite append_to_own, Hc in IH. specialize (IH eq_refl).
      cbn zeta in IH. destruct IH as (Ho & Hf & Hd & Hb).
      split; [by rewrite Ho, append_assoc'|]. split; [|split].
      * intros p Hp. rewrite (Hf p Hp). by apply append_to_other.
      * by rewrite Hd.
      * rewrite Hb. by rewrite orb_true_r.
    + apply (IH fs b c Hc).
Qed.

(** Lines 112-148. *)
Lemma add_connections_spec name contracts fs c :
  files fs !! OUTPUT_FILE = Some c ->
  files (add_connections name contracts fs) !! OUTPUT_FILE
  = Some (c ++ if is_dir fs CONNECTIONS_DIR
               then connections_part name contracts else EmptyString)
  /\ (forall p, p <> OUTPUT_FILE ->
        files (add_connections name contracts fs) !! p = files fs !! p)
  /\ dirs (add_connections name contracts fs) = dirs fs.
Proof.
  intros Hc. unfold add_connections.
  destruct (is_dir fs CONNECTIONS_DIR).
  2:{ split; [|done]. rewrite Hc. f_equal.
      clear. induction c as [|x c IH]; [reflexivity|].
      by rewrite append_cons, <- IH. }
  pose proof (add_contract_fold name contracts
                (append_to OUTPUT_FILE ("## Connection Contracts" ++ nl ++ nl) fs)
                false (c ++ "## Connection Contracts" ++ nl ++ nl)) as H.
  rewrite append_to_own, Hc in H. specialize (H eq_refl). cbn zeta in H.
  destruct (fold_left _ _ _) as [fs2 found]. cbn [fst snd] in H.
  destruct H as (Ho & Hf & Hd & Hb). cbn [orb] in Hb. subst found.
  unfold connections_part.
  destruct (existsb (mentions name) contracts).
  - rewrite append_to_own, Ho. cbn [from_option id]. split; [|split].
    + by rewrite !append_assoc', ?append_nil.
    + intros p Hp. rewrite append_to_other by done. rewrite (Hf p Hp).
      by apply append_to_other.
    + by rewrite !dirs_append_to, Hd.
  - rewrite append_to_own, append_to_own, Ho. cbn [from_option id]. split; [|split].
    + by rewrite !append_assoc'.
    + intros p Hp. rewrite !append_to_other by done. rewrite (Hf p Hp).
      by apply append_to_other.
    + by rewrite !dirs_append_to, Hd.
Qed.

Lemma append_empty_r (s : string) : s ++ EmptyString = s.
Proof.
  induction s as [|x s IH]; [reflexivity|]. by rewrite append_cons, IH.
Qed.

(** A run past the guards that finds MODULE.md. *)
Lemma focus_success now name contracts fs md :
  nonempty name = true ->
  is_dir fs (module_dir name) = true ->
  AddModule.plain_name name = true ->
  is_dir fs OUTPUT_FILE = false ->
  files fs !! (module_dir name ++ "/MODULE.md") = Some md ->
  exists o,
    focus now name contracts fs = Some o
    /\ exit_code o = 0
    /\ files (fs_after o) !! OUTPUT_FILE
       = Some (context now name contracts fs md)
    /\ printed o
       = ContextCreated (count_LF (context now name contracts fs md))
           (String.length (context now name contracts fs md))
    /\ notices o
       = (match files fs !! (module_dir name ++ "/contract.json")%string with
          | Some _ => []
          | None => [ContractNotFound]
          end
          ++ match files fs !! (module_dir name ++ "/dependencies.json")%string
             with
             | Some _ => []
             | None => [DependenciesNotFound]
             end)%list
    /\ (forall p, p <> OUTPUT_FILE -> files (fs_after o) !! p = files fs !! p)
    /\ dirs (fs_after o) = {[ ".cerber" ]} ∪ dirs fs.
Proof.
  intros Hn Hd Hplain Hout Hmd. unfold focus.
  rewrite Hn, Hd, Hplain, Hout. cbn [negb].
  set (fs1 := {| dirs := {[ ".cerber" ]} ∪ dirs fs; files := files fs |}).
  set (fs2 := write OUTPUT_FILE (header name now) fs1).
  assert (files fs2 !! (module_dir name ++ "/MODULE.md") = Some md) as ->.
  { subst fs2 fs1. unfold write. cbn [files].
    rewrite lookup_insert_ne by apply output_not_module_file. exact Hmd. }
  set (fs3 := append_to OUTPUT_FILE (documentation md) fs2).
  assert (files fs3 !! OUTPUT_FILE = Some (header name now ++ documentation md))
    as H3.
  { subst fs3. rewrite append_to_own. subst fs2. unfold write. cbn [files].
    by rewrite lookup_insert_eq. }
  assert (forall p, p <> OUTPUT_FILE -> files fs3 !! p = files fs !! p) as F3.
  { intros p Hp. subst fs3. rewrite append_to_other by done.
    subst fs2 fs1. unfold write. cbn [files]. by rewrite lookup_insert_ne. }
  assert (dirs fs3 = {[ ".cerber" ]} ∪ dirs fs) as D3 by reflexivity.
  pose proof (add_json_spec (module_dir name ++ "/contract.json")
                "Module Contract (Public Interface)" ContractNotFound fs3 []
                _ (not_eq_sym (output_not_module_file _ _)) H3) as H4.
  cbn zeta in H4.
  destruct (add_json (module_dir name ++ "/contract.json") _ _ (fs3, []))
    as [fs4 ns4]. cbn [fst snd] in H4. destruct H4 as (H4 & F4 & D4 & N4).
  pose proof (add_json_spec (module_dir name ++ "/dependencies.json")
                "Module Dependencies" DependenciesNotFound fs4 ns4
                _ (not_eq_sym (output_not_module_file _ _)) H4) as H5.
  cbn zeta in H5.
  destruct (add_json (module_dir name ++ "/dependencies.json") _ _ (fs4, ns4))
    as [fs5 ns5]. cbn [fst snd] in H5. destruct H5 as (H5 & F5 & D5 & N5).
  destruct (add_connections_spec name contracts fs5 _ H5) as (H6 & F6 & D6).
  pose proof (F4 _ (not_eq_sym (output_not_module_file name "/dependencies.json")))
    as F4d.
  pose proof (F3 _ (not_eq_sym (output_not_module_file name "/dependencies.json")))
    as F3d.
  pose proof (F3 _ (not_eq_sym (output_not_module_file name "/contract.json")))
    as F3c.
  assert (is_dir fs5 CONNECTIONS_DIR = is_dir fs CONNECTIONS_DIR) as Hconn.
  { unfold is_dir. rewrite D5, D4, D3. apply bool_decide_ext.
    rewrite elem_of_union, elem_of_singleton. split; [|tauto].
    intros [E|E]; [discriminate E|exact E]. }
  rewrite Hconn in H6.
  assert (files (add_connections name contracts fs5) !! OUTPUT_FILE
          = Some (context now name contracts fs md)) as Hctx.
  { rewrite H6, F4d, F3d, F3c. unfold context. by rewrite !append_assoc'. }
  eexists. split; [reflexivity|]. cbn [exit_code fs_after printed notices].
  rewrite Hctx. cbn [from_option id]. split; [reflexivity|]. split; [reflexivity|].
  split; [reflexivity|]. split; [|split].
  - rewrite N5, N4, F4d, F3d, F3c. reflexivity.
  - intros p Hp. by rewrite F6, F5, F4, F3.
  - by rewrite D6, D5, D4, D3.
Qed.

(** A run past the guards that does not find MODULE.md. *)
Lemma focus_no_md now name contracts fs :
  nonempty name = true ->
  is_dir fs (module_dir name) = true ->
  AddModule.plain_name name = true ->
  is_dir fs OUTPUT_FILE = false ->
  files fs !! (module_dir name ++ "/MODULE.md") = None ->
  focus now name contracts fs
  = Some {| exit_code := 1; printed := ModuleMdNotFound; notices := [];
            fs_after :=
              write OUTPUT_FILE (header name now)
                {| dirs := {[ ".cerber" ]} ∪ dirs fs; files := files fs |} |}.
Proof.
  intros Hn Hd Hplain Hout Hmd. unfold focus.
  rewrite Hn, Hd, Hplain, Hout. cbn [negb].
  set (fs1 := {| dirs := {[ ".cerber" ]} ∪ dirs fs; files := files fs |}).
  set (fs2 := write OUTPUT_FILE (header name now) fs1).
  assert (files fs2 !! (module_dir name ++ "/MODULE.md") = None) as ->.
  { subst fs2 fs1. unfold write. cbn [files].
    rewrite lookup_insert_ne by apply output_not_module_file. exact Hmd. }
  reflexivity.
Qed.

(** A run past the guards that cannot open the context file. *)
Lemma focus_no_output now name contracts fs :
  nonempty name = true ->
  is_dir fs (module_dir name) = true ->
  AddModule.plain_name name = true ->
  is_dir fs OUTPUT_FILE = true ->
  focus now name contracts fs
  = Some {| exit_code := 1; printed := OutputNotWritable; notices := [];
            fs_after :=
              {| dirs := {[ ".cerber" ]} ∪ dirs fs; files := files fs |} |}.
Proof.
  intros Hn Hd Hplain Hout. unfold focus. by rewrite Hn, Hd, Hplain, Hout.
Qed.

(** X17: the exit status of the focus script and what a failed run leaves.
    For the empty name or a name of the naming convention the script runs
    to an end, and it exits 0 exactly when a name is given, its module
    directory exists, FOCUS_CONTEXT.md is not a directory and MODULE.md is
    there; otherwise it exits 1.  A run stopped by one of the first two
    guards changes nothing, and a run stopped because FOCUS_CONTEXT.md is a
    directory changes no file; a run stopped because MODULE.md is missing
    has by then replaced the context file by the header alone. *)
Theorem X17_focus_exit_status
    (now arg1 : string) (contracts : list ConnectionsCheck.contract)
    (fs : filesystem) :
  arg1 = EmptyString \/ AddModule.plain_name arg1 = true ->
  exists o,
    focus now arg1 contracts fs = Some o
    /\ (exit_code o = 0
        <-> arg1 <> EmptyString
            /\ is_dir fs (module_dir arg1) = true
            /\ is_dir fs OUTPUT_FILE = false
            /\ is_Some (files fs !! (module_dir arg1 ++ "/MODULE.md")))
    /\ (exit_code o = 0 \/ exit_code o = 1)
    /\ (arg1 = EmptyString \/ is_dir fs (module_dir arg1) = false ->
        fs_after o = fs)
    /\ (arg1 <> EmptyString -> is_dir fs (module_dir arg1) = true ->
        is_dir fs OUTPUT_FILE = true ->
        files (fs_after o) = files fs)
    /\ (arg1 <> EmptyString -> is_dir fs (module_dir arg1) = true ->
        is_dir fs OUTPUT_FILE = false ->
        files fs !! (module_dir arg1 ++ "/MODULE.md") = None ->
        files (fs_after o) !! OUTPUT_FILE = Some (header arg1 now)).
Proof.
  intros Hcov. destruct (nonempty arg1) eqn:Hn.
  2:{ eexists. split; [unfold focus; rewrite Hn; reflexivity|].
      cbn [exit_code fs_after].
      assert (arg1 = EmptyString) as -> by (by destruct arg1).
      split; [|split; [by right|split; [done|split; done]]].
      split; [discriminate|]. by intros (? & _). }
  apply nonempty_iff in Hn as Hne.
  destruct Hcov as [?|Hplain]; [done|].
  destruct (is_dir fs (module_dir arg1)) eqn:Hd.
  2:{ eexists. split; [unfold focus; rewrite Hn, Hd; reflexivity|].
      cbn [exit_code fs_after].
      split; [|split; [by right|split; [done|split; discriminate]]].
      split; [discriminate|]. by intros (_ & ? & _). }
  destruct (is_dir fs OUTPUT_FILE) eqn:Hout.
  { eexists. split; [by apply focus_no_output|]. cbn [exit_code fs_after files].
    split; [|split; [by right|split; [|split; [done|discriminate]]]].
    - split; [discriminate|]. by intros (_ & _ & ? & _).
    - intros [?|?]; congruence. }
  destruct (files fs !! (module_dir arg1 ++ "/MODULE.md")) as [md|] eqn:Hmd.
  - destruct (focus_success now arg1 contracts fs md Hn Hd Hplain Hout Hmd)
      as (o & Hrun & Hexit & _).
    exists o. split; [exact Hrun|].
    split; [|split; [by left|split; [|split; [discriminate|discriminate]]]].
    + split; [by eauto|done].
    + intros [?|?]; congruence.
  - eexists. split; [by apply focus_no_md|]. cbn [exit_code fs_after].
    split; [|split; [by right|split; [|split; [discriminate|]]]].
    + split; [discriminate|]. intros (_ & _ & _ & [? ?]). discriminate.
    + intros [?|?]; congruence.
    + intros _ _ _ _. unfold write. cbn [files]. by rewrite lookup_insert_eq.
Qed.

Lemma X17_focus_exit_status_witness :
  exists o,
    focus "2026-01-01 10:00:00" "billing" [] Samples.fs_billing = Some o
    /\ exit_code o = 0.
Proof.
  destruct (X17_focus_exit_status "2026-01-01 10:00:00" "billing" []
              Samples.fs_billing) as (o & Hrun & [_ H] & _);
    [by right|].
  exists o. split; [exact Hrun|]. apply H. split; [discriminate|].
  split; [vm_compute; reflexivity|]. split; vm_compute; eauto.
Defined.



Lemma module_dir_not_cerber name : module_dir name <> ".cerber".
Proof.
  intros E. apply (f_equal (strip_prefix ".cerber/")) in E.
  unfold module_dir, modules_root in E. rewrite ?append_assoc' in E.
  vm_compute in E. discriminate E.
Qed.

(** X19: the focus script writes one file.  Whatever the outcome, every
    file but the context file is left as it was, no directory goes away,
    and every module resolves to the same record as before. *)
Theorem X19_focus_frame
    (now arg1 : string) (contracts : list ConnectionsCheck.contract)
    (fs : filesystem) (o : outcome) :
  focus now arg1 contracts fs = Some o ->
  (forall p, p <> OUTPUT_FILE -> files (fs_after o) !! p = files fs !! p)
  /\ (forall p, is_dir fs p = true -> is_dir (fs_after o) p = true)
  /\ (forall name, AddModule.resolve (fs_after o) name = AddModule.resolve fs name).
Proof.
  intros Hrun.
  assert ((forall p, p <> OUTPUT_FILE -> files (fs_after o) !! p = files fs !! p)
          /\ (dirs (fs_after o) = dirs fs
              \/ dirs (fs_after o) = {[ ".cerber" ]} ∪ dirs fs)) as [Hf Hd].
  { destruct (nonempty arg1) eqn:Hn;
      [|unfold focus in Hrun; rewrite Hn in Hrun; injection Hrun as <-;
        split; [done|by left]].
    destruct (is_dir fs (module_dir arg1)) eqn:Hd;
      [|unfold focus in Hrun; rewrite Hn, Hd in Hrun; injection Hrun as <-;
        split; [done|by left]].
    destruct (AddModule.plain_name arg1) eqn:Hplain;
      [|unfold focus in Hrun; rewrite Hn, Hd, Hplain in Hrun;
        discriminate Hrun].
    destruct (is_dir fs OUTPUT_FILE) eqn:Hout;
      [rewrite (focus_no_output now arg1 contracts fs Hn Hd Hplain Hout) in Hrun;
       injection Hrun as <-; split; [done|by right]|].
    destruct (files fs !! (module_dir arg1 ++ "/MODULE.md")) as [md|] eqn:Hmd.
    - destruct (focus_success now arg1 contracts fs md Hn Hd Hplain Hout Hmd)
        as (o' & Hrun' & _ & _ & _ & _ & Hf & Hdirs).
      rewrite Hrun in Hrun'. injection Hrun' as <-. split; [exact Hf|by right].
    - rewrite (focus_no_md now arg1 contracts fs Hn Hd Hplain Hout Hmd) in Hrun.
      injection Hrun as <-. cbn [fs_after]. split; [|by right].
      intros p Hp. unfold write. cbn [files]. by rewrite lookup_insert_ne. }
  assert (forall name,
            is_dir (fs_after o) (module_dir name) = is_dir fs (module_dir name))
    as Hm.
  { intros name. unfold is_dir. apply bool_decide_ext.
    destruct Hd as [-> | ->]; [done|].
    rewrite elem_of_union, elem_of_singleton. split; [|tauto].
    intros [E|E]; [by apply module_dir_not_cerber in E|exact E]. }
  split; [exact Hf|]. split.
  - intros p. unfold is_dir. rewrite !bool_decide_eq_true.
    destruct Hd as [-> | ->]; set_solver.
  - intros name. unfold AddModule.resolve. rewrite Hm.
    by rewrite !Hf by (apply not_eq_sym, output_not_module_file).
Qed.

Lemma X19_focus_frame_witness :
  match focus "2026-01-01 10:00:00" "billing" [] Samples.fs_billing with
  | Some o =>
      AddModule.resolve (fs_after o) "billing"
      = AddModule.resolve Samples.fs_billing "billing"
  | None => False
  end.
Proof.
  destruct (focus "2026-01-01 10:00:00" "billing" [] Samples.fs_billing)
    as [o|] eqn:E; [|vm_compute in E; discriminate E].
  apply (X19_focus_frame _ _ _ _ _ E).
Defined.

Lemma connections_dir_not_new name :
  ~ In CONNECTIONS_DIR [".cerber"; modules_root; module_dir name].
Proof.
  cbn [In]. intros [E|[E|[E|[]]]]; try discriminate E.
  all: apply (f_equal (strip_prefix ".cerber/")) in E;
    unfold module_dir, modules_root, CONNECTIONS_DIR in E;
    rewrite ?append_assoc' in E; vm_compute in E; discriminate E.
Qed.

Lemma output_not_new name :
  ~ In OUTPUT_FILE [".cerber"; modules_root; module_dir name].
Proof.
  cbn [In]. intros [E|[E|[E|[]]]]; try discriminate E.
  all: symmetry in E; revert E;
    rewrite <- (append_empty_r (module_dir name));
    apply output_not_module_file.
Qed.

(** X20: a module just added can be focused on.  Right after a successful
    run of the add-module script, the focus script run for the same name
    exits 0 and prints no notice, and the context it writes holds the
    MODULE.md and the two JSON files the add-module script wrote. *)
Theorem X20_added_module_can_be_focused
    (today now name : string) (contracts : list ConnectionsCheck.contract)
    (fs : filesystem) (o : AddModule.outcome) :
  AddModule.add_module today name fs = Some o ->
  AddModule.exit_code o = 0 ->
  is_dir fs OUTPUT_FILE = false ->
  exists o',
    focus now name contracts (AddModule.fs_after o) = Some o'
    /\ exit_code o' = 0
    /\ notices o' = []
    /\ files (fs_after o') !! OUTPUT_FILE
       = Some (header name now
               ++ documentation (AddModuleExtra.module_md name today fs)
               ++ json_section "Module Contract (Public Interface)"
                    AddModule.contract_json
               ++ json_section "Module Dependencies"
                    AddModule.dependencies_json
               ++ if is_dir fs CONNECTIONS_DIR
                  then connections_part name contracts else EmptyString).
Proof.
  intros Hrun Hexit Hout.
  destruct (add_module_success _ _ _ _ Hrun Hexit)
    as (Hplain & Hdir & Hmd & Hct & Hdp & Hdirs).
  assert (nonempty name = true) as Hn by (by destruct name).
  assert (is_dir (AddModule.fs_after o) OUTPUT_FILE = false) as Hout'.
  { apply not_true_is_false. rewrite Hdirs. intros [H|H]; [congruence|].
    by apply output_not_new in H. }
  assert (is_dir (AddModule.fs_after o) CONNECTIONS_DIR
          = is_dir fs CONNECTIONS_DIR) as Hconn.
  { destruct (is_dir fs CONNECTIONS_DIR) eqn:E.
    - apply Hdirs. by left.
    - apply not_true_is_false. rewrite Hdirs. intros [H|H]; [congruence|].
      by apply connections_dir_not_new in H. }
  destruct (focus_success now name contracts (AddModule.fs_after o) _
              Hn Hdir Hplain Hout' Hmd)
    as (o' & Hrun' & Hexit' & Hctx & _ & Hnotices & _).
  exists o'. split; [exact Hrun'|]. split; [exact Hexit'|].
  rewrite Hct, Hdp in Hnotices. split; [exact Hnotices|].
  rewrite Hctx. unfold context. by rewrite Hct, Hdp, Hconn.
Qed.

Lemma X20_added_module_can_be_focused_witness :
  match AddModule.add_module "2026-01-01" "billing" Samples.empty_fs with
  | Some o =>
      exists o',
        focus "2026-01-01 10:00:00" "billing" [] (AddModule.fs_after o)
        = Some o'
        /\ exit_code o' = 0 /\ notices o' = []
  | None => False
  end.
Proof.
  destruct (AddModule.add_module "2026-01-01" "billing" Samples.empty_fs)
    as [o|] eqn:E; [|vm_compute in E; discriminate E].
  assert (AddModule.exit_code o = 0) as Hexit
    by (vm_compute in E; injection E as <-; reflexivity).
  destruct (X20_added_module_can_be_focused "2026-01-01" "2026-01-01 10:00:00"
              "billing" [] Samples.empty_fs o E Hexit)
    as (o' & H1 & H2 & H3 & _); [vm_compute; reflexivity|].
  exists o'. by repeat split.
Defined.

End FocusFacts.

(** ** feature-flags.ts: the queries *)

Section FlagQueryFacts.
Import FeatureFlags FlagQueries.

Lemma Object_keys_own (featureFlags : FeatureFlagsConfig) flag :
  In flag (Object_keys featureFlags) <-> is_Some (featureFlags !! flag).
Proof.
  unfold Object_keys. rewrite <- list_elem_of_In, list_elem_of_fmap. split.
  - intros [[k c] [-> H]]. apply elem_of_map_to_list in H. by exists c.
  - intros [c H]. exists (flag, c). split; [reflexivity|].
    by apply elem_of_map_to_list.
Qed.

(** A call on an own key: the result and the warning go together. *)
Lemma isFeatureEnabled_own rt (featureFlags : FeatureFlagsConfig) flag config :
  featureFlags !! flag = Some config ->
  snd (isFeatureEnabled rt featureFlags flag) = []
  \/ exists d,
       expiresAt config = Some d
       /\ later_than (now rt) (new_Date rt d) = true
       /\ isFeatureEnabled rt featureFlags flag = (false, [FlagExpired flag d]).
Proof.
  intros Hc. unfold isFeatureEnabled, get. rewrite Hc.
  destruct (negb (enabled config)); [by left|].
  destruct (negb _); [by left|].
  destruct (expiresAt config) as [[|c s]|]; [by left| |by left].
  destruct (later_than (now rt) (new_Date rt (String c s))) eqn:E; [|by left].
  right. by exists (String c s).
Qed.

(** X21: what getEnabledFlags lists and logs.  A flag is listed exactly
    when isFeatureEnabled answers true for it at the clock reading of its
    call, every listed flag is an own key of the configuration, and no key
    is listed twice.  The warnings logged on the way are expiry warnings
    for own keys whose date had passed at their call; none says that a flag
    was not found. *)
Theorem X21_getEnabledFlags_listing
    (rt : runtime) (clock : string -> Z) (featureFlags : FeatureFlagsConfig) :
  (forall flag,
     In flag (fst (getEnabledFlags rt clock featureFlags))
     <-> fst (isFeatureEnabled (at_time rt (clock flag)) featureFlags flag)
         = true)
  /\ (forall flag,
        In flag (fst (getEnabledFlags rt clock featureFlags)) ->
        is_Some (featureFlags !! flag))
  /\ List.NoDup (fst (getEnabledFlags rt clock featureFlags))
  /\ (forall w,
        In w (snd (getEnabledFlags rt clock featureFlags)) ->
        exists flag config d,
          w = FlagExpired flag d
          /\ featureFlags !! flag = Some config
          /\ expiresAt config = Some d
          /\ later_than (clock flag) (new_Date rt d) = true).
Proof.
  assert (forall flag,
            In flag (fst (getEnabledFlags rt clock featureFlags))
            <-> In flag (Object_keys featureFlags)
                /\ fst (isFeatureEnabled (at_time rt (clock flag))
                          featureFlags flag) = true) as Hin.
  { intros flag. unfold getEnabledFlags. cbn [fst].
    rewrite in_map_iff. split.
    - intros [[f r] [<- H]]. apply List.filter_In in H as [H Hr].
      apply in_map_iff in H as [f' [[= <- <-] H]]. by split.
    - intros [Hk Hr]. eexists (flag, _). split; [reflexivity|].
      apply List.filter_In. split; [|exact Hr].
      apply in_map_iff. by exists flag. }
  split; [|split; [|split]].
  - intros flag. rewrite Hin. split; [by intros [_ ?]|].
    intros Hr. split; [|exact Hr]. apply Object_keys_own.
    unfold isFeatureEnabled, get in Hr.
    destruct (featureFlags !! flag); [by eauto|].
    by destruct (bool_decide _).
  - intros flag [H _]%Hin. by apply Object_keys_own.
  - clear Hin. unfold getEnabledFlags. cbn [fst].
    assert (List.NoDup (Object_keys featureFlags)) as Hnd.
    { apply NoDup_ListNoDup. unfold Object_keys. apply NoDup_fst_map_to_list. }
    induction (Object_keys featureFlags) as [|k ks IH]; [constructor|].
    apply List.NoDup_cons_iff in Hnd as [Hk Hnd]. cbn [map List.filter].
    destruct (fst (snd _)); [|by apply IH]. cbn [map fst].
    constructor; [|by apply IH].
    intros H. apply in_map_iff in H as [[f r] [Hf H]].
    apply List.filter_In in H as [H _].
    apply in_map_iff in H as [f' [[= <- <-] H]]. cbn [fst] in Hf. by subst f'.
  - intros w Hw. unfold getEnabledFlags in Hw. cbn [snd] in Hw.
    apply in_concat in Hw as [ws [Hws Hw]].
    apply in_map_iff in Hws as [[f r] [<- H]].
    apply in_map_iff in H as [flag [[= <- <-] H]]. cbn [snd] in Hw.
    apply Object_keys_own in H as [config Hc].
    destruct (isFeatureEnabled_own (at_time rt (clock flag)) _ _ _ Hc)
      as [E|(d & Hd & Hlate & E)]; rewrite E in Hw; [destruct Hw|].
    destruct Hw as [<-|[]]. by exists flag, config, d.
Qed.

(** X22: an expired flag stays off.  A flag that getExpiredFlags lists is
    an own key with an expiry date that the clock has passed, and
    isFeatureEnabled answers false for it at that time and at every later
    one; and isFeatureEnabled never answers true for a flag listed as
    expired at the same clock reading. *)
Theorem X22_expired_flag_stays_off
    (rt : runtime) (featureFlags : FeatureFlagsConfig) (flag : string) :
  In flag (getExpiredFlags rt featureFlags) ->
  (exists config d,
     featureFlags !! flag = Some config /\ expiresAt config = Some d
     /\ d <> EmptyString
     /\ later_than (now rt) (new_Date rt d) = true)
  /\ forall t, (now rt <= t)%Z ->
       fst (isFeatureEnabled (at_time rt t) featureFlags flag) = false.
Proof.
  unfold getExpiredFlags. intros [_ He]%List.filter_In.
  unfold expired in He.
  destruct (featureFlags !! flag) as [config|] eqn:Hc; [|discriminate].
  destruct (expiresAt config) as [[|c s]|] eqn:Hd; try discriminate.
  split; [by exists config, (String c s)|].
  intros t Ht. unfold isFeatureEnabled, get. rewrite Hc.
  destruct (negb (enabled config)); [reflexivity|].
  destruct (negb _); [reflexivity|]. rewrite Hd.
  replace (later_than (now (at_time rt t))
             (new_Date (at_time rt t) (String c s))) with true; [reflexivity|].
  symmetry. unfold later_than, new_Date, at_time in *. cbn [now Date_parse] in *.
  destruct (Date_parse rt (String c s)) as [e|]; [|discriminate].
  apply Z.ltb_lt. apply Z.ltb_lt in He. lia.
Qed.

Lemma X22_expired_flag_stays_off_witness :
  fst (isFeatureEnabled (at_time Samples2.rt_2027 1900000000000)
         Samples2.dated_flags "old-checkout") = false.
Proof.
  refine (proj2 (X22_expired_flag_stays_off Samples2.rt_2027
                   Samples2.dated_flags "old-checkout" _) _ _).
  - vm_compute. auto.
  - vm_compute. discriminate.
Defined.

(** X23: flagExists and the not-found warning.  isFeatureEnabled logs
    that a flag was not found exactly when flagExists answers false for
    it; flagExists answers true for the own keys and for the names every
    object inherits, and for an inherited name isFeatureEnabled answers
    false without any warning. *)
Theorem X23_flagExists_and_not_found
    (rt : runtime) (featureFlags : FeatureFlagsConfig) (flag : string) :
  (flagExists featureFlags flag = false
   <-> In (FlagNotFound flag) (snd (isFeatureEnabled rt featureFlags flag)))
  /\ (flagExists featureFlags flag = true
      <-> is_Some (featureFlags !! flag) \/ In flag Object_prototype_keys)
  /\ (featureFlags !! flag = None -> In flag Object_prototype_keys ->
      isFeatureEnabled rt featureFlags flag = (false, [])).
Proof.
  unfold flagExists, isFeatureEnabled, get.
  destruct (featureFlags !! flag) as [config|] eqn:Hc.
  - split; [|split]; [|split; [by eauto|done]|discriminate].
    split; [discriminate|]. intros H.
    pose proof (isFeatureEnabled_own rt featureFlags flag config Hc) as Hown.
    unfold isFeatureEnabled, get in Hown. rewrite Hc in Hown.
    destruct Hown as [E|(d & _ & _ & E)]; rewrite E in H; [destruct H|].
    destruct H as [H|[]]. discriminate H.
  - case_bool_decide as Hk; rewrite list_elem_of_In in Hk.
    + split; [|split]; [|split; [by right|done]|done].
      split; [discriminate|]. intros [].
    + split; [|split]; [|split; [discriminate|]|done].
      * split; [intros _; by left|done].
      * intros [[? ?]|?]; [discriminate|done].
Qed.

(** X24: initializing the flags adds the example flag and nothing else.
    With a configuration loaded, every question about a flag other than
    example-feature, and about example-feature when the configuration has
    it, is answered as by the configuration alone; example-feature always
    exists, and it is off unless the configuration says otherwise. *)
Theorem X24_initialize_adds_example_only
    (rt : runtime) (config : FeatureFlagsConfig) (flag : string) :
  (flag <> "example-feature" \/ is_Some (config !! flag) ->
   initializeFeatureFlags config !! flag = config !! flag
   /\ isFeatureEnabled rt (initializeFeatureFlags config) flag
      = isFeatureEnabled rt config flag)
  /\ flagExists (initializeFeatureFlags config) "example-feature" = true
  /\ (config !! "example-feature" = None ->
      isFeatureEnabled rt (initializeFeatureFlags config) "example-feature"
      = (false, [])).
Proof.
  unfold initializeFeatureFlags, defaultFlags.
  split; [|split].
  - intros H.
    assert ((config ∪ {[ "example-feature" :=
                           {| enabled := false;
                              description := "Example feature flag";
                              owner := "team"; expiresAt := None;
                              environments := Some ["development"] |} ]})
              !! flag = config !! flag) as E.
    { destruct H as [H|[c H]].
      - rewrite lookup_union, lookup_singleton_ne by congruence.
        by destruct (config !! flag).
      - rewrite H. by apply lookup_union_Some_l. }
    split; [exact E|]. unfold isFeatureEnabled, get. by rewrite E.
  - unfold flagExists, get. rewrite lookup_union, lookup_singleton_eq.
    by destruct (config !! "example-feature").
  - intros H. unfold isFeatureEnabled, get.
    rewrite lookup_union, H, lookup_singleton_eq. reflexivity.
Qed.

Lemma X24_initialize_adds_example_only_witness :
  isFeatureEnabled Samples2.rt_2027 (initializeFeatureFlags Samples2.dated_flags)
    "old-checkout"
  = isFeatureEnabled Samples2.rt_2027 Samples2.dated_flags "old-checkout".
Proof.
  refine (proj2 (proj1 (X24_initialize_adds_example_only Samples2.rt_2027
                          Samples2.dated_flags "old-checkout") _)).
  left. discriminate.
Defined.

End FlagQueryFacts.

(** ** Adding modules and the connection check *)

Section AddThenConnect.
Import Text FS ConnectionsCheck.

Lemma add_module_dirs_persist today name fs o :
  AddModule.add_module today name fs = Some o ->
  forall p, is_dir fs p = true -> is_dir (AddModule.fs_after o) p = true.
Proof.
  intros H p Hp. destruct (add_module_cases today name fs o H) as [-> | ->];
    [exact Hp|].
  unfold is_dir in *. rewrite dirs_update_bible, dirs_create_files. cbn [dirs].
  apply bool_decide_eq_true. apply bool_decide_eq_true in Hp.
  apply elem_of_union. by right.
Qed.

Lemma list_sum_map_le {A} (f g : A -> nat) (l : list A) :
  (forall x, In x l -> f x <= g x) ->
  list_sum (map f l) <= list_sum (map g l).
Proof.
  induction l as [|x l IH]; intros H; simpl; [lia|].
  pose proof (H x (or_introl eq_refl)).
  assert (list_sum (map f l) <= list_sum (map g l))
    by (apply IH; intros y Hy; apply H; by right).
  lia.
Qed.

Lemma final_ERRORS_no_contracts env :
  ~ has_contracts env -> ERRORS (final_state env) = 0.
Proof.
  intros H. unfold final_state.
  destruct (exit_status_no_contracts env H) as [-> | ->]; cbn [snd];
    by rewrite ERRORS_echo.
Qed.

(** X25: adding a module never makes the connection check worse.  Run on
    the same contracts after a run of the add-module script, the check
    counts at most as many errors as before, so a check that passed still
    passes; and after a successful add, a document accepted as JSON with
    both names given and each endpoint either registered before or the new
    module draws no error. *)
Theorem X25_adding_module_keeps_check_passing
    (today name : string) (env : environment) (o : AddModule.outcome) :
  AddModule.add_module today name (env_fs env) = Some o ->
  let env' := ConnectionsExtra.with_fs env (AddModule.fs_after o) in
  ERRORS (final_state env') <= ERRORS (final_state env)
  /\ (exit_status env = 0 -> exit_status env' = 0)
  /\ (AddModule.exit_code o = 0 ->
      forall c,
        contract_is_file c = true -> json_syntax_ok c = true ->
        FROM_MODULE c <> EmptyString -> TO_MODULE c <> EmptyString ->
        FROM_MODULE c = name
        \/ is_dir (env_fs env) (module_dir (FROM_MODULE c)) = true ->
        TO_MODULE c = name
        \/ is_dir (env_fs env) (module_dir (TO_MODULE c)) = true ->
        ERRORS (process_contract (env_fs env') initial c) = 0).
Proof.
  intros Hrun env'.
  pose proof (add_module_dirs_persist _ _ _ _ Hrun) as Hdirs.
  assert (ERRORS (final_state env') <= ERRORS (final_state env)) as Hle.
  { destruct (has_contracts_dec env) as [H|H].
    - assert (has_contracts env') as H' by exact H.
      rewrite (final_ERRORS _ H), (final_ERRORS _ H').
      apply list_sum_map_le. intros c _. rewrite !document_errors.
      destruct (negb (contract_is_file c)); [lia|].
      destruct (negb (json_syntax_ok c)); [lia|].
      destruct (negb (nonempty (FROM_MODULE c)) || negb (nonempty (TO_MODULE c)));
        [lia|].
      subst env'. cbn [ConnectionsExtra.with_fs env_fs].
      pose proof (Hdirs (module_dir (FROM_MODULE c))).
      pose proof (Hdirs (module_dir (TO_MODULE c))).
      destruct (is_dir (env_fs env) (module_dir (FROM_MODULE c))),
        (is_dir (env_fs env) (module_dir (TO_MODULE c)));
        repeat match goal with
               | H : true = true -> _ |- _ => rewrite (H eq_refl); clear H
               end;
        cbn [negb b2n];
        destruct (is_dir (AddModule.fs_after o) (module_dir (FROM_MODULE c))),
          (is_dir (AddModule.fs_after o) (module_dir (TO_MODULE c)));
        cbn [negb b2n]; lia.
    - assert (~ has_contracts env') as H' by exact H.
      rewrite (final_ERRORS_no_contracts _ H),
        (final_ERRORS_no_contracts _ H'). lia. }
  split; [exact Hle|]. split.
  - rewrite !run_exit.
    destruct (Nat.eqb_spec (ERRORS (final_state env)) 0) as [E|E];
      [|discriminate].
    intros _. replace (ERRORS (final_state env')) with 0 by lia. reflexivity.
  - intros Hexit c Hf Hj Hfrom Hto Ha Hb.
    destruct (add_module_success _ _ _ _ Hrun Hexit)
      as (_ & Hnew & _ & _ & _ & _).
    rewrite document_errors, Hf, Hj. cbn [negb].
    apply nonempty_iff in Hfrom, Hto. rewrite Hfrom, Hto. cbn [negb orb].
    subst env'. cbn [ConnectionsExtra.with_fs env_fs].
    assert (is_dir (AddModule.fs_after o) (module_dir (FROM_MODULE c)) = true)
      as -> by (destruct Ha as [-> | Ha]; [exact Hnew|by apply Hdirs]).
    assert (is_dir (AddModule.fs_after o) (module_dir (TO_MODULE c)) = true)
      as -> by (destruct Hb as [-> | Hb]; [exact Hnew|by apply Hdirs]).
    reflexivity.
Qed.

Lemma X25_adding_module_keeps_check_passing_witness :
  match AddModule.add_module "2026-01-01" "c" (env_fs Samples.env_mutual_ab) with
  | Some o =>
      exit_status
        (ConnectionsExtra.with_fs Samples.env_mutual_ab (AddModule.fs_after o))
      = 0
  | None => False
  end.
Proof.
  destruct (AddModule.add_module "2026-01-01" "c" (env_fs Samples.env_mutual_ab))
    as [o|] eqn:E; [|vm_compute in E; discriminate E].
  apply (X25_adding_module_keeps_check_passing _ _ _ _ E).
  vm_compute. reflexivity.
Defined.

End AddThenConnect.

